(** * Flutter dependency checker: a shallow embedding of [src/check.ts],
    [src/utils/pubspec-utils.ts] and [src/services/excel-report.service.ts].

    JavaScript strings are sequences of UTF-16 code units, values of dynamic
    type are an inductive [jsval], exceptions are the [Throw] case of a
    [result], and the collaborators the script talks to (the semver package,
    the YAML parser, GitHub, pub.dev, Slack) are interfaces whose operations
    are passed in.

    Console output is an effect in [sendSlackNotification], whose error
    log is part of what is proved, and in [main], whose lines mark the
    order of its steps. Of the progress lines of [checkRepository] only
    what can go wrong in them is kept: a template string that renders a
    value which cannot be converted to a string throws a TypeError. The
    other lines print strings and numbers, and are left out, like the
    warning of [extractDependencies]. *)

From Stdlib Require Import ZArith NArith List Ascii String DecimalString DecimalNat Lia Bool.
From stdpp Require Import base option list gmap.
Import ListNotations.

Set Warnings "-register-all".

Local Open Scope N_scope.
Local Open Scope list_scope.

(** ** JavaScript strings *)

(** A string is the list of its UTF-16 code units. *)
Abbreviation jsstring := (list N).

(** An ASCII literal of the source, as code units. *)
Definition lit (s : string) : jsstring :=
  map N_of_ascii (list_ascii_of_string s).

(** [\s] of a JavaScript regular expression, which is also what
    [String.prototype.trim] removes: WhiteSpace and LineTerminator. *)
Definition is_space (c : N) : bool :=
  ((9 <=? c) && (c <=? 13)) || (c =? 32) || (c =? 160) || (c =? 5760)
  || ((8192 <=? c) && (c <=? 8202)) || (c =? 8232) || (c =? 8233)
  || (c =? 8239) || (c =? 8287) || (c =? 12288) || (c =? 65279).

(** [\d] without the unicode flag: [0-9]. *)
Definition is_digit (c : N) : bool := (48 <=? c) && (c <=? 57).

(** [\w]: [A-Za-z0-9_]. *)
Definition is_word (c : N) : bool :=
  ((65 <=? c) && (c <=? 90)) || ((97 <=? c) && (c <=? 122))
  || is_digit c || (c =? 95).

(** The character class [[\^~>=<\s]] of the base-version regex. *)
Definition is_op_or_space (c : N) : bool :=
  (c =? 94) || (c =? 126) || (c =? 62) || (c =? 61) || (c =? 60) || is_space c.

Fixpoint drop_while (p : N → bool) (s : jsstring) : jsstring :=
  match s with
  | [] => []
  | c :: s' => if p c then drop_while p s' else s
  end.

Fixpoint take_while (p : N → bool) (s : jsstring) : jsstring :=
  match s with
  | [] => []
  | c :: s' => if p c then c :: take_while p s' else []
  end.

(** [s.trim()] *)
Definition trim (s : jsstring) : jsstring :=
  rev (drop_while is_space (rev (drop_while is_space s))).

(** [s.startsWith(p)] *)
Fixpoint startsWith (s p : jsstring) {struct p} : bool :=
  match p, s with
  | [], _ => true
  | _ :: _, [] => false
  | a :: p', b :: s' => (a =? b) && startsWith s' p'
  end.

(** [s.includes(p)] *)
Fixpoint includes (s p : jsstring) : bool :=
  startsWith s p ||
  match s with
  | [] => false
  | _ :: s' => includes s' p
  end.

(** [s.replace(p, '')] for a string pattern [p]: the first occurrence of
    [p] is removed, and [s] is unchanged when there is none. *)
Fixpoint remove_first (s p : jsstring) : jsstring :=
  if startsWith s p then drop (length p) s
  else match s with
       | [] => []
       | c :: s' => c :: remove_first s' p
       end.

(** [s.split(sep)] for a one-character separator. *)
Fixpoint split_char (sep : N) (cur : jsstring) (s : jsstring) : list jsstring :=
  match s with
  | [] => [cur]
  | c :: s' =>
      if c =? sep then cur :: split_char sep [] s'
      else split_char sep (cur ++ [c]) s'
  end.

(** [s.split(/\s+/)]: the pieces between maximal runs of white space; a
    leading or trailing run leaves an empty first or last piece.
    [in_sep] says that the scan is inside a run. *)
Fixpoint split_ws_go (in_sep : bool) (cur : jsstring) (s : jsstring)
  : list jsstring :=
  match s with
  | [] => [cur]
  | c :: s' =>
      if is_space c then
        if in_sep then split_ws_go true [] s'
        else cur :: split_ws_go true [] s'
      else split_ws_go false (cur ++ [c]) s'
  end.

Definition split_ws (s : jsstring) : list jsstring := split_ws_go false [] s.

(** [s.replace(/^[\^~>=<\s]+/, '')] *)
Definition strip_leading_ops (s : jsstring) : jsstring :=
  drop_while is_op_or_space s.

(** [a === b] on strings. *)
Fixpoint streq (a b : jsstring) : bool :=
  match a, b with
  | [], [] => true
  | x :: a', y :: b' => (x =? y) && streq a' b'
  | _, _ => false
  end.

(** The base version as the specification words it: the constraint
    without its leading operator characters and white space, up to the
    first white space. *)
Definition base_token (constraint : jsstring) : jsstring :=
  take_while (λ c, negb (is_space c)) (drop_while is_op_or_space constraint).

(** ** Values and exceptions *)

(** What [yaml.parse] can return, and what a property read can yield.
    [JObj props] lists the own enumerable properties in the order
    [Object.entries] enumerates them. [JNum] holds the integers; a
    fraction behaves below like any number other than zero. *)
Inductive jsval : Type :=
| JUndefined
| JNull
| JBool (b : bool)
| JNum (z : Z)
| JNaN
| JStr (s : jsstring)
| JArr (items : list jsval)
| JObj (props : list (jsstring * jsval)).

(** ToBoolean *)
Definition truthy (v : jsval) : bool :=
  match v with
  | JUndefined | JNull | JNaN => false
  | JBool b => b
  | JNum z => negb (z =? 0)%Z
  | JStr s => match s with [] => false | _ => true end
  | JArr _ | JObj _ => true
  end.

(** The outcome of an expression that may throw; an exception is
    represented by its message ([error.message], or [String(error)]). *)
Inductive result (A : Type) : Type :=
| Return (a : A)
| Throw (message : jsstring).
Arguments Return {A} a.
Arguments Throw {A} message.

#[global] Instance result_ret : MRet result := λ A a, Return a.
#[global] Instance result_bind : MBind result := λ A B f m,
  match m with
  | Return a => f a
  | Throw e => Throw e
  end.

(** [try { body } catch (e) { handler(e) }] *)
Definition try_catch {A} (body : result A) (handler : jsstring → result A)
  : result A :=
  match body with
  | Return a => Return a
  | Throw e => handler e
  end.

Definition returns {A} (r : result A) : Prop := ∃ a, r = Return a.

(** The receiver of a string method: calling [.replace] on anything that
    is not a string is a TypeError. *)
Definition string_receiver (v : jsval) : result jsstring :=
  match v with
  | JStr s => Return s
  | _ => Throw (lit "currentVersion.replace is not a function")
  end.

(** ** The semver package

    The package is not part of the repository. Its constructor, the
    accessors of a parsed version, the precedence order and the range
    test are the operations of an interface; [valid], [gt], [major],
    [minor] and [patch] are the package's wrappers around the
    constructor. *)
Class SemverLib : Type := {
  SemVer : Type;
  (** [new SemVer(s)]; [None] when the constructor throws. *)
  sv_new : jsstring → option SemVer;
  (** The [version] property: the normalised text. *)
  sv_version : SemVer → jsstring;
  sv_major : SemVer → Z;
  sv_minor : SemVer → Z;
  sv_patch : SemVer → Z;
  (** [a.compare(b)] *)
  sv_compare : SemVer → SemVer → comparison;
  (** [semver.satisfies(version, range)]; it catches the errors of both
      parsers and answers false. *)
  sv_satisfies : jsstring → jsstring → bool;
  sv_version_nonempty : ∀ s v, sv_new s = Some v → sv_version v ≠ [];
  sv_new_version : ∀ s v, sv_new s = Some v →
    ∃ v', sv_new (sv_version v) = Some v'
          ∧ sv_major v' = sv_major v
          ∧ sv_minor v' = sv_minor v
          ∧ sv_patch v' = sv_patch v
}.

Module Semver.
Section Wrappers.
Context `{SemverLib}.

Definition invalid (s : jsstring) : jsstring := lit "Invalid Version: " ++ s.

(** [semver.valid(s)]: the normalised version, or null. *)
Definition valid (s : jsstring) : option jsstring :=
  match sv_new s with
  | Some v => Some (sv_version v)
  | None => None
  end.

(** [semver.gt(a, b)]: [new SemVer(a).compare(new SemVer(b)) > 0]. *)
Definition gt (a b : jsstring) : result bool :=
  match sv_new a with
  | None => Throw (invalid a)
  | Some x =>
      match sv_new b with
      | None => Throw (invalid b)
      | Some y => Return (match sv_compare x y with Gt => true | _ => false end)
      end
  end.

Definition component (f : SemVer → Z) (s : jsstring) : result Z :=
  match sv_new s with
  | Some v => Return (f v)
  | None => Throw (invalid s)
  end.

Definition major : jsstring → result Z := component sv_major.
Definition minor : jsstring → result Z := component sv_minor.
Definition patch : jsstring → result Z := component sv_patch.

End Wrappers.
End Semver.

(** Truthiness of a [string | null]. *)
Definition truthy_str (o : option jsstring) : bool :=
  match o with
  | Some (_ :: _) => true
  | _ => false
  end.

(** ** Divergence classifier ([check.ts], isUpdateAvailable and
    getVersionUpdateType) *)

Inductive UpdateType : Type := Major | Minor | Patch.

Section Classifier.
Context `{SemverLib}.

(** [currentVersion.replace(/^[\^~>=<\s]+/, '').split(/\s+/)[0]]; a split
    has at least one piece, so index 0 exists. *)
Definition baseVersion (currentVersion : jsstring) : jsstring :=
  nth 0 (split_ws (strip_leading_ops currentVersion)) [].

Definition isUpdateAvailable (currentVersion : jsval) (latestVersion : jsstring)
  : result bool :=
  try_catch
    (cur ← string_receiver currentVersion;
     let base := baseVersion cur in
     if truthy_str (Semver.valid base) && truthy_str (Semver.valid latestVersion)
     then
       newer ← Semver.gt latestVersion base;
       if (newer : bool)
       then mret (negb (sv_satisfies latestVersion cur))
       else mret false
     else mret false)
    (λ _, Return false).

Definition getVersionUpdateType (currentVersion : jsval) (latestVersion : jsstring)
  : result (option UpdateType) :=
  try_catch
    (cur ← string_receiver currentVersion;
     let base := baseVersion cur in
     let current := Semver.valid base in
     let latest := Semver.valid latestVersion in
     if negb (truthy_str current) || negb (truthy_str latest) then mret None
     else
       let current := default [] current in
       let latest := default [] latest in
       lM ← Semver.major latest;
       cM ← Semver.major current;
       if (lM >? cM)%Z then mret (Some Major)
       else
         lm ← Semver.minor latest;
         cm ← Semver.minor current;
         if (lm >? cm)%Z then mret (Some Minor)
         else
           lp ← Semver.patch latest;
           cp ← Semver.patch current;
           if (lp >? cp)%Z then mret (Some Patch)
           else mret None)
    (λ _, Return None).

End Classifier.

(** The severity tie-break as the specification words it. *)
Definition severity `{SemverLib} (latest base : SemVer) : option UpdateType :=
  if (sv_major latest >? sv_major base)%Z then Some Major
  else if (sv_minor latest >? sv_minor base)%Z then Some Minor
  else if (sv_patch latest >? sv_patch base)%Z then Some Patch
  else None.

(** ** Version extractor ([getFlutterVersionFromPubspec]) *)

(** [/(\d+\.\d+\.\d+)/] tried at the head of [s]. Each [\d+] is greedy and
    what must follow it is not a digit, so only the maximal run of digits
    can lead to a match. *)
Definition match_triple_here (s : jsstring) : option jsstring :=
  let d1 := take_while is_digit s in
  match d1, drop_while is_digit s with
  | _ :: _, 46 :: s1 =>
      let d2 := take_while is_digit s1 in
      match d2, drop_while is_digit s1 with
      | _ :: _, 46 :: s2 =>
          match take_while is_digit s2 with
          | [] => None
          | d3 => Some (d1 ++ [46] ++ d2 ++ [46] ++ d3)
          end
      | _, _ => None
      end
  | _, _ => None
  end.

(** [s.match(/(\d+\.\d+\.\d+)/)]: group 1 of the leftmost match, or null. *)
Fixpoint match_triple (s : jsstring) : option jsstring :=
  match match_triple_here s with
  | Some m => Some m
  | None =>
      match s with
      | [] => None
      | _ :: s' => match_triple s'
      end
  end.

(** [line.match(/^\s*\w+:/)] as a condition. *)
Definition key_line (line : jsstring) : bool :=
  let s := drop_while is_space line in
  match take_while is_word s, drop_while is_word s with
  | _ :: _, 58 :: _ => true
  | _, _ => false
  end.

(** The body of the [for] loop over the lines, with the flag
    [inEnvironment] as the loop's state; [None] is the [null] returned
    after the loop or after [break]. *)
Fixpoint scan_lines (inEnvironment : bool) (lines : list jsstring)
  : option jsstring :=
  match lines with
  | [] => None
  | line :: rest =>
      let trimmed := trim line in
      if streq trimmed (lit "environment:") then scan_lines true rest
      else
        let versionMatch :=
          if inEnvironment && startsWith trimmed (lit "flutter:")
          then match_triple (trim (remove_first trimmed (lit "flutter:")))
          else None in
        match versionMatch with
        | Some v => Some v
        | None =>
            if inEnvironment && key_line line
               && negb (includes line (lit "flutter:"))
            then None
            else scan_lines inEnvironment rest
        end
  end.

(** No operation of the body throws on a string, so the [catch] branch
    is never taken. *)
Definition getFlutterVersionFromPubspec (pubspecContent : jsstring)
  : option jsstring :=
  scan_lines false (split_char 10 [] pubspecContent).

(** ** Dependency extractor ([extractDependencies]) *)

(** The decimal text of an array index. *)
Definition index_key (i : nat) : jsstring :=
  lit (NilEmpty.string_of_uint (Nat.to_uint i)).

Fixpoint lookup_prop (props : list (jsstring * jsval)) (k : jsstring) : jsval :=
  match props with
  | [] => JUndefined
  | (k', v) :: props' => if streq k' k then v else lookup_prop props' k
  end.

(** [v.k] for a name [k] that is neither an index nor a built-in
    property, on a value other than null and undefined (every read below
    is guarded by a truthiness test). *)
Definition get_prop (v : jsval) (k : jsstring) : jsval :=
  match v with
  | JObj props => lookup_prop props k
  | _ => JUndefined
  end.

(** [Object.entries(v)] for a value other than null and undefined. *)
Definition entries (v : jsval) : list (jsstring * jsval) :=
  match v with
  | JObj props => props
  | JArr items => imap (λ i x, (index_key i, x)) items
  | JStr s => imap (λ i c, (index_key i, JStr [c])) s
  | _ => []
  end.

(** [a || b] *)
Definition js_or (a b : jsval) : jsval := if truthy a then a else b.

Record Dependency : Type := {
  dep_name : jsstring;
  dep_version : jsval
}.

Definition any : jsval := JStr (lit "any").

(** The version an entry declares: the three-way test on [typeof spec],
    then the [version || 'any'] of the push. *)
Definition declared_version (spec : jsval) : jsval :=
  let version :=
    match spec with
    | JStr s => JStr s
    | JObj _ | JArr _ => js_or (get_prop spec (lit "version")) any
    | _ => any
    end in
  js_or version any.

Definition is_runtime_package (name : jsstring) : bool :=
  streq name (lit "flutter") || streq name (lit "flutter_test").

(** [Object.entries(map).forEach(...)], pushing onto [deps]. *)
Definition push_entries (deps : list Dependency) (map : jsval)
  : list Dependency :=
  fold_left
    (λ deps entry,
       let '(name, spec) := entry in
       if is_runtime_package name then deps
       else deps ++ [{| dep_name := name; dep_version := declared_version spec |}])
    (entries map) deps.

Definition extractDependencies (pubspec : jsval) (includeDevDeps : bool)
  : list Dependency :=
  let deps := [] in
  if negb (truthy pubspec) then deps
  else
    let deps :=
      if truthy (get_prop pubspec (lit "dependencies"))
      then push_entries deps (get_prop pubspec (lit "dependencies"))
      else deps in
    let deps :=
      if includeDevDeps && truthy (get_prop pubspec (lit "dev_dependencies"))
      then push_entries deps (get_prop pubspec (lit "dev_dependencies"))
      else deps in
    deps.

(** Keys of one object are distinct. *)
Definition unique_keys (v : jsval) : Prop :=
  match v with
  | JObj props => NoDup (map fst props)
  | _ => True
  end.

(** The names a dependency map declares, the runtime's own packages
    left out, in the order of the map. *)
Definition declared_names (map : jsval) : list jsstring :=
  filter (λ name, is_runtime_package name = false) (fst <$> entries map).

(** ** Check aggregator ([checkRepository]) *)

Record Repository : Type := {
  repo_name : jsstring;
  repo_description : option jsstring;
  repo_url : jsstring
}.

Record FlutterVersion : Type := {
  fv_current : jsstring;
  fv_latest : jsstring;
  fv_updateAvailable : bool
}.

Record PackageInfo : Type := {
  pkg_name : jsstring;
  pkg_current : jsval;
  pkg_latest : jsstring;
  pkg_updateAvailable : bool
}.

Record CheckResult : Type := {
  cr_repository : Repository;
  cr_flutter : FlutterVersion;
  cr_packages : list PackageInfo;
  cr_error : option jsstring
}.

(** The collaborators of one check: the manifest fetch (URL test, HTTP
    request and base64 decoding of [getPubspecFromGitHub]), the YAML
    parser and the pub.dev lookup. Each may throw. *)
Record Collaborators : Type := {
  getPubspecFromGitHub : jsstring → option jsstring → result jsstring;
  yaml_parse : jsstring → result jsval;
  getLatestPackageVersion : jsstring → result jsstring
}.

(** A [for ... of] loop whose body may throw: the first exception ends
    the loop and propagates. *)
Fixpoint for_each {A S : Type} (body : S → A → result S) (l : list A) (s : S)
  : result S :=
  match l with
  | [] => Return s
  | x :: l' =>
      match body s x with
      | Return s' => for_each body l' s'
      | Throw e => Throw e
      end
  end.

Definition error_result (repository : Repository) (latestFlutter message : jsstring)
  : CheckResult :=
  {| cr_repository := repository;
     cr_flutter := {| fv_current := lit "unknown";
                      fv_latest := latestFlutter;
                      fv_updateAvailable := false |};
     cr_packages := [];
     cr_error := Some message |}.

(** Whether [`${v}`] evaluates: the conversion of a value to a string.
    A primitive always converts. An array converts through [join], which
    converts its elements (null and undefined give the empty string). An
    object converts through [toString]: the inherited one gives
    [[object Object]], but an own property of that name, which in parsed
    YAML is never a function, hides it, and then neither it nor
    [valueOf] yields a primitive. *)
Fixpoint printable (v : jsval) : bool :=
  match v with
  | JArr items => forallb printable items
  | JObj props => negb (existsb (λ prop, streq prop.1 (lit "toString")) props)
  | _ => true
  end.

(** The TypeError of a conversion that fails (the message is V8's). *)
Definition conversion_failure : jsstring :=
  lit "Cannot convert object to primitive value".

(** A console line whose template string renders [v]: it prints, or the
    template throws before anything is printed. *)
Definition console_line (v : jsval) : result unit :=
  if printable v then Return () else Throw conversion_failure.

(** The entry recorded for a dependency whose resolution failed. *)
Definition not_available (dep : Dependency) : PackageInfo :=
  {| pkg_name := dep_name dep;
     pkg_current := dep_version dep;
     pkg_latest := lit "N/A";
     pkg_updateAvailable := false |}.

Section Aggregator.
Context `{SemverLib}.
Variable net : Collaborators.

(** The two [continue] tests at the head of the loop body. *)
Definition skipped (dep : Dependency) : bool :=
  let version := dep_version dep in
  (negb (truthy version) ||
   match version with JStr s => streq s (lit "any") | _ => false end)
  ||
  match version with
  | JStr s => includes s (lit "git:") || includes s (lit "path:")
  | _ => false
  end.

(** One iteration of the loop over the dependencies. The line of the
    first [continue] renders a version that is falsy or ['any'], the
    line of the second one only the name; the line that opens the inner
    [try], the line of an update and the error line of the inner
    [catch] render [dep.version]. An exception of the inner [catch]
    leaves the loop. *)
Definition check_dependency (packages : list PackageInfo) (dep : Dependency)
  : result (list PackageInfo) :=
  let version := dep_version dep in
  if negb (truthy version) ||
     match version with JStr s => streq s (lit "any") | _ => false end
  then
    _ ← console_line version;
    mret packages
  else if match version with
          | JStr s => includes s (lit "git:") || includes s (lit "path:")
          | _ => false
          end
  then mret packages
  else
    try_catch
      (_ ← console_line version;
       latest ← getLatestPackageVersion net (dep_name dep);
       updateAvailable ← isUpdateAvailable version latest;
       _ ← (if (updateAvailable : bool) then console_line version else mret ());
       mret (packages ++ [{| pkg_name := dep_name dep;
                             pkg_current := version;
                             pkg_latest := latest;
                             pkg_updateAvailable := updateAvailable |}]))
      (λ _,
       _ ← console_line version;
       mret (packages ++ [{| pkg_name := dep_name dep;
                             pkg_current := version;
                             pkg_latest := lit "N/A";
                             pkg_updateAvailable := false |}])).

(** The entry one dependency that is not skipped contributes. *)
Definition package_entry (dep : Dependency) : PackageInfo :=
  match getLatestPackageVersion net (dep_name dep) with
  | Return latest =>
      {| pkg_name := dep_name dep;
         pkg_current := dep_version dep;
         pkg_latest := latest;
         pkg_updateAvailable :=
           match isUpdateAvailable (dep_version dep) latest with
           | Return b => b
           | Throw _ => false
           end |}
  | Throw _ => not_available dep
  end.

Definition parse_failure : jsstring :=
  lit "Failed to parse pubspec.yaml: result is null".

Definition checkRepository (repository : Repository) (latestFlutter : jsstring)
  (githubToken : option jsstring) : result CheckResult :=
  try_catch
    (pubspecContent ← getPubspecFromGitHub net (repo_url repository) githubToken;
     pubspec ← yaml_parse net pubspecContent;
     if negb (truthy pubspec) then Throw parse_failure
     else
       let currentFlutter :=
         match getFlutterVersionFromPubspec pubspecContent with
         | Some (c :: v) => c :: v
         | _ => latestFlutter
         end in
       let flutter :=
         {| fv_current := currentFlutter;
            fv_latest := latestFlutter;
            fv_updateAvailable := negb (streq currentFlutter latestFlutter) |} in
       let dependencies := extractDependencies pubspec true in
       packages ← for_each check_dependency dependencies [];
       mret {| cr_repository := repository;
               cr_flutter := flutter;
               cr_packages := packages;
               cr_error := None |})
    (λ errorMessage,
     mret {| cr_repository := repository;
             cr_flutter := {| fv_current := lit "unknown";
                              fv_latest := latestFlutter;
                              fv_updateAvailable := false |};
             cr_packages := [];
             cr_error := Some errorMessage |}).

End Aggregator.

(** Every declared version that the loop renders in its inner [try] can
    be converted to a string. *)
Definition renderable (pubspec : jsval) : bool :=
  forallb (λ dep, skipped dep || printable (dep_version dep))
          (extractDependencies pubspec true).

(** A result's [error] is tested by truthiness ([if (result.error)]). *)
Definition has_error (r : CheckResult) : bool := truthy_str (cr_error r).

(** [result.packages.filter(p => p.updateAvailable).length] *)
Definition outdated_count (r : CheckResult) : nat :=
  length (filter (λ p, pkg_updateAvailable p = true) (cr_packages r)).

(** ** Notification and artifact upload ([sendSlackNotification]) *)

(** What the function does to the outside world, in order: the calls it
    issues to Slack and to the upload URL, and its console output. *)
Inductive Effect : Type :=
| PostMessage (channel text : jsstring)
| GetUploadURLExternal (filename : jsstring) (length : nat)
| PutFile (upload_url : jsstring) (length : nat)
| CompleteUploadExternal (file_id channel_id : jsstring) (thread_ts : option jsstring)
| ConsoleLog (line : jsstring)
| ConsoleError (line message : jsstring).

(** A computation that issues calls and may throw: it extends the trace
    of effects so far. *)
Definition io (A : Type) : Type := list Effect → result A * list Effect.

#[global] Instance io_ret : MRet io := λ A a trace, (Return a, trace).
#[global] Instance io_bind : MBind io := λ A B f m trace,
  match m trace with
  | (Return a, trace') => f a trace'
  | (Throw e, trace') => (Throw e, trace')
  end.

(** An awaited call: the call is issued, then its outcome is returned or
    thrown. *)
Definition perform {A} (e : Effect) (outcome : result A) : io A :=
  λ trace, (outcome, trace ++ [e]).

Definition throw {A} (message : jsstring) : io A := λ trace, (Throw message, trace).

Definition io_try {A} (body : io A) (handler : jsstring → io A) : io A :=
  λ trace,
    match body trace with
    | (Return a, trace') => (Return a, trace')
    | (Throw e, trace') => handler e trace'
    end.

Record MessageResponse : Type := { mr_ts : option jsstring }.

Record UploadURLResponse : Type := {
  uu_ok : bool;
  uu_upload_url : option jsstring;
  uu_file_id : option jsstring;
  uu_error : option jsstring
}.

Record CompleteUploadResponse : Type := {
  cu_ok : bool;
  cu_error : option jsstring
}.

(** The Slack client, the HTTP PUT, the clock and the workbook writer
    ([generateExcelFile] stands for building the workbook and its
    [writeBuffer]: the upload sees only the buffer or the exception).
    [Blocks] is the message's block array; how it is laid out is
    presentation, so it is built by [compose_blocks]. *)
Record Messaging (Blocks : Type) : Type := {
  compose_blocks : list CheckResult → jsstring → Blocks;
  chat_postMessage : jsstring → jsstring → Blocks → result MessageResponse;
  generateExcelFile : list CheckResult → result (list N);
  toISOString : jsstring;
  files_getUploadURLExternal : jsstring → nat → result UploadURLResponse;
  axios_put : jsstring → list N → result unit;
  files_completeUploadExternal :
    jsstring → jsstring → option jsstring → result CompleteUploadResponse
}.
Arguments compose_blocks {Blocks} _ _ _.
Arguments chat_postMessage {Blocks} _ _ _ _.
Arguments generateExcelFile {Blocks} _ _.
Arguments toISOString {Blocks} _.
Arguments files_getUploadURLExternal {Blocks} _ _ _.
Arguments axios_put {Blocks} _ _ _.
Arguments files_completeUploadExternal {Blocks} _ _ _ _.

(** [a || b] on a [string | undefined] and a string. *)
Definition str_or (a : option jsstring) (b : jsstring) : jsstring :=
  match a with
  | Some (c :: s) => c :: s
  | _ => b
  end.

Definition update_text : jsstring :=
  lit "Flutter" ++ [20381; 23384; 38306; 20418; 26356; 26032; 36890; 30693].
Definition check_text : jsstring :=
  lit "Flutter" ++ [20381; 23384; 38306; 20418; 12481; 12455; 12483; 12463; 32080; 26524].

Definition log_generating : jsstring := [55357; 56522] ++ lit " Generating Excel file...".
Definition log_uploaded : jsstring := [9989] ++ lit " Excel file uploaded to Slack thread".
Definition log_upload_failed : jsstring := [10060] ++ lit " Failed to upload Excel file:".

(** [iso.replace(/[:.]/g, '-').slice(0, -5)] *)
Definition timestamp_of (iso : jsstring) : jsstring :=
  let dashed := map (λ c, if (c =? 58) || (c =? 46) then 45 else c) iso in
  take (length dashed - 5)%nat dashed.

Definition upload_filename (iso : jsstring) : jsstring :=
  lit "flutter-dependency-check-" ++ timestamp_of iso ++ lit ".xlsx".

Section Notification.
Context {Blocks : Type}.
Variable slack : Messaging Blocks.

Definition hasUpdates (results : list CheckResult) : bool :=
  existsb
    (λ r, negb (has_error r) &&
          (fv_updateAvailable (cr_flutter r)
           || existsb pkg_updateAvailable (cr_packages r)))
    results.

(** The [try] block after the post: workbook, then the three phases. *)
Definition upload_report (channel : jsstring) (results : list CheckResult)
  (messageResponse : MessageResponse) : io unit :=
  _ ← perform (ConsoleLog log_generating) (Return ());
  excelBuffer ← (λ trace, (generateExcelFile slack results, trace));
  let filename := upload_filename (toISOString slack) in
  getUploadURLResponse ←
    perform (GetUploadURLExternal filename (length excelBuffer))
            (files_getUploadURLExternal slack filename (length excelBuffer));
  if negb (uu_ok getUploadURLResponse)
     || negb (truthy_str (uu_upload_url getUploadURLResponse))
     || negb (truthy_str (uu_file_id getUploadURLResponse))
  then throw (str_or (uu_error getUploadURLResponse) (lit "Failed to get upload URL"))
  else
    let uploadUrl := default [] (uu_upload_url getUploadURLResponse) in
    let fileId := default [] (uu_file_id getUploadURLResponse) in
    _ ← perform (PutFile uploadUrl (length excelBuffer))
                (axios_put slack uploadUrl excelBuffer);
    let thread_ts :=
      if truthy_str (mr_ts messageResponse) then mr_ts messageResponse else None in
    completeUploadResponse ←
      perform (CompleteUploadExternal fileId channel thread_ts)
              (files_completeUploadExternal slack fileId channel thread_ts);
    if negb (cu_ok completeUploadResponse)
    then throw (str_or (cu_error completeUploadResponse) (lit "Failed to complete upload"))
    else perform (ConsoleLog log_uploaded) (Return ()).

Definition sendSlackNotification (channel : jsstring) (results : list CheckResult)
  (latestFlutter : jsstring) : io unit :=
  let blocks := compose_blocks slack results latestFlutter in
  let text := if hasUpdates results then update_text else check_text in
  messageResponse ←
    perform (PostMessage channel text) (chat_postMessage slack channel text blocks);
  io_try
    (upload_report channel results messageResponse)
    (λ message, perform (ConsoleError log_upload_failed message) (Return ())).

Definition notification_text (results : list CheckResult) : jsstring :=
  if hasUpdates results then update_text else check_text.

(** The request phase answered with everything the transfer needs. *)
Definition request_granted (r : UploadURLResponse) : Prop :=
  uu_ok r = true
  ∧ truthy_str (uu_upload_url r) = true
  ∧ truthy_str (uu_file_id r) = true.

Definition thread_anchor (response : MessageResponse) : option jsstring :=
  if truthy_str (mr_ts response) then mr_ts response else None.

(** The calls of the upload up to and including each phase: the log
    line and the request, then the transfer, then the completion. *)
Definition through_request (buffer : list N) : list Effect :=
  [ConsoleLog log_generating;
   GetUploadURLExternal (upload_filename (toISOString slack)) (length buffer)].

Definition through_transfer (buffer : list N) (r : UploadURLResponse)
  : list Effect :=
  through_request buffer
  ++ [PutFile (default [] (uu_upload_url r)) (length buffer)].

Definition through_completion (channel : jsstring) (response : MessageResponse)
  (buffer : list N) (r : UploadURLResponse) : list Effect :=
  through_transfer buffer r
  ++ [CompleteUploadExternal (default [] (uu_file_id r)) channel
        (thread_anchor response)].

(** The ways the upload can fail once the message is posted, each with
    the message of the error raised and the calls issued by then: the
    workbook cannot be written, the request phase throws or answers
    without success, URL or file id, the transfer throws, the
    completion throws or answers without success. *)
Inductive upload_failure (channel : jsstring) (results : list CheckResult)
  (response : MessageResponse) : jsstring → list Effect → Prop :=
| workbook_failed message :
    generateExcelFile slack results = Throw message →
    upload_failure channel results response message [ConsoleLog log_generating]
| request_failed buffer message :
    generateExcelFile slack results = Return buffer →
    files_getUploadURLExternal slack (upload_filename (toISOString slack))
      (length buffer) = Throw message →
    upload_failure channel results response message (through_request buffer)
| request_refused buffer r :
    generateExcelFile slack results = Return buffer →
    files_getUploadURLExternal slack (upload_filename (toISOString slack))
      (length buffer) = Return r →
    uu_ok r = false ∨ truthy_str (uu_upload_url r) = false
    ∨ truthy_str (uu_file_id r) = false →
    upload_failure channel results response
      (str_or (uu_error r) (lit "Failed to get upload URL"))
      (through_request buffer)
| transfer_failed buffer r message :
    generateExcelFile slack results = Return buffer →
    files_getUploadURLExternal slack (upload_filename (toISOString slack))
      (length buffer) = Return r →
    request_granted r →
    axios_put slack (default [] (uu_upload_url r)) buffer = Throw message →
    upload_failure channel results response message (through_transfer buffer r)
| completion_failed buffer r message :
    generateExcelFile slack results = Return buffer →
    files_getUploadURLExternal slack (upload_filename (toISOString slack))
      (length buffer) = Return r →
    request_granted r →
    axios_put slack (default [] (uu_upload_url r)) buffer = Return () →
    files_completeUploadExternal slack (default [] (uu_file_id r)) channel
      (thread_anchor response) = Throw message →
    upload_failure channel results response message
      (through_completion channel response buffer r)
| completion_refused buffer r c :
    generateExcelFile slack results = Return buffer →
    files_getUploadURLExternal slack (upload_filename (toISOString slack))
      (length buffer) = Return r →
    request_granted r →
    axios_put slack (default [] (uu_upload_url r)) buffer = Return () →
    files_completeUploadExternal slack (default [] (uu_file_id r)) channel
      (thread_anchor response) = Return c →
    cu_ok c = false →
    upload_failure channel results response
      (str_or (cu_error c) (lit "Failed to complete upload"))
      (through_completion channel response buffer r).

(** The calls that reach the chat, and the log line of a finished
    upload. *)
Definition touches_chat (e : Effect) : bool :=
  match e with
  | PostMessage _ _ => true
  | _ => false
  end.

Definition reports_success (e : Effect) : bool :=
  match e with
  | ConsoleLog line => streq line log_uploaded
  | _ => false
  end.

End Notification.

(** ** Summary sheet ([createSummarySheet]) *)

Inductive Cell : Type :=
| Text (s : jsstring)
| Number (n : nat).

Record SummaryRow : Type := {
  sr_repository : Cell;
  sr_flutterCurrent : Cell;
  sr_flutterLatest : Cell;
  sr_flutterUpdate : Cell;
  sr_outdatedCount : Cell;
  sr_totalCount : Cell;
  sr_status : Cell
}.

(** A font as the sheet sets it: a colour and, on single cells, bold. *)
Record Font : Type := {
  font_color : jsstring;
  font_bold : bool
}.

(** What is assigned to a cell: a solid fill and a bold font. *)
Record CellStyle : Type := {
  cs_fill : jsstring;
  cs_font_color : jsstring;
  cs_bold : bool
}.

(** The worksheet under the header row: the rows added so far (the k-th
    one is sheet row k + 2, and has one cell in each of the seven
    columns), the font set on whole rows by row number, and the fill
    and the font of single cells by row and column number. *)
Record Worksheet : Type := {
  ws_rows : list SummaryRow;
  ws_row_font : gmap nat Font;
  ws_cell_fill : gmap (nat * nat) jsstring;
  ws_cell_font : gmap (nat * nat) Font
}.

Definition text_error : jsstring := [12456; 12521; 12540].
Definition text_needs_update : jsstring := [35201; 26356; 26032].
Definition text_up_to_date : jsstring := [26368; 26032].

Definition addRow (row : SummaryRow) (ws : Worksheet) : Worksheet :=
  {| ws_rows := ws_rows ws ++ [row];
     ws_row_font := ws_row_font ws;
     ws_cell_fill := ws_cell_fill ws;
     ws_cell_font := ws_cell_font ws |}.

(** The columns of the sheet. *)
Definition columns : list nat := seq 1 7.

(** [worksheet.getRow(rowNumber).font = { color: { argb } }] on a row
    that was just added: ExcelJS keeps the font as the style of the row
    and assigns it to every cell of the row. *)
Definition set_row_font (rowNumber : nat) (argb : jsstring) (ws : Worksheet)
  : Worksheet :=
  let font := {| font_color := argb; font_bold := false |} in
  {| ws_rows := ws_rows ws;
     ws_row_font := <[rowNumber := font]> (ws_row_font ws);
     ws_cell_fill := ws_cell_fill ws;
     ws_cell_font :=
       foldr (λ column fonts, <[(rowNumber, column) := font]> fonts)
             (ws_cell_font ws) columns |}.

(** [row.getCell(column).fill = ...] followed by
    [row.getCell(column).font = ...]. *)
Definition set_cell_style (rowNumber column : nat) (style : CellStyle)
  (ws : Worksheet) : Worksheet :=
  {| ws_rows := ws_rows ws;
     ws_row_font := ws_row_font ws;
     ws_cell_fill := <[(rowNumber, column) := cs_fill style]> (ws_cell_fill ws);
     ws_cell_font :=
       <[(rowNumber, column) := {| font_color := cs_font_color style;
                                   font_bold := cs_bold style |}]>
         (ws_cell_font ws) |}.

Definition highlight : CellStyle :=
  {| cs_fill := lit "FFFFEB9C"; cs_font_color := lit "FF9C5700"; cs_bold := true |}.
Definition calm : CellStyle :=
  {| cs_fill := lit "FFC6EFCE"; cs_font_color := lit "FF006100"; cs_bold := true |}.

(** One iteration of the loop over the results; the state is the sheet
    and [rowNumber]. *)
Definition summary_step (state : Worksheet * nat) (result : CheckResult)
  : Worksheet * nat :=
  let '(worksheet, rowNumber) := state in
  if has_error result then
    let worksheet :=
      addRow {| sr_repository := Text (repo_name (cr_repository result));
                sr_flutterCurrent := Text text_error;
                sr_flutterLatest := Text [];
                sr_flutterUpdate := Text [];
                sr_outdatedCount := Text [];
                sr_totalCount := Text [];
                sr_status := Text text_error |} worksheet in
    (set_row_font rowNumber (lit "FFFF0000") worksheet, S rowNumber)
  else
    let outdatedCount := outdated_count result in
    let totalCount := length (cr_packages result) in
    let hasFlutterUpdate := fv_updateAvailable (cr_flutter result) in
    let worksheet :=
      addRow {| sr_repository := Text (repo_name (cr_repository result));
                sr_flutterCurrent := Text (fv_current (cr_flutter result));
                sr_flutterLatest := Text (fv_latest (cr_flutter result));
                sr_flutterUpdate :=
                  Text (if hasFlutterUpdate then text_needs_update else text_up_to_date);
                sr_outdatedCount := Number outdatedCount;
                sr_totalCount := Number totalCount;
                sr_status :=
                  Text (if hasFlutterUpdate || (0 <? outdatedCount)%nat
                        then text_needs_update else text_up_to_date) |} worksheet in
    let worksheet :=
      if hasFlutterUpdate || (0 <? outdatedCount)%nat
      then set_cell_style rowNumber 7 highlight worksheet
      else set_cell_style rowNumber 7 calm worksheet in
    let worksheet :=
      if hasFlutterUpdate then set_cell_style rowNumber 4 highlight worksheet
      else worksheet in
    (worksheet, S rowNumber).

Definition empty_sheet : Worksheet :=
  {| ws_rows := []; ws_row_font := ∅; ws_cell_fill := ∅; ws_cell_font := ∅ |}.

Definition createSummarySheet (results : list CheckResult) : Worksheet :=
  fst (fold_left summary_step results (empty_sheet, 2%nat)).

(** The overall status as the specification words it: error when the
    error field is set (to a message that is not empty); otherwise
    needsUpdate when the runtime is divergent or the count of packages
    with updateAvailable is greater than zero; otherwise upToDate. *)
Inductive OverallStatus : Type := StatusError | NeedsUpdate | UpToDate.

Fixpoint outdatedPackageCount (packages : list PackageInfo) : nat :=
  match packages with
  | [] => 0
  | p :: rest =>
      (if pkg_updateAvailable p then 1 else 0) + outdatedPackageCount rest
  end.

Definition overallStatus (r : CheckResult) : OverallStatus :=
  match cr_error r with
  | Some (_ :: _) => StatusError
  | _ =>
      if fv_updateAvailable (cr_flutter r) then NeedsUpdate
      else if (0 <? outdatedPackageCount (cr_packages r))%nat then NeedsUpdate
      else UpToDate
  end.


Definition status_text (s : OverallStatus) : jsstring :=
  match s with
  | StatusError => text_error
  | NeedsUpdate => text_needs_update
  | UpToDate => text_up_to_date
  end.

(** ** A reference implementation of the semver interface

    The fragment of the package on versions written MAJOR.MINOR.PATCH
    and on ranges that are blank-separated comparators with the
    operators ^ ~ >= <= > < =. It is what the examples below run
    against; the theorems hold for every implementation of the
    interface. *)
Module PlainSemver.

Record version : Type := {
  major : N;
  minor : N;
  patch : N;
  text : jsstring
}.

(** A numeric identifier: digits without a leading zero. *)
Definition numeric (d : jsstring) : bool :=
  match d with
  | [] => false
  | [_] => true
  | c :: _ => negb (c =? 48)
  end.

Definition value (d : jsstring) : N :=
  fold_left (λ acc c, 10 * acc + (c - 48)) d 0.

Definition parse (s : jsstring) : option version :=
  let d1 := take_while is_digit s in
  match drop_while is_digit s with
  | 46 :: s1 =>
      let d2 := take_while is_digit s1 in
      match drop_while is_digit s1 with
      | 46 :: s2 =>
          let d3 := take_while is_digit s2 in
          match drop_while is_digit s2 with
          | [] =>
              if numeric d1 && numeric d2 && numeric d3
              then Some {| major := value d1; minor := value d2;
                           patch := value d3; text := s |}
              else None
          | _ => None
          end
      | _ => None
      end
  | _ => None
  end.

Definition compare3 (a b : N * N * N) : comparison :=
  let '(a1, a2, a3) := a in
  let '(b1, b2, b3) := b in
  match a1 ?= b1 with
  | Eq => match a2 ?= b2 with
          | Eq => a3 ?= b3
          | c => c
          end
  | c => c
  end.

Definition triple (v : version) : N * N * N := (major v, minor v, patch v).

Definition compare (a b : version) : comparison := compare3 (triple a) (triple b).

Definition is_operator (c : N) : bool :=
  (c =? 94) || (c =? 126) || (c =? 62) || (c =? 61) || (c =? 60).

Definition caret_bound (b : version) : N * N * N :=
  if 0 <? major b then (major b + 1, 0, 0)
  else if 0 <? minor b then (0, minor b + 1, 0)
  else (0, 0, patch b + 1).

Definition tilde_bound (b : version) : N * N * N := (major b, minor b + 1, 0).

Definition below (v : version) (bound : N * N * N) : bool :=
  match compare3 (triple v) bound with Lt => true | _ => false end.

Definition at_least (v b : version) : bool :=
  match compare v b with Lt => false | _ => true end.

(** One comparator of a range, tested on [v]; [false] when it does not
    parse. *)
Definition test_comparator (v : version) (token : jsstring) : bool :=
  let op := take_while is_operator token in
  match parse (drop_while is_operator token) with
  | None => false
  | Some b =>
      if streq op (lit "^") then at_least v b && below v (caret_bound b)
      else if streq op (lit "~") then at_least v b && below v (tilde_bound b)
      else if streq op (lit ">=") then at_least v b
      else if streq op (lit "<=") then at_least b v
      else if streq op (lit ">") then negb (at_least b v)
      else if streq op (lit "<") then negb (at_least v b)
      else if streq op (lit "=") || streq op [] then
        match compare v b with Eq => true | _ => false end
      else false
  end.

Definition satisfies (v range : jsstring) : bool :=
  match parse v, trim range with
  | None, _ => false
  | Some _, [] => true
  | Some x, r => forallb (test_comparator x) (split_ws r)
  end.

(** The implementation as an instance of the interface; the two laws
    hold because a parsed version keeps the text it was parsed from. *)
Definition lib : SemverLib.
Proof.
  assert (Htext : ∀ s v, parse s = Some v → text v = s).
  { unfold parse. intros s v Hp.
    repeat match type of Hp with
           | match ?x with _ => _ end = _ => destruct x; try discriminate
           | (if ?x then _ else _) = _ => destruct x; try discriminate
           end.
    by inversion Hp. }
  refine {| SemVer := version;
            sv_new := parse;
            sv_version := text;
            sv_major := λ v, Z.of_N (major v);
            sv_minor := λ v, Z.of_N (minor v);
            sv_patch := λ v, Z.of_N (patch v);
            sv_compare := compare;
            sv_satisfies := satisfies |}.
  - intros s v Hp. rewrite (Htext _ _ Hp). by destruct s.
  - intros s v Hp. exists v. by rewrite (Htext _ _ Hp).
Defined.

End PlainSemver.

(** ** Data for the examples *)

Definition v1_2_0 : PlainSemver.version :=
  {| PlainSemver.major := 1; PlainSemver.minor := 2; PlainSemver.patch := 0;
     PlainSemver.text := lit "1.2.0" |}.
Definition v2_0_0 : PlainSemver.version :=
  {| PlainSemver.major := 2; PlainSemver.minor := 0; PlainSemver.patch := 0;
     PlainSemver.text := lit "2.0.0" |}.
Definition v1_3_5 : PlainSemver.version :=
  {| PlainSemver.major := 1; PlainSemver.minor := 3; PlainSemver.patch := 5;
     PlainSemver.text := lit "1.3.5" |}.

Definition unlines (lines : list jsstring) : jsstring :=
  match lines with
  | [] => []
  | first :: rest => fold_left (λ text line, text ++ [10] ++ line) rest first
  end.

(** An environment block as manifests usually write it: the SDK
    constraint first, the runtime pin second. *)
Definition pubspec_sdk_first : jsstring :=
  unlines [lit "name: app";
           lit "environment:";
           lit "  sdk: '>=3.0.0 <4.0.0'";
           lit "  flutter: '>=3.10.0'";
           lit "dependencies:";
           lit "  http: ^1.0.0"].

Definition pubspec_flutter_first : jsstring :=
  unlines [lit "name: app";
           lit "environment:";
           lit "  flutter: '>=3.10.0'";
           lit "  sdk: '>=3.0.0 <4.0.0'";
           lit "dependencies:";
           lit "  http: ^1.0.0"].

(** A manifest that names one package in both maps. *)
Definition pubspec_shared_package : jsval :=
  JObj [(lit "name", JStr (lit "app"));
        (lit "dependencies", JObj [(lit "lints", JStr (lit "^2.0.0"))]);
        (lit "dev_dependencies", JObj [(lit "lints", JStr (lit "^2.0.0"))])].

Definition pubspec_disjoint_maps : jsval :=
  JObj [(lit "dependencies",
         JObj [(lit "flutter", JObj [(lit "sdk", JStr (lit "flutter"))]);
               (lit "http", JStr (lit "^1.0.0"))]);
        (lit "dev_dependencies",
         JObj [(lit "flutter_test", JObj [(lit "sdk", JStr (lit "flutter"))]);
               (lit "lints", JStr (lit "^2.0.0"))])].

(** A parser that knows the listed documents: a blank document is
    [null], as with the YAML parser; any other text is a parse error. *)
Fixpoint parsed_document (documents : list (jsstring * jsval)) (content : jsstring)
  : result jsval :=
  match documents with
  | [] =>
      match trim content with
      | [] => Return JNull
      | _ => Throw (lit "YAMLParseError: document is not valid")
      end
  | (text, value) :: rest =>
      if streq text content then Return value else parsed_document rest content
  end.

(** A registry that knows the listed packages and fails on the others. *)
Fixpoint registry (packages : list (jsstring * jsstring)) (name : jsstring)
  : result jsstring :=
  match packages with
  | [] => Throw (lit "Failed to get latest version for " ++ name
                 ++ lit ": HTTP 404 - Not Found")
  | (known, version) :: rest =>
      if streq known name then Return version else registry rest name
  end.

Definition demo_repository : Repository :=
  {| repo_name := lit "example_app";
     repo_description := None;
     repo_url := lit "https://github.com/your-org/example_app" |}.

Definition serving (content : jsstring) (documents : list (jsstring * jsval))
  (packages : list (jsstring * jsstring)) : Collaborators :=
  {| getPubspecFromGitHub := λ _ _, Return content;
     yaml_parse := parsed_document documents;
     getLatestPackageVersion := registry packages |}.

(** An empty manifest. *)
Definition empty_manifest_net : Collaborators := serving [] [] [].

(** A manifest without an environment block, one of whose packages the
    registry does not know. *)
Definition manifest_without_environment : jsstring :=
  unlines [lit "name: app";
           lit "dependencies:";
           lit "  http: ^1.0.0";
           lit "  retired_pkg: ^0.3.0";
           lit "  provider: ^6.0.0"].

Definition parsed_without_environment : jsval :=
  JObj [(lit "name", JStr (lit "app"));
        (lit "dependencies",
         JObj [(lit "http", JStr (lit "^1.0.0"));
               (lit "retired_pkg", JStr (lit "^0.3.0"));
               (lit "provider", JStr (lit "^6.0.0"))])].

Definition demo_net : Collaborators :=
  serving manifest_without_environment
    [(manifest_without_environment, parsed_without_environment)]
    [(lit "http", lit "1.2.0"); (lit "provider", lit "7.0.0")].

(** A manifest that pins a runtime newer than the latest stable one. *)
Definition manifest_newer_pin : jsstring :=
  unlines [lit "name: app";
           lit "environment:";
           lit "  flutter: '3.30.0'"].

Definition parsed_newer_pin : jsval :=
  JObj [(lit "name", JStr (lit "app"));
        (lit "environment", JObj [(lit "flutter", JStr (lit "3.30.0"))])].

Definition newer_pin_net : Collaborators :=
  serving manifest_newer_pin [(manifest_newer_pin, parsed_newer_pin)] [].




(** A Slack whose request phase answers without a file id. *)
Definition slack_without_file_id : Messaging unit :=
  {| compose_blocks := λ _ _, ();
     chat_postMessage := λ _ _ _, Return {| mr_ts := Some (lit "1730000000.000100") |};
     generateExcelFile := λ _, Return [80; 75; 3; 4];
     toISOString := lit "2026-11-03T06:58:00.000Z";
     files_getUploadURLExternal := λ _ _,
       Return {| uu_ok := true;
                 uu_upload_url := Some (lit "https://files.slack.com/upload/v1/abc");
                 uu_file_id := None;
                 uu_error := None |};
     axios_put := λ _ _, Return ();
     files_completeUploadExternal := λ _ _ _,
       Return {| cu_ok := true; cu_error := None |} |}.

(** ** The loop of [main] over the repositories *)

Section Main.
Context `{SemverLib}.
Variable net : Collaborators.

(** [for (const repo of config.repositories) { results.push(await
    checkRepository(repo, latestFlutter, githubToken)) }] *)
Definition check_repositories (repositories : list Repository)
  (latestFlutter : jsstring) (githubToken : option jsstring)
  : result (list CheckResult) :=
  for_each
    (λ results repo,
       result ← checkRepository net repo latestFlutter githubToken;
       mret (results ++ [result]))
    repositories [].

End Main.

(** ** The declarations of a dependency map *)

(** The declaration one entry of a dependency map gives. *)
Definition declaration (entry : jsstring * jsval) : Dependency :=
  {| dep_name := entry.1; dep_version := declared_version entry.2 |}.


(** ** More data for the examples *)

(** A Slack that accepts every phase of the upload. *)
Definition slack_accepting : Messaging unit :=
  {| compose_blocks := λ _ _, ();
     chat_postMessage := λ _ _ _, Return {| mr_ts := Some (lit "1730000000.000100") |};
     generateExcelFile := λ _, Return [80; 75; 3; 4];
     toISOString := lit "2026-11-03T06:58:00.000Z";
     files_getUploadURLExternal := λ _ _,
       Return {| uu_ok := true;
                 uu_upload_url := Some (lit "https://files.slack.com/upload/v1/abc");
                 uu_file_id := Some (lit "F0123ABCD");
                 uu_error := None |};
     axios_put := λ _ _, Return ();
     files_completeUploadExternal := λ _ _ _,
       Return {| cu_ok := true; cu_error := None |} |}.

(** The result of checking [demo_repository] against [demo_net]. *)
Definition demo_result : CheckResult :=
  {| cr_repository := demo_repository;
     cr_flutter := {| fv_current := lit "3.29.0";
                      fv_latest := lit "3.29.0";
                      fv_updateAvailable := false |};
     cr_packages :=
       [ {| pkg_name := lit "http"; pkg_current := JStr (lit "^1.0.0");
            pkg_latest := lit "1.2.0"; pkg_updateAvailable := false |};
         {| pkg_name := lit "retired_pkg"; pkg_current := JStr (lit "^0.3.0");
            pkg_latest := lit "N/A"; pkg_updateAvailable := false |};
         {| pkg_name := lit "provider"; pkg_current := JStr (lit "^6.0.0");
            pkg_latest := lit "7.0.0"; pkg_updateAvailable := true |} ];
     cr_error := None |}.

(** A result without anything to update, and three results as a run
    can yield them: one that needs an update, one with an error, one up
    to date. *)
Definition up_to_date_result : CheckResult :=
  {| cr_repository := demo_repository;
     cr_flutter := {| fv_current := lit "3.29.0";
                      fv_latest := lit "3.29.0";
                      fv_updateAvailable := false |};
     cr_packages :=
       [ {| pkg_name := lit "http"; pkg_current := JStr (lit "^1.0.0");
            pkg_latest := lit "1.2.0"; pkg_updateAvailable := false |} ];
     cr_error := None |}.

Definition checked_results : list CheckResult :=
  [demo_result;
   error_result demo_repository (lit "3.29.0") (lit "Request failed with status code 404");
   up_to_date_result].

(** ** The shape of a version triple *)

(** One or more decimal digits. *)
Definition digits (d : jsstring) : Prop := d ≠ [] ∧ forallb is_digit d = true.

(** What [/\d+\.\d+\.\d+/] matches as a whole: three runs of digits
    separated by periods. *)
Definition version_triple (v : jsstring) : Prop :=
  ∃ d1 d2 d3, v = d1 ++ [46] ++ d2 ++ [46] ++ d3
              ∧ digits d1 ∧ digits d2 ∧ digits d3.

Definition no_newline (line : jsstring) : Prop := forallb (λ c, negb (c =? 10)) line = true.
Definition no_digit (s : jsstring) : Prop := forallb (λ c, negb (is_digit c)) s = true.
Definition not_digit_first (s : jsstring) : Prop :=
  match s with
  | [] => True
  | c :: _ => is_digit c = false
  end.

(** ** The styles of a summary row *)

Definition red_font : Font :=
  {| font_color := lit "FFFF0000"; font_bold := false |}.

Definition font_of (style : CellStyle) : Font :=
  {| font_color := cs_font_color style; font_bold := cs_bold style |}.

(** The font of the whole row of a result: red for an error. *)
Definition summary_row_font (r : CheckResult) : option Font :=
  match overallStatus r with
  | StatusError => Some red_font
  | _ => None
  end.

(** The style assigned to the cell of a result in a column: the status
    cell (column 7) is highlighted for a result that needs an update
    and calm for one that is up to date, the runtime cell (column 4) is
    highlighted when the runtime is divergent; no cell of an error row
    is assigned a style of its own. *)
Definition summary_cell_style (r : CheckResult) (column : nat) : option CellStyle :=
  match overallStatus r with
  | StatusError => None
  | NeedsUpdate =>
      if (column =? 7)%nat then Some highlight
      else if (column =? 4)%nat && fv_updateAvailable (cr_flutter r)
           then Some highlight
           else None
  | UpToDate => if (column =? 7)%nat then Some calm else None
  end.

(** The fill and the font a cell ends with: those of its style, and in
    an error row the red font of the row in each of the seven cells. *)
Definition summary_cell_fill (r : CheckResult) (column : nat) : option jsstring :=
  cs_fill <$> summary_cell_style r column.

Definition summary_cell_font (r : CheckResult) (column : nat) : option Font :=
  match overallStatus r with
  | StatusError =>
      if (1 <=? column)%nat && (column <=? 7)%nat then Some red_font else None
  | _ => font_of <$> summary_cell_style r column
  end.

(** ** Version extractor for [.fvmrc] ([getFlutterVersionFromFvmrc]) *)

(** [v.k] where [v] may be null or undefined: reading a property of
    either is a TypeError (the message is V8's). *)
Definition read_prop (v : jsval) (k : jsstring) : result jsval :=
  match v with
  | JUndefined =>
      Throw (lit "Cannot read properties of undefined (reading '" ++ k ++ lit "')")
  | JNull =>
      Throw (lit "Cannot read properties of null (reading '" ++ k ++ lit "')")
  | _ => Return (get_prop v k)
  end.

(** [s.replace(/[...]/g, '')] for the class of the two quote characters,
    single (39) and double (34): every quote is deleted. *)
Definition strip_quotes (s : jsstring) : jsstring :=
  List.filter (λ c, negb ((c =? 39) || (c =? 34))) s.

Section Fvmrc.
(** [JSON.parse], which throws a SyntaxError on a malformed text. *)
Variable json_parse : jsstring → result jsval.

(** The inner [try] block: [Return (Some v)] is its [return v], [Return
    None] is falling out of the block; an exception is swallowed by the
    empty [catch]. *)
Definition fvmrc_json (trimmed : jsstring) : option jsstring :=
  if startsWith trimmed (lit "{") then
    match
      try_catch
        (json ← json_parse trimmed;
         flutter ← read_prop json (lit "flutter");
         mret (if truthy flutter
               then match flutter with
                    | JStr s => match_triple s
                    | _ => None
                    end
               else None))
        (λ _, mret None)
    with
    | Return versionMatch => versionMatch
    | Throw _ => None
    end
  else None.

(** The loop over the lines of the YAML form. *)
Fixpoint fvmrc_lines (lines : list jsstring) : option jsstring :=
  match lines with
  | [] => None
  | line :: rest =>
      let lineTrimmed := trim line in
      let versionMatch :=
        if startsWith lineTrimmed (lit "flutter:")
        then match_triple
               (strip_quotes (trim (remove_first lineTrimmed (lit "flutter:"))))
        else None in
      match versionMatch with
      | Some v => Some v
      | None => fvmrc_lines rest
      end
  end.

(** Outside the inner block every operation is a string operation on a
    string, so the outer [catch] is never taken. *)
Definition getFlutterVersionFromFvmrc (fvmrcContent : jsstring) : option jsstring :=
  let trimmed := trim fvmrcContent in
  match fvmrc_json trimmed with
  | Some v => Some v
  | None => fvmrc_lines (split_char 10 [] trimmed)
  end.

End Fvmrc.

(** A [JSON.parse] for the examples that rejects every text. *)
Definition json_parse_rejecting (text : jsstring) : result jsval :=
  Throw (lit "Unexpected token").

(** ** Manifest fetch ([getPubspecFromGitHub]) *)

Definition not_slash (c : N) : bool := negb (c =? 47).

(** [/github\.com\/([^\/]+)\/([^\/]+)/] tried at the head of [s]. Each
    [[^\/]+] is greedy; what must follow the first one is a slash, so
    only the maximal run without a slash can lead to a match, and the
    second one takes its maximal run. *)
Definition match_repo_here (s : jsstring) : option (jsstring * jsstring) :=
  if startsWith s (lit "github.com/") then
    let s1 := drop (length (lit "github.com/")) s in
    match take_while not_slash s1, drop_while not_slash s1 with
    | c :: owner, 47 :: s2 =>
        match take_while not_slash s2 with
        | [] => None
        | repo => Some (c :: owner, repo)
        end
    | _, _ => None
    end
  else None.

(** [repoUrl.match(...)]: groups 1 and 2 of the leftmost match, or null. *)
Fixpoint match_repo (s : jsstring) : option (jsstring * jsstring) :=
  match match_repo_here s with
  | Some m => Some m
  | None =>
      match s with
      | [] => None
      | _ :: s' => match_repo s'
      end
  end.

Definition contents_url (owner repo : jsstring) : jsstring :=
  lit "https://api.github.com/repos/" ++ owner ++ lit "/" ++ repo
  ++ lit "/contents/pubspec.yaml".

(** The request headers; [Authorization] is added for a truthy token. *)
Definition request_headers (githubToken : option jsstring)
  : list (jsstring * jsstring) :=
  let headers :=
    [(lit "Accept", lit "application/vnd.github.v3+json");
     (lit "User-Agent", lit "Flutter-Version-Checker")] in
  match githubToken with
  | Some (c :: token) => headers ++ [(lit "Authorization", lit "Bearer " ++ c :: token)]
  | _ => headers
  end.

Module GitHub.
Section Fetch.
(** [axios.get(url, { headers, timeout })], giving [response.data] or
    throwing, and [Buffer.from(content, 'base64').toString('utf-8')],
    which throws on a content that is no string, buffer or array. *)
Variable axios_get : jsstring → list (jsstring * jsstring) → result jsval.
Variable base64_to_utf8 : jsval → result jsstring.

Definition getPubspecFromGitHub (repoUrl : jsstring) (githubToken : option jsstring)
  : result jsstring :=
  match match_repo repoUrl with
  | None => Throw (lit "Invalid GitHub URL: " ++ repoUrl)
  | Some (owner, repo) =>
      let headers := request_headers githubToken in
      data ← axios_get (contents_url owner repo) headers;
      content ← read_prop data (lit "content");
      base64_to_utf8 content
  end.

End Fetch.
End GitHub.

(** ** Registry lookup ([getLatestPackageVersion]) *)

(** What the [catch] block distinguishes in a failed [axios.get]: an
    axios error with a response, an axios error with a request and no
    response, and anything else, of which only the message
    ([error.message], or [String(error)]) is used. *)
Inductive AxiosError : Type :=
| HttpStatus (status : nat) (statusText : jsstring)
| NoResponse
| OtherError (message : jsstring).

Module PubDev.
Section Lookup.
(** [axios.get(url, { timeout })], giving [response.data] or failing,
    and [JSON.stringify] of a parsed response body. *)
Variable axios_get : jsstring → AxiosError + jsval.
Variable json_stringify : jsval → jsstring.

Definition failed (packageName reason : jsstring) : jsstring :=
  lit "Failed to get latest version for " ++ packageName ++ lit ": " ++ reason.

Definition getLatestPackageVersion (packageName : jsstring) : result jsval :=
  match axios_get (lit "https://pub.dev/api/packages/" ++ packageName) with
  | inr data =>
      try_catch
        (if negb (truthy data) then
           Throw (lit "No data returned from pub.dev API for " ++ packageName)
         else if negb (truthy (get_prop data (lit "latest"))) then
           Throw (lit "No latest version information found for " ++ packageName
                  ++ lit ". Response: " ++ take 200 (json_stringify data))
         else if negb (truthy (get_prop (get_prop data (lit "latest")) (lit "version")))
         then
           Throw (lit "No version property found in latest for " ++ packageName
                  ++ lit ". Latest object: "
                  ++ take 200 (json_stringify (get_prop data (lit "latest"))))
         else Return (get_prop (get_prop data (lit "latest")) (lit "version")))
        (λ message, Throw (failed packageName message))
  | inl (HttpStatus status statusText) =>
      Throw (failed packageName
               (lit "HTTP " ++ index_key status ++ lit " - " ++ statusText))
  | inl NoResponse => Throw (failed packageName (lit "No response from server"))
  | inl (OtherError message) => Throw (failed packageName message)
  end.

End Lookup.
End PubDev.

(** A GitHub that serves one manifest at every path. *)
Definition github_serving (content : jsstring)
  (url : jsstring) (headers : list (jsstring * jsstring)) : result jsval :=
  Return (JObj [(lit "content", JStr content)]).

(** A decoder for the examples that passes a string through. *)
Definition plain_decoder (content : jsval) : result jsstring :=
  match content with
  | JStr s => Return s
  | _ => Throw (lit "The first argument must be of type string")
  end.

(** ** The detail sheet ([generateExcelFile] of check.ts) *)

Module Workbook.

Record Row : Type := {
  repository : jsstring;
  package : jsstring;
  current : jsval;
  latest : jsstring;
  flutter : jsstring
}.

(** The worksheet under the header row: the rows added so far (the k-th
    one is sheet row k + 2) and the font colour set on whole rows, by
    row number. *)
Record Sheet : Type := {
  rows : list Row;
  row_font : gmap nat jsstring
}.

Definition addRow (row : Row) (ws : Sheet) : Sheet :=
  {| rows := rows ws ++ [row]; row_font := row_font ws |}.

Definition set_row_font (rowNumber : nat) (argb : jsstring) (ws : Sheet) : Sheet :=
  {| rows := rows ws; row_font := <[rowNumber := argb]> (row_font ws) |}.

Definition empty_sheet : Sheet := {| rows := []; row_font := ∅ |}.

(** The arrow between the pinned and the latest runtime version. *)
Definition arrow : jsstring := [32; 8594; 32].

Section Generate.
Context `{SemverLib}.
(** [workbook.xlsx.writeBuffer()] followed by [Buffer.from]. *)
Variable writeBuffer : Sheet → result (list N).

(** One iteration of the loop over the packages of [r]. *)
Definition package_step (r : CheckResult) (state : Sheet * nat) (pkg : PackageInfo)
  : result (Sheet * nat) :=
  let '(worksheet, rowNumber) := state in
  let worksheet :=
    addRow {| repository := repo_name (cr_repository r);
              package := pkg_name pkg;
              current := pkg_current pkg;
              latest := pkg_latest pkg;
              flutter := [] |} worksheet in
  worksheet ←
    (if pkg_updateAvailable pkg then
       updateType ← getVersionUpdateType (pkg_current pkg) (pkg_latest pkg);
       match updateType with
       | Some Major => mret (set_row_font rowNumber (lit "FFFF0000") worksheet)
       | Some Minor | Some Patch =>
           mret (set_row_font rowNumber (lit "FF0066CC") worksheet)
       | None => mret (set_row_font rowNumber (lit "FF0066CC") worksheet)
       end
     else mret worksheet);
  mret (worksheet, S rowNumber).

(** One iteration of the loop over the results. *)
Definition result_step (state : Sheet * nat) (r : CheckResult)
  : result (Sheet * nat) :=
  let '(worksheet, rowNumber) := state in
  if has_error r then
    let worksheet :=
      addRow {| repository := repo_name (cr_repository r);
                package := text_error;
                current := JStr (default [] (cr_error r));
                latest := [];
                flutter := [] |} worksheet in
    mret (set_row_font rowNumber (lit "FFFF0000") worksheet, S rowNumber)
  else
    let worksheet :=
      addRow {| repository := repo_name (cr_repository r);
                package := lit "Flutter SDK";
                current := JStr (fv_current (cr_flutter r));
                latest := fv_latest (cr_flutter r);
                flutter :=
                  if fv_updateAvailable (cr_flutter r)
                  then fv_current (cr_flutter r) ++ arrow ++ fv_latest (cr_flutter r)
                  else fv_current (cr_flutter r) |} worksheet in
    let worksheet :=
      if fv_updateAvailable (cr_flutter r)
      then set_row_font rowNumber (lit "FFFF6600") worksheet
      else worksheet in
    for_each (package_step r) (cr_packages r) (worksheet, S rowNumber).

(** The sheet before it is written. *)
Definition fill_sheet (results : list CheckResult) : result Sheet :=
  state ← for_each result_step results (empty_sheet, 2%nat);
  mret state.1.

Definition generateExcelFile (results : list CheckResult) : result (list N) :=
  worksheet ← fill_sheet results;
  writeBuffer worksheet.

(** What one package contributes: its row and the font of the row. *)
Definition package_line (r : CheckResult) (pkg : PackageInfo)
  : Row * option jsstring :=
  ({| repository := repo_name (cr_repository r);
      package := pkg_name pkg;
      current := pkg_current pkg;
      latest := pkg_latest pkg;
      flutter := [] |},
   if pkg_updateAvailable pkg then
     match getVersionUpdateType (pkg_current pkg) (pkg_latest pkg) with
     | Return (Some Major) => Some (lit "FFFF0000")
     | _ => Some (lit "FF0066CC")
     end
   else None).

(** What one result contributes: one red line for a result with an
    error; otherwise the line of the runtime, orange when its flag is
    set, then the lines of the packages in order. *)
Definition lines (r : CheckResult) : list (Row * option jsstring) :=
  if has_error r then
    [({| repository := repo_name (cr_repository r);
         package := text_error;
         current := JStr (default [] (cr_error r));
         latest := [];
         flutter := [] |}, Some (lit "FFFF0000"))]
  else
    ({| repository := repo_name (cr_repository r);
        package := lit "Flutter SDK";
        current := JStr (fv_current (cr_flutter r));
        latest := fv_latest (cr_flutter r);
        flutter :=
          if fv_updateAvailable (cr_flutter r)
          then fv_current (cr_flutter r) ++ arrow ++ fv_latest (cr_flutter r)
          else fv_current (cr_flutter r) |},
     if fv_updateAvailable (cr_flutter r) then Some (lit "FFFF6600") else None)
    :: (package_line r <$> cr_packages r).

End Generate.

(** A line put on the sheet at row [rowNumber]. *)
Definition put (line : Row * option jsstring) (state : Sheet * nat) : Sheet * nat :=
  let '(worksheet, rowNumber) := state in
  (match line.2 with
   | Some argb => set_row_font rowNumber argb (addRow line.1 worksheet)
   | None => addRow line.1 worksheet
   end, S rowNumber).

(** The sheet holds exactly the lines [done], fonts on their rows. *)
Definition laid_out (state : Sheet * nat) (done : list (Row * option jsstring))
  : Prop :=
  rows state.1 = done.*1
  ∧ state.2 = (length done + 2)%nat
  ∧ ∀ n, row_font state.1 !! n
         = if (n <? 2)%nat then None else done !! (n - 2)%nat ≫= snd.

End Workbook.

(** ** Latest runtime version ([getLatestFlutterVersion]) *)

(** The receiver of an array method: [what.method(...)] is a TypeError
    unless [what] is an array (a parsed JSON value has no methods of its
    own). The messages are V8's. *)
Definition array_receiver (v : jsval) (what method : jsstring)
  : result (list jsval) :=
  match v with
  | JArr items => Return items
  | JUndefined =>
      Throw (lit "Cannot read properties of undefined (reading '" ++ method ++ lit "')")
  | JNull =>
      Throw (lit "Cannot read properties of null (reading '" ++ method ++ lit "')")
  | _ => Throw (what ++ lit "." ++ method ++ lit " is not a function")
  end.

(** [items.filter(p)] and [items.find(p)] for a callback that may throw:
    [filter] calls it on every element, [find] up to the first element
    it accepts. *)
Fixpoint filter_m (p : jsval → result bool) (items : list jsval)
  : result (list jsval) :=
  match items with
  | [] => Return []
  | x :: items' =>
      keep ← p x;
      rest ← filter_m p items';
      mret (if (keep : bool) then x :: rest else rest)
  end.

Fixpoint find_m (p : jsval → result bool) (items : list jsval)
  : result (option jsval) :=
  match items with
  | [] => Return None
  | x :: items' =>
      found ← p x;
      if (found : bool) then mret (Some x) else find_m p items'
  end.

(** [v === s] for a string [s]. *)
Definition is_string (v : jsval) (s : jsstring) : bool :=
  match v with
  | JStr s' => streq s' s
  | _ => false
  end.

(** [tag.replace(/^v/, '')] *)
Definition strip_v (tag : jsstring) : jsstring :=
  match tag with
  | 118 :: tag' => tag'
  | _ => tag
  end.

Definition releases_url : jsstring :=
  lit "https://storage.googleapis.com/flutter_infra_release/releases/releases_linux.json".
Definition github_releases_url : jsstring :=
  lit "https://api.github.com/repos/flutter/flutter/releases".

Module Flutter.
Section Latest.
(** [axios.get(url, ...)], giving [response.data] or throwing. *)
Variable axios_get : jsstring → result jsval.

(** [r => r.channel === 'stable'] *)
Definition is_stable (r : jsval) : result bool :=
  channel ← read_prop r (lit "channel");
  mret (is_string channel (lit "stable")).

(** [r => !r.prerelease && !r.draft && !r.tag_name.includes('-')]; an
    array has an [includes] of its own, which looks for an element. *)
Definition is_release (r : jsval) : result bool :=
  prerelease ← read_prop r (lit "prerelease");
  if truthy prerelease then mret false
  else
    draft ← read_prop r (lit "draft");
    if truthy draft then mret false
    else
      tag_name ← read_prop r (lit "tag_name");
      hyphen ←
        match tag_name with
        | JStr s => Return (includes s (lit "-"))
        | JArr items => Return (existsb (λ x, is_string x (lit "-")) items)
        | JUndefined =>
            Throw (lit "Cannot read properties of undefined (reading 'includes')")
        | JNull =>
            Throw (lit "Cannot read properties of null (reading 'includes')")
        | _ => Throw (lit "r.tag_name.includes is not a function")
        end;
      mret (negb hyphen).

(** The [try] block: the release list of the storage bucket. *)
Definition primary : result jsval :=
  data ← axios_get releases_url;
  releases ← read_prop data (lit "releases");
  items ← array_receiver releases (lit "releases") (lit "filter");
  stableReleases ← filter_m is_stable items;
  match stableReleases with
  | first :: _ => read_prop first (lit "version")
  | [] => Throw (lit "No stable releases found")
  end.

(** The [catch] block: the releases of the GitHub repository. *)
Definition fallback : result jsval :=
  data ← axios_get github_releases_url;
  items ← array_receiver data (lit "response.data") (lit "find");
  stableRelease ← find_m is_release items;
  match stableRelease with
  | Some r =>
      if truthy r then
        tag_name ← read_prop r (lit "tag_name");
        match tag_name with
        | JStr s => Return (JStr (strip_v s))
        | JUndefined =>
            Throw (lit "Cannot read properties of undefined (reading 'replace')")
        | JNull =>
            Throw (lit "Cannot read properties of null (reading 'replace')")
        | _ => Throw (lit "stableRelease.tag_name.replace is not a function")
        end
      else Throw (lit "Failed to get Flutter version")
  | None => Throw (lit "Failed to get Flutter version")
  end.

Definition getLatestFlutterVersion : result jsval :=
  try_catch primary (λ _, fallback).

End Latest.
End Flutter.

(** Not null and not undefined. *)
Definition is_present (v : jsval) : Prop := v ≠ JNull ∧ v ≠ JUndefined.

(** A release list of the bucket, and a GitHub release list, for the
    examples. *)
Definition bucket_releases : jsval :=
  JObj [(lit "releases",
         JArr [JObj [(lit "channel", JStr (lit "beta"));
                     (lit "version", JStr (lit "3.30.0-0.1.pre"))];
               JObj [(lit "channel", JStr (lit "stable"));
                     (lit "version", JStr (lit "3.29.0"))];
               JObj [(lit "channel", JStr (lit "stable"));
                     (lit "version", JStr (lit "3.27.4"))]])].


Definition bucket_up (url : jsstring) : result jsval :=
  if streq url releases_url then Return bucket_releases
  else Throw (lit "Request failed with status code 403").


(** ** The blocks of the notification ([sendSlackNotification]) *)

(** The four kinds of block the message is made of, with their texts:
    the header, the section of fields, a section of one text, and the
    context line. *)
Inductive Block : Type :=
| HeaderBlock (text : jsstring)
| FieldsBlock (fields : list jsstring)
| TextBlock (text : jsstring)
| ContextBlock (elements : list jsstring).

(** [parts.join(sep)] *)
Fixpoint join (sep : jsstring) (parts : list jsstring) : jsstring :=
  match parts with
  | [] => []
  | x :: rest =>
      match rest with
      | [] => x
      | _ :: _ => x ++ sep ++ join sep rest
      end
  end.

(** An element of [flutterVersions]. *)
Record FlutterLine : Type := {
  fl_repo : jsstring;
  fl_current : jsstring;
  fl_latest : jsstring;
  fl_updateAvailable : bool
}.

Definition bullet : jsstring := [8226; 32].
Definition text_count_unit : jsstring := [20491].

(** [results.filter(r => !r.error).length] and
    [results.filter(r => r.error).length] *)
Definition successfulChecks (results : list CheckResult) : nat :=
  length (filter (λ r, has_error r = false) results).
Definition failedChecks (results : list CheckResult) : nat :=
  length (filter (λ r, has_error r = true) results).

(** The loop that collects the runtime versions of the results without
    error. *)
Definition flutterVersions (results : list CheckResult) : list FlutterLine :=
  fold_left
    (λ flutterVersions r,
       if negb (has_error r) then
         flutterVersions ++ [{| fl_repo := repo_name (cr_repository r);
                                fl_current := fv_current (cr_flutter r);
                                fl_latest := fv_latest (cr_flutter r);
                                fl_updateAvailable := fv_updateAvailable (cr_flutter r) |}]
       else flutterVersions)
    results [].

Definition flutter_bullet (fv : FlutterLine) : jsstring :=
  if fl_updateAvailable fv then
    bullet ++ fl_repo fv ++ lit ": " ++ fl_current fv ++ [32; 8594; 32]
    ++ fl_latest fv ++ [32; 55357; 56580]
  else
    bullet ++ fl_repo fv ++ lit ": " ++ fl_current fv ++ [32; 9989].

(** The text of the block of a result with an error. *)
Definition error_text (r : CheckResult) : jsstring :=
  lit "*" ++ [10060; 32] ++ repo_name (cr_repository r) ++ lit "*" ++ [10]
  ++ [12456; 12521; 12540; 58; 32] ++ default [] (cr_error r).

Module Notice.
Section Compose.
(** [String(v)], as a template literal renders a value, and
    [new Date().toLocaleString('ja-JP')]. *)
Variable to_text : jsval → jsstring.
Variable toLocaleString : jsstring.

Definition package_bullet (p : PackageInfo) : jsstring :=
  bullet ++ pkg_name p ++ lit ": " ++ to_text (pkg_current p) ++ [32; 8594; 32]
  ++ pkg_latest p.

(** The text of the block of a result without error that needs an
    update. *)
Definition update_details (r : CheckResult) : jsstring :=
  let outdatedPackages :=
    filter (λ p, pkg_updateAvailable p = true) (cr_packages r) in
  let packageList := join [10] (package_bullet <$> take 5 outdatedPackages) in
  lit "*" ++ repo_name (cr_repository r) ++ lit "*" ++ [10]
  ++ (if (0 <? length outdatedPackages)%nat then
        [26356; 26032; 21487; 33021; 12497; 12483; 12465; 12540; 12472; 32; 40]
        ++ index_key (length outdatedPackages) ++ [20491; 41; 58; 10]
        ++ packageList
        ++ (if (5 <? length outdatedPackages)%nat then
              [10; 46; 46; 46; 32; 20182; 32]
              ++ index_key (length outdatedPackages - 5) ++ text_count_unit
            else [])
      else []).

(** The block one iteration of the loop over the results pushes, if
    any. *)
Definition detail_block (r : CheckResult) : option Block :=
  if has_error r then Some (TextBlock (error_text r))
  else
    let outdatedPackages :=
      filter (λ p, pkg_updateAvailable p = true) (cr_packages r) in
    let hasFlutterUpdate := fv_updateAvailable (cr_flutter r) in
    if hasFlutterUpdate || (0 <? length outdatedPackages)%nat
    then Some (TextBlock (update_details r))
    else None.

Definition detail_step (blocks : list Block) (r : CheckResult) : list Block :=
  match detail_block r with
  | Some block => blocks ++ [block]
  | None => blocks
  end.

Definition compose_blocks (results : list CheckResult) (latestFlutter : jsstring)
  : list Block :=
  let blocks :=
    [HeaderBlock (if hasUpdates results
                  then [55357; 56580; 32] ++ update_text
                  else [9989; 32] ++ check_text);
     FieldsBlock
       [lit "*" ++ [32207; 12522; 12509; 12472; 12488; 12522; 25968] ++ lit "*"
        ++ [10] ++ index_key (length results) ++ text_count_unit;
        lit "*" ++ [25104; 21151] ++ lit "*" ++ [10]
        ++ index_key (successfulChecks results) ++ text_count_unit;
        lit "*" ++ [22833; 25943] ++ lit "*" ++ [10]
        ++ index_key (failedChecks results) ++ text_count_unit;
        lit "*Flutter SDK" ++ [26368; 26032; 29256] ++ lit "*" ++ [10]
        ++ latestFlutter]] in
  let blocks :=
    if (0 <? length (flutterVersions results))%nat then
      blocks ++ [TextBlock (lit "*Flutter SDK" ++ [12496; 12540; 12472; 12519; 12531]
                            ++ lit "*" ++ [10]
                            ++ join [10] (flutter_bullet <$> flutterVersions results))]
    else blocks in
  let blocks := fold_left detail_step results blocks in
  blocks ++ [ContextBlock [[26368; 32066; 12481; 12455; 12483; 12463; 58; 32]
                           ++ toLocaleString]].

End Compose.
End Notice.

(** The line of a result in the list of runtime versions, the title of
    that list, and the texts of the fields that count the checks. *)
Definition runtime_line (r : CheckResult) : jsstring :=
  flutter_bullet {| fl_repo := repo_name (cr_repository r);
                    fl_current := fv_current (cr_flutter r);
                    fl_latest := fv_latest (cr_flutter r);
                    fl_updateAvailable := fv_updateAvailable (cr_flutter r) |}.

Definition runtime_title : jsstring :=
  lit "*Flutter SDK" ++ [12496; 12540; 12472; 12519; 12531] ++ lit "*" ++ [10].

Definition count_fields (results : list CheckResult) (latestFlutter : jsstring)
  : list jsstring :=
  [lit "*" ++ [32207; 12522; 12509; 12472; 12488; 12522; 25968] ++ lit "*"
   ++ [10] ++ index_key (length results) ++ text_count_unit;
   lit "*" ++ [25104; 21151] ++ lit "*" ++ [10]
   ++ index_key (successfulChecks results) ++ text_count_unit;
   lit "*" ++ [22833; 25943] ++ lit "*" ++ [10]
   ++ index_key (failedChecks results) ++ text_count_unit;
   lit "*Flutter SDK" ++ [26368; 26032; 29256] ++ lit "*" ++ [10]
   ++ latestFlutter].

#[global] Instance Cell_eq_dec : EqDecision Cell.
Proof. solve_decision. Defined.

(** A rendering of values for the examples: a string is itself. *)
Definition text_of_string (v : jsval) : jsstring :=
  match v with
  | JStr s => s
  | _ => lit "[object Object]"
  end.

(** A result whose only update is the runtime. *)
Definition runtime_only_result : CheckResult :=
  {| cr_repository := demo_repository;
     cr_flutter := {| fv_current := lit "3.27.4";
                      fv_latest := lit "3.29.0";
                      fv_updateAvailable := true |};
     cr_packages :=
       [ {| pkg_name := lit "http"; pkg_current := JStr (lit "^1.0.0");
            pkg_latest := lit "1.2.0"; pkg_updateAvailable := false |} ];
     cr_error := None |}.

(** ** The program ([main]) *)

(** What [main] reads from its surroundings: the environment variables,
    the default path of the configuration
    ([path.join(process.cwd(), 'repositories.json')]), [fs.existsSync],
    and the repositories of the configuration read and parsed from a
    path ([JSON.parse(fs.readFileSync(path, 'utf-8'))], which throws on
    a file that cannot be read or parsed; a configuration has the shape
    its type declares). *)
Record Environment : Type := {
  REPOSITORIES_CONFIG : option jsstring;
  SLACK_BOT_TOKEN : option jsstring;
  GH_TOKEN : option jsstring;
  SLACK_CHANNEL : option jsstring;
  default_config_path : jsstring;
  existsSync : jsstring → bool;
  read_config : jsstring → result (list Repository)
}.

(** What a run does, in order: its console output, the request for the
    latest runtime version, the check of a repository, the notification
    with the calls it issued, and [process.exit]. *)
Inductive MainEvent : Type :=
| Print (line : jsstring)
| PrintError (line : jsstring)
| PrintCaught (error : jsstring)
| AskLatest
| CheckRepo (repo : Repository)
| Notify (effects : list Effect)
| Exit (code : nat).

Definition log_start : jsstring :=
  [55357; 56589] ++ lit " Checking Flutter versions and packages...".
Definition log_latest (latestFlutter : jsstring) : jsstring :=
  [9989] ++ lit " Latest Flutter version: " ++ latestFlutter.
Definition log_checking (repo : Repository) : jsstring :=
  lit "Checking " ++ repo_name repo ++ lit "...".
Definition log_sending : jsstring :=
  [55357; 56548] ++ lit " Sending notification to Slack...".
Definition log_done : jsstring := [9989] ++ lit " Done!".

(** The handler of [main().catch]: [console.error('Error:', error)],
    then [process.exit(1)]. *)
Definition caught (error : jsstring) : list MainEvent := [PrintCaught error; Exit 1].

Section Program.
Context `{SemverLib}.
Context {Blocks : Type}.
(** [getLatestFlutterVersion()], the collaborators of a check, and the
    Slack client [new WebClient(slackToken)] with what the upload
    needs. *)
Variable getLatestFlutterVersion : result jsstring.
Variable net : Collaborators.
Variable slack : jsstring → Messaging Blocks.

(** The loop over the repositories of the configuration. *)
Fixpoint check_loop (repositories : list Repository) (latestFlutter : jsstring)
  (githubToken : option jsstring) (results : list CheckResult)
  : list MainEvent * result (list CheckResult) :=
  match repositories with
  | [] => ([], Return results)
  | repo :: rest =>
      let events := [Print (log_checking repo); CheckRepo repo] in
      match checkRepository net repo latestFlutter githubToken with
      | Return r =>
          let '(more, outcome) :=
            check_loop rest latestFlutter githubToken (results ++ [r]) in
          (events ++ more, outcome)
      | Throw e => (events, Throw e)
      end
  end.

Definition main (env : Environment) : list MainEvent :=
  let configPath := str_or (REPOSITORIES_CONFIG env) (default_config_path env) in
  if negb (existsSync env configPath) then
    [PrintError (lit "Error: " ++ configPath ++ lit " not found");
     PrintError (lit "Please create repositories.json or set REPOSITORIES_CONFIG environment variable");
     Exit 1]
  else
    match read_config env configPath with
    | Throw e => caught e
    | Return repositories =>
        let slackToken := SLACK_BOT_TOKEN env in
        let githubToken := GH_TOKEN env in
        if negb (truthy_str slackToken) then
          [PrintError (lit "Error: SLACK_BOT_TOKEN environment variable is required");
           Exit 1]
        else
          Print log_start :: AskLatest ::
          match getLatestFlutterVersion with
          | Throw e => caught e
          | Return latestFlutter =>
              Print (log_latest latestFlutter) ::
              let '(events, outcome) :=
                check_loop repositories latestFlutter githubToken [] in
              events ++
              match outcome with
              | Throw e => caught e
              | Return results =>
                  Print log_sending ::
                  let channel := SLACK_CHANNEL env in
                  if negb (truthy_str channel) then
                    [PrintError
                       (lit "Error: SLACK_CHANNEL environment variable is required");
                     Exit 1]
                  else
                    let '(sent, effects) :=
                      sendSlackNotification (slack (default [] slackToken))
                        (default [] channel) results latestFlutter [] in
                    Notify effects ::
                    match sent with
                    | Return _ => [Print log_done]
                    | Throw e => caught e
                    end
              end
          end
    end.

End Program.

(** The lines and the checks of the loop over the repositories. *)
Definition checks (repositories : list Repository) : list MainEvent :=
  repositories ≫= λ repo, [Print (log_checking repo); CheckRepo repo].

Definition is_exit (e : MainEvent) : bool :=
  match e with
  | Exit _ => true
  | _ => false
  end.

(** Surroundings for the examples: a configuration with one repository,
    with and without a channel. *)
Definition demo_environment (channel : option jsstring) : Environment :=
  {| REPOSITORIES_CONFIG := None;
     SLACK_BOT_TOKEN := Some (lit "xoxb-demo");
     GH_TOKEN := None;
     SLACK_CHANNEL := channel;
     default_config_path := lit "/work/repositories.json";
     existsSync := λ _, true;
     read_config := λ _, Return [demo_repository] |}.

(** ** The name of a repository sheet ([createRepositorySheet]) *)

(** [name.length > 31 ? name.substring(0, 31) : name] *)
Definition sheetName (r : CheckResult) : jsstring :=
  let name := repo_name (cr_repository r) in
  if (31 <? length name)%nat then take 31 name else name.

(** * Properties *)

(** A decidable fact about concrete values, by evaluation. *)
Ltac by_evaluation :=
  vm_compute;
  first [ exact I | apply (bool_decide_unpack _); vm_compute; exact I ].

(** ** Strings *)

Lemma streq_eq (a b : jsstring) : streq a b = true ↔ a = b.
Proof.
  revert b. induction a as [|x a IH]; intros [|y b]; simpl; try by split.
  rewrite andb_true_iff, N.eqb_eq, IH. split.
  - by intros [-> ->].
  - intros [= -> ->]. done.
Qed.

Lemma streq_refl (a : jsstring) : streq a a = true.
Proof. by apply streq_eq. Qed.

Lemma streq_neq (a b : jsstring) : streq a b = false ↔ a ≠ b.
Proof.
  rewrite <- streq_eq. destruct (streq a b); split; congruence.
Qed.

Lemma take_drop_while (p : N → bool) (s : jsstring) :
  take_while p s ++ drop_while p s = s.
Proof.
  induction s as [|c s IH]; simpl; [done|].
  destruct (p c); simpl; [by rewrite IH | done].
Qed.

(** The first piece of a split on white space is what stands before the
    first white space character. *)
Lemma split_ws_go_first (cur s : jsstring) :
  nth 0 (split_ws_go false cur s) [] = cur ++ take_while (λ c, negb (is_space c)) s.
Proof.
  revert cur. induction s as [|c s IH]; intros cur; simpl.
  - by rewrite app_nil_r.
  - destruct (is_space c); simpl.
    + by rewrite app_nil_r.
    + rewrite IH. by rewrite <- app_assoc.
Qed.

Lemma split_ws_nonempty (s : jsstring) : split_ws s ≠ [].
Proof.
  unfold split_ws. generalize (@nil N) at 1. generalize false.
  induction s as [|c s IH]; intros b cur; simpl; [done|].
  destruct (is_space c); [destruct b|]; auto.
Qed.

Lemma baseVersion_base_token (constraint : jsstring) :
  baseVersion constraint = base_token constraint.
Proof. unfold baseVersion, split_ws. by rewrite split_ws_go_first. Qed.

(** ** Exceptions *)

Lemma try_catch_returns {A} (body : result A) (handler : jsstring → result A) :
  (∀ e, returns (handler e)) → returns (try_catch body handler).
Proof.
  intros Hh. destruct body as [a|e]; simpl; [by exists a | apply Hh].
Qed.

(** ** Divergence classifier *)

Section ClassifierFacts.
Context `{SemverLib}.

Lemma valid_truthy (s : jsstring) (v : SemVer) :
  sv_new s = Some v → truthy_str (Semver.valid s) = true.
Proof.
  intros Hs. unfold Semver.valid. rewrite Hs. simpl.
  pose proof (sv_version_nonempty s v Hs). by destruct (sv_version v).
Qed.

Lemma invalid_falsy (s : jsstring) :
  sv_new s = None → truthy_str (Semver.valid s) = false.
Proof. intros Hs. unfold Semver.valid. by rewrite Hs. Qed.

Lemma component_of_valid (f : SemVer → Z) (s : jsstring) (v : SemVer) :
  sv_new s = Some v →
  ∃ v', Semver.component f (default [] (Semver.valid s)) = Return (f v')
        ∧ sv_major v' = sv_major v ∧ sv_minor v' = sv_minor v
        ∧ sv_patch v' = sv_patch v.
Proof.
  intros Hs. destruct (sv_new_version s v Hs) as (v' & Hv' & HM & Hm & Hp).
  exists v'. unfold Semver.valid, Semver.component. rewrite Hs. simpl.
  by rewrite Hv'.
Qed.

Lemma isUpdateAvailable_returns (currentVersion : jsval) (latestVersion : jsstring) :
  returns (isUpdateAvailable currentVersion latestVersion).
Proof. apply try_catch_returns. intros e. by exists false. Qed.

Lemma getVersionUpdateType_returns (currentVersion : jsval) (latestVersion : jsstring) :
  returns (getVersionUpdateType currentVersion latestVersion).
Proof. apply try_catch_returns. intros e. by exists None. Qed.

(** The closed form of [isUpdateAvailable] on two versions that parse. *)
Lemma isUpdateAvailable_valid (constraint latest : jsstring) (vb vl : SemVer) :
  sv_new (base_token constraint) = Some vb →
  sv_new latest = Some vl →
  isUpdateAvailable (JStr constraint) latest =
    Return (match sv_compare vl vb with Gt => true | _ => false end
            && negb (sv_satisfies latest constraint)).
Proof.
  intros Hb Hl. unfold isUpdateAvailable. simpl.
  rewrite baseVersion_base_token.
  rewrite (valid_truthy _ _ Hb), (valid_truthy _ _ Hl). simpl.
  unfold Semver.gt. rewrite Hl, Hb. simpl.
  by destruct (sv_compare vl vb).
Qed.

Lemma isUpdateAvailable_invalid (constraint latest : jsstring) :
  sv_new (base_token constraint) = None ∨ sv_new latest = None →
  isUpdateAvailable (JStr constraint) latest = Return false.
Proof.
  intros Hn. unfold isUpdateAvailable. simpl.
  rewrite baseVersion_base_token.
  destruct Hn as [Hn|Hn]; rewrite (invalid_falsy _ Hn); simpl; [done|].
  by rewrite andb_false_r.
Qed.

Lemma getVersionUpdateType_invalid (constraint latest : jsstring) :
  sv_new (base_token constraint) = None ∨ sv_new latest = None →
  getVersionUpdateType (JStr constraint) latest = Return None.
Proof.
  intros Hn. unfold getVersionUpdateType. simpl.
  rewrite baseVersion_base_token.
  destruct Hn as [Hn|Hn]; rewrite (invalid_falsy _ Hn); simpl; [done|].
  by rewrite orb_true_r.
Qed.

(** C1: when the base version (the constraint without its leading
    operator characters and white space, up to the first white space)
    and the latest version both parse as semantic versions,
    [isUpdateAvailable] returns, and it returns true exactly when the
    latest version is strictly greater than the base version and does
    not satisfy the original constraint. *)
Theorem isUpdateAvailable_iff (constraint latest : jsstring) (vb vl : SemVer) :
  sv_new (base_token constraint) = Some vb →
  sv_new latest = Some vl →
  returns (isUpdateAvailable (JStr constraint) latest)
  ∧ (isUpdateAvailable (JStr constraint) latest = Return true
     ↔ sv_compare vl vb = Gt ∧ sv_satisfies latest constraint = false).
Proof.
  intros Hb Hl. split; [apply isUpdateAvailable_returns|].
  rewrite (isUpdateAvailable_valid _ _ _ _ Hb Hl).
  destruct (sv_compare vl vb), (sv_satisfies latest constraint); simpl;
    split; try done; intros [? ?]; done.
Qed.

(** C2: when the base and the latest version both parse, the update type
    is the first match of: major if the latest major is greater, else
    minor if the latest minor is greater, else patch if the latest patch
    is greater, else none; the function returns that single value. *)
Theorem getVersionUpdateType_tie_break (constraint latest : jsstring)
  (vb vl : SemVer) :
  sv_new (base_token constraint) = Some vb →
  sv_new latest = Some vl →
  getVersionUpdateType (JStr constraint) latest = Return (severity vl vb).
Proof.
  intros Hb Hl. unfold getVersionUpdateType, severity. simpl.
  rewrite baseVersion_base_token.
  rewrite (valid_truthy _ _ Hb), (valid_truthy _ _ Hl). simpl.
  unfold Semver.major, Semver.minor, Semver.patch.
  destruct (component_of_valid sv_major _ _ Hl) as (l1 & -> & <- & _).
  destruct (component_of_valid sv_major _ _ Hb) as (b1 & -> & <- & _).
  simpl. destruct (sv_major l1 >? sv_major b1)%Z; [done|].
  destruct (component_of_valid sv_minor _ _ Hl) as (l2 & -> & _ & <- & _).
  destruct (component_of_valid sv_minor _ _ Hb) as (b2 & -> & _ & <- & _).
  simpl. destruct (sv_minor l2 >? sv_minor b2)%Z; [done|].
  destruct (component_of_valid sv_patch _ _ Hl) as (l3 & -> & _ & _ & <-).
  destruct (component_of_valid sv_patch _ _ Hb) as (b3 & -> & _ & _ & <-).
  simpl. by destruct (sv_patch l3 >? sv_patch b3)%Z.
Qed.

(** C3: the classification never throws. For every constraint and
    latest version both functions return a value, and when the base or
    the latest version does not parse as a semantic version the values
    are [false] and [null]. *)
Theorem classification_never_throws (constraint latest : jsstring) :
  ∃ (updateAvailable : bool) (updateType : option UpdateType),
    isUpdateAvailable (JStr constraint) latest = Return updateAvailable
    ∧ getVersionUpdateType (JStr constraint) latest = Return updateType
    ∧ (sv_new (base_token constraint) = None ∨ sv_new latest = None →
       updateAvailable = false ∧ updateType = None).
Proof.
  destruct (isUpdateAvailable_returns (JStr constraint) latest) as [b Hb].
  destruct (getVersionUpdateType_returns (JStr constraint) latest) as [t Ht].
  exists b, t. split; [done|]. split; [done|].
  intros Hn. rewrite (isUpdateAvailable_invalid _ _ Hn) in Hb.
  rewrite (getVersionUpdateType_invalid _ _ Hn) in Ht.
  split; congruence.
Qed.

End ClassifierFacts.

(** The classifier on the reference implementation. *)
Example caret_range_permits_minor :
  @isUpdateAvailable PlainSemver.lib (JStr (lit "^1.2.0")) (lit "1.5.0") = Return false.
Proof. reflexivity. Qed.

Example caret_range_excludes_major :
  @isUpdateAvailable PlainSemver.lib (JStr (lit "^1.2.0")) (lit "2.0.0") = Return true
  ∧ @getVersionUpdateType PlainSemver.lib (JStr (lit "^1.2.0")) (lit "2.0.0")
    = Return (Some Major).
Proof. split; reflexivity. Qed.

Example bounded_range_permits_patch :
  @isUpdateAvailable PlainSemver.lib (JStr (lit ">=1.2.0 <1.3.0")) (lit "1.2.5")
  = Return false.
Proof. reflexivity. Qed.

Example non_string_constraint_is_caught :
  @isUpdateAvailable PlainSemver.lib (JNum 2) (lit "1.2.5") = Return false.
Proof. reflexivity. Qed.

Lemma isUpdateAvailable_iff_witness :
  returns (@isUpdateAvailable PlainSemver.lib (JStr (lit "^1.2.0")) (lit "2.0.0"))
  ∧ (@isUpdateAvailable PlainSemver.lib (JStr (lit "^1.2.0")) (lit "2.0.0") = Return true
     ↔ PlainSemver.compare v2_0_0 v1_2_0 = Gt
       ∧ PlainSemver.satisfies (lit "2.0.0") (lit "^1.2.0") = false).
Proof.
  apply (@isUpdateAvailable_iff PlainSemver.lib (lit "^1.2.0") (lit "2.0.0")
           v1_2_0 v2_0_0); reflexivity.
Defined.

Lemma getVersionUpdateType_tie_break_witness :
  @getVersionUpdateType PlainSemver.lib (JStr (lit ">=1.2.0 <2.0.0")) (lit "1.3.5")
  = Return (Some Minor).
Proof.
  apply (@getVersionUpdateType_tie_break PlainSemver.lib (lit ">=1.2.0 <2.0.0")
           (lit "1.3.5") v1_2_0 v1_3_5); reflexivity.
Defined.

(** ** Version extractor *)

Lemma startsWith_app (s p post : jsstring) :
  startsWith s p = true → startsWith (s ++ post) p = true.
Proof.
  revert s. induction p as [|a p IH]; intros [|b s]; simpl; try done.
  intros Hs. apply andb_true_iff in Hs as [Hab Hs].
  apply andb_true_iff. auto.
Qed.

Lemma includes_app (pre s post p : jsstring) :
  startsWith s p = true → includes (pre ++ s ++ post) p = true.
Proof.
  intros Hs. induction pre as [|c pre IH]; simpl.
  - apply (startsWith_app _ _ post) in Hs.
    destruct (s ++ post); simpl; by rewrite Hs.
  - rewrite IH. apply orb_true_r.
Qed.

Lemma trim_infix (s : jsstring) : ∃ pre post, s = pre ++ trim s ++ post.
Proof.
  exists (take_while is_space s),
         (rev (take_while is_space (rev (drop_while is_space s)))).
  unfold trim. rewrite <- rev_app_distr, take_drop_while, rev_involutive.
  by rewrite take_drop_while.
Qed.

Lemma includes_of_trim_startsWith (line p : jsstring) :
  startsWith (trim line) p = true → includes line p = true.
Proof.
  intros Hs. destruct (trim_infix line) as (pre & post & Hline).
  rewrite Hline. by apply includes_app.
Qed.

(** Inside the environment block, any line of the form [key:] that does
    not mention the runtime key ends the scan, whatever its
    indentation. *)
Lemma scan_lines_breaks_on_any_key (line : jsstring) (rest : list jsstring) :
  trim line ≠ lit "environment:" →
  key_line line = true →
  includes line (lit "flutter:") = false →
  scan_lines true (line :: rest) = None.
Proof.
  intros Hhead Hkey Hinc. cbn [scan_lines].
  apply streq_neq in Hhead. rewrite Hhead.
  destruct (startsWith (trim line) (lit "flutter:")) eqn:Hs.
  - apply includes_of_trim_startsWith in Hs. congruence.
  - simpl. by rewrite Hkey, Hinc.
Qed.

(** Inside the environment block, a line whose trimmed form starts with
    the runtime key and whose value holds a triple ends the scan with
    the leftmost triple. *)
Lemma scan_lines_takes_runtime_line (line v : jsstring) (rest : list jsstring) :
  trim line ≠ lit "environment:" →
  startsWith (trim line) (lit "flutter:") = true →
  match_triple (trim (remove_first (trim line) (lit "flutter:"))) = Some v →
  scan_lines true (line :: rest) = Some v.
Proof.
  intros Hhead Hs Hm. cbn [scan_lines].
  apply streq_neq in Hhead. rewrite Hhead, Hs. simpl. by rewrite Hm.
Qed.

(** The scope is entered only on a line that trimmed is the header. *)
Lemma scan_lines_needs_header (lines : list jsstring) :
  Forall (λ line, trim line ≠ lit "environment:") lines →
  scan_lines false lines = None.
Proof.
  induction 1 as [|line lines Hhead _ IH]; [done|].
  cbn [scan_lines]. apply streq_neq in Hhead. by rewrite Hhead.
Qed.

(** C4, on the code: a manifest whose environment block lists the SDK
    constraint before the runtime pin yields no pin, because the nested
    SDK line ends the scan; with the two lines swapped the pin is
    found. *)
Theorem nested_sdk_key_ends_environment_scope :
  getFlutterVersionFromPubspec pubspec_sdk_first = None
  ∧ getFlutterVersionFromPubspec pubspec_flutter_first = Some (lit "3.10.0").
Proof. split; vm_compute; reflexivity. Qed.

(** ** Dependency extractor *)

Lemma lit_inj (a b : string) : lit a = lit b → a = b.
Proof.
  unfold lit. intros Heq.
  rewrite <- (string_of_list_ascii_of_string a), <- (string_of_list_ascii_of_string b).
  f_equal. revert Heq.
  generalize (list_ascii_of_string a) (list_ascii_of_string b).
  induction l as [|x l IH]; intros [|y k]; simpl; try done.
  intros [= Hxy Hlk]. f_equal; [|by apply IH].
  by rewrite <- (ascii_N_embedding x), <- (ascii_N_embedding y), Hxy.
Qed.

Lemma index_key_inj (i j : nat) : index_key i = index_key j → i = j.
Proof.
  unfold index_key. intros Heq%lit_inj.
  apply DecimalNat.Unsigned.to_uint_inj.
  pose proof (NilEmpty.usu (Nat.to_uint i)) as Hi.
  pose proof (NilEmpty.usu (Nat.to_uint j)) as Hj.
  rewrite Heq in Hi. congruence.
Qed.

#[local] Instance index_key_Inj : Inj (=) (=) index_key.
Proof. intros i j. apply index_key_inj. Qed.

Lemma index_keys_NoDup {A B} (f : nat → A → B) (l : list A) :
  NoDup (fst <$> imap (λ i x, (index_key i, f i x)) l).
Proof.
  rewrite fmap_imap.
  rewrite (imap_ext _ (λ i _, index_key i)) by done.
  rewrite imap_seq_0. apply NoDup_fmap_2; [apply _|apply NoDup_seq].
Qed.

Lemma entries_keys_NoDup (v : jsval) :
  unique_keys v → NoDup (fst <$> entries v).
Proof.
  destruct v; simpl; intros Hu; try apply NoDup_nil_2; try done.
  - apply (index_keys_NoDup (λ _ c, JStr [c])).
  - apply (index_keys_NoDup (λ _ x, x)).
Qed.

Lemma declared_names_NoDup (v : jsval) :
  unique_keys v → NoDup (declared_names v).
Proof. intros Hu. by apply NoDup_filter, entries_keys_NoDup. Qed.

Lemma falsy_has_no_entries (v : jsval) : truthy v = false → entries v = [].
Proof. destruct v as [| | | | |[|c s]| |]; simpl; done. Qed.

Lemma push_entries_names (deps : list Dependency) (map : jsval) :
  dep_name <$> push_entries deps map = (dep_name <$> deps) ++ declared_names map.
Proof.
  unfold push_entries, declared_names.
  generalize (entries map). intros l. revert deps.
  induction l as [|[name spec] l IH]; intros deps; simpl.
  - by rewrite app_nil_r.
  - rewrite IH. rewrite filter_cons. simpl.
    destruct (is_runtime_package name) eqn:Hr.
    + by rewrite decide_False.
    + rewrite decide_True by done. rewrite fmap_app. simpl.
      by rewrite <- app_assoc.
Qed.

Lemma falsy_declares_nothing (v : jsval) :
  truthy v = false → declared_names v = [].
Proof.
  intros Ht. unfold declared_names. by rewrite (falsy_has_no_entries _ Ht).
Qed.

(** The names of the extracted sequence: those of the primary map, then,
    under the flag, those of the development map. *)
Lemma extractDependencies_names (pubspec : jsval) (includeDevDeps : bool) :
  dep_name <$> extractDependencies pubspec includeDevDeps =
    declared_names (get_prop pubspec (lit "dependencies"))
    ++ (if includeDevDeps
        then declared_names (get_prop pubspec (lit "dev_dependencies"))
        else []).
Proof.
  unfold extractDependencies.
  destruct (truthy pubspec) eqn:Hp; simpl.
  - set (deps := get_prop pubspec (lit "dependencies")).
    set (dev := get_prop pubspec (lit "dev_dependencies")).
    assert (Hdeps : dep_name <$>
              (if truthy deps then push_entries [] deps else []) =
              declared_names deps).
    { destruct (truthy deps) eqn:Ht; [by rewrite push_entries_names|].
      by rewrite (falsy_declares_nothing _ Ht). }
    destruct includeDevDeps; simpl; [|by rewrite Hdeps, app_nil_r].
    destruct (truthy dev) eqn:Ht.
    + by rewrite push_entries_names, Hdeps.
    + by rewrite Hdeps, (falsy_declares_nothing _ Ht), app_nil_r.
  - assert (Hu : ∀ k, get_prop pubspec k = JUndefined).
    { intros k. by destruct pubspec. }
    rewrite !Hu. by destruct includeDevDeps.
Qed.

(** C5 as stated fails: a package named in the primary and in the
    development map is extracted twice. *)
Lemma shared_package_is_declared_twice :
  unique_keys pubspec_shared_package
  ∧ unique_keys (get_prop pubspec_shared_package (lit "dependencies"))
  ∧ unique_keys (get_prop pubspec_shared_package (lit "dev_dependencies"))
  ∧ dep_name <$> extractDependencies pubspec_shared_package true
    = [lit "lints"; lit "lints"]
  ∧ ¬ NoDup (dep_name <$> extractDependencies pubspec_shared_package true).
Proof.
  repeat split; by_evaluation.
Qed.

(** C5, amended: the maps of a manifest having distinct keys, the
    extracted names are pairwise distinct exactly when the flag is off
    or no package (the runtime's own apart) is named in both maps. *)
Theorem extractDependencies_names_unique (pubspec : jsval) (includeDevDeps : bool) :
  unique_keys (get_prop pubspec (lit "dependencies")) →
  unique_keys (get_prop pubspec (lit "dev_dependencies")) →
  NoDup (dep_name <$> extractDependencies pubspec includeDevDeps)
  ↔ (includeDevDeps = true →
     ∀ name, name ∈ declared_names (get_prop pubspec (lit "dependencies")) →
             name ∉ declared_names (get_prop pubspec (lit "dev_dependencies"))).
Proof.
  intros Hdeps Hdev. rewrite extractDependencies_names.
  destruct includeDevDeps.
  - rewrite NoDup_app. split.
    + intros (_ & Hdisj & _) _. exact Hdisj.
    + intros Hdisj. split; [by apply declared_names_NoDup|].
      split; [by apply Hdisj|by apply declared_names_NoDup].
  - rewrite app_nil_r. split; [done|].
    intros _. by apply declared_names_NoDup.
Qed.

Lemma extractDependencies_names_unique_witness :
  NoDup (dep_name <$> extractDependencies pubspec_disjoint_maps true)
  ↔ (true = true →
     ∀ name,
       name ∈ declared_names (get_prop pubspec_disjoint_maps (lit "dependencies")) →
       name ∉ declared_names (get_prop pubspec_disjoint_maps (lit "dev_dependencies"))).
Proof.
  apply (extractDependencies_names_unique pubspec_disjoint_maps true);
    by_evaluation.
Defined.

(** ** Check aggregator *)

Lemma match_triple_here_nonempty (s m : jsstring) :
  match_triple_here s = Some m → m ≠ [].
Proof.
  unfold match_triple_here. intros Hm.
  repeat match type of Hm with
         | match ?x with _ => _ end = _ => destruct x; try discriminate
         end;
    injection Hm as <-; by destruct (take_while is_digit s).
Qed.

Lemma match_triple_nonempty (s m : jsstring) : match_triple s = Some m → m ≠ [].
Proof.
  induction s as [|c s IH]; cbn [match_triple].
  - destruct (match_triple_here []) eqn:Hh; [|done].
    intros [= <-]. by apply match_triple_here_nonempty in Hh.
  - destruct (match_triple_here (c :: s)) eqn:Hh; [|done].
    intros [= <-]. by apply match_triple_here_nonempty in Hh.
Qed.

Lemma scan_lines_nonempty (inEnvironment : bool) (lines : list jsstring) (v : jsstring) :
  scan_lines inEnvironment lines = Some v → v ≠ [].
Proof.
  revert inEnvironment. induction lines as [|line rest IH]; intros b; [done|].
  cbn [scan_lines].
  destruct (streq (trim line) (lit "environment:")); [apply IH|].
  destruct (b && startsWith (trim line) (lit "flutter:")).
  - destruct (match_triple _) eqn:Hm.
    + intros [= <-]. by apply match_triple_nonempty in Hm.
    + destruct (_ && _); [done|apply IH].
  - destruct (_ && _); [done|apply IH].
Qed.

(** The pin is never the empty string, so [pin || latestFlutter] falls
    back exactly when there is no pin. *)
Lemma pin_or_latest (content latest : jsstring) :
  match getFlutterVersionFromPubspec content with
  | Some (c :: v) => c :: v
  | _ => latest
  end = default latest (getFlutterVersionFromPubspec content).
Proof.
  destruct (getFlutterVersionFromPubspec content) as [[|c v]|] eqn:Hpin; try done.
  by apply scan_lines_nonempty in Hpin.
Qed.

Lemma falsy_printable (v : jsval) : truthy v = false → printable v = true.
Proof. by destruct v. Qed.

Section AggregatorFacts.
Context `{SemverLib}.
Variable net : Collaborators.

Lemma check_dependency_skips (packages : list PackageInfo) (dep : Dependency) :
  skipped dep = true → check_dependency net packages dep = Return packages.
Proof.
  unfold skipped, check_dependency, console_line. intros Hs.
  destruct (truthy (dep_version dep)) eqn:Ht; simpl in *.
  - destruct (dep_version dep) as [| | | | |s| |]; try done.
    destruct (streq s (lit "any")); simpl in *; [done|]. by rewrite Hs.
  - by rewrite (falsy_printable _ Ht).
Qed.

Lemma check_dependency_enters (packages : list PackageInfo) (dep : Dependency) :
  skipped dep = false →
  check_dependency net packages dep =
    try_catch
      (_ ← console_line (dep_version dep);
       latest ← getLatestPackageVersion net (dep_name dep);
       updateAvailable ← isUpdateAvailable (dep_version dep) latest;
       _ ← (if (updateAvailable : bool)
            then console_line (dep_version dep) else mret ());
       mret (packages ++ [{| pkg_name := dep_name dep;
                             pkg_current := dep_version dep;
                             pkg_latest := latest;
                             pkg_updateAvailable := updateAvailable |}]))
      (λ _,
       _ ← console_line (dep_version dep);
       mret (packages ++ [not_available dep])).
Proof.
  unfold skipped, check_dependency. intros Hs.
  apply orb_false_iff in Hs as [Hs1 Hs2]. by rewrite Hs1, Hs2.
Qed.

(** A dependency that is looked up contributes its entry, whether the
    lookup succeeds or not. *)
Lemma check_dependency_pushes (packages : list PackageInfo) (dep : Dependency) :
  skipped dep = false → printable (dep_version dep) = true →
  check_dependency net packages dep = Return (packages ++ [package_entry net dep]).
Proof.
  intros Hs Hp. rewrite (check_dependency_enters _ _ Hs).
  unfold package_entry, console_line. rewrite Hp. simpl.
  destruct (getLatestPackageVersion net (dep_name dep)) as [latest|e]; simpl; [|done].
  destruct (isUpdateAvailable_returns (dep_version dep) latest) as [b ->].
  simpl. by destruct b.
Qed.

(** A version that cannot be rendered ends the iteration with the
    TypeError of the inner [catch]. *)
Lemma check_dependency_throws (packages : list PackageInfo) (dep : Dependency) :
  skipped dep = false → printable (dep_version dep) = false →
  check_dependency net packages dep = Throw conversion_failure.
Proof.
  intros Hs Hp. rewrite (check_dependency_enters _ _ Hs).
  unfold console_line. by rewrite Hp.
Qed.

(** The loop visits every dependency when every version it renders can
    be rendered: no iteration ends it early. *)
Lemma for_each_check_dependency (deps : list Dependency) (packages : list PackageInfo) :
  forallb (λ dep, skipped dep || printable (dep_version dep)) deps = true →
  for_each (check_dependency net) deps packages =
    Return (packages ++ (package_entry net <$> filter (λ d, skipped d = false) deps)).
Proof.
  revert packages. induction deps as [|dep deps IH]; intros packages Hall; simpl.
  - by rewrite app_nil_r.
  - simpl in Hall. apply andb_true_iff in Hall as [Hdep Hall].
    destruct (skipped dep) eqn:Hs.
    + rewrite (check_dependency_skips _ _ Hs).
      rewrite filter_cons_False by by rewrite Hs. by apply IH.
    + rewrite (check_dependency_pushes _ _ Hs Hdep).
      rewrite filter_cons_True by done. rewrite (IH _ Hall), fmap_cons.
      by rewrite <- app_assoc.
Qed.

Lemma for_each_check_dependency_throws (deps : list Dependency)
  (packages : list PackageInfo) :
  forallb (λ dep, skipped dep || printable (dep_version dep)) deps = false →
  for_each (check_dependency net) deps packages = Throw conversion_failure.
Proof.
  revert packages. induction deps as [|dep deps IH]; intros packages Hall; [done|].
  simpl in Hall |- *.
  destruct (skipped dep) eqn:Hs.
  - rewrite (check_dependency_skips _ _ Hs). by apply IH.
  - destruct (printable (dep_version dep)) eqn:Hp.
    + rewrite (check_dependency_pushes _ _ Hs Hp). by apply IH.
    + by rewrite (check_dependency_throws _ _ Hs Hp).
Qed.

Lemma checkRepository_fetch_error (repository : Repository)
  (latestFlutter : jsstring) (githubToken : option jsstring) (message : jsstring) :
  getPubspecFromGitHub net (repo_url repository) githubToken = Throw message →
  checkRepository net repository latestFlutter githubToken =
    Return (error_result repository latestFlutter message).
Proof. intros Hf. unfold checkRepository. by rewrite Hf. Qed.

Lemma checkRepository_parse_error (repository : Repository)
  (latestFlutter : jsstring) (githubToken : option jsstring)
  (content message : jsstring) :
  getPubspecFromGitHub net (repo_url repository) githubToken = Return content →
  yaml_parse net content = Throw message →
  checkRepository net repository latestFlutter githubToken =
    Return (error_result repository latestFlutter message).
Proof. intros Hf Hy. unfold checkRepository. rewrite Hf. simpl. by rewrite Hy. Qed.

Lemma checkRepository_parse_null (repository : Repository)
  (latestFlutter : jsstring) (githubToken : option jsstring)
  (content : jsstring) (pubspec : jsval) :
  getPubspecFromGitHub net (repo_url repository) githubToken = Return content →
  yaml_parse net content = Return pubspec →
  truthy pubspec = false →
  checkRepository net repository latestFlutter githubToken =
    Return (error_result repository latestFlutter parse_failure).
Proof.
  intros Hf Hy Ht. unfold checkRepository. rewrite Hf. simpl. rewrite Hy. simpl.
  by rewrite Ht.
Qed.

(** The result of a check whose manifest parsed to a truthy value all
    of whose rendered versions can be rendered. *)
Lemma checkRepository_parsed (repository : Repository)
  (latestFlutter : jsstring) (githubToken : option jsstring)
  (content : jsstring) (pubspec : jsval) :
  getPubspecFromGitHub net (repo_url repository) githubToken = Return content →
  yaml_parse net content = Return pubspec →
  truthy pubspec = true →
  renderable pubspec = true →
  checkRepository net repository latestFlutter githubToken =
    Return
      {| cr_repository := repository;
         cr_flutter :=
           let currentFlutter :=
             default latestFlutter (getFlutterVersionFromPubspec content) in
           {| fv_current := currentFlutter;
              fv_latest := latestFlutter;
              fv_updateAvailable := negb (streq currentFlutter latestFlutter) |};
         cr_packages :=
           package_entry net <$>
             filter (λ d, skipped d = false) (extractDependencies pubspec true);
         cr_error := None |}.
Proof.
  intros Hf Hy Ht Hr. unfold checkRepository. rewrite Hf. simpl. rewrite Hy. simpl.
  rewrite Ht. simpl. rewrite (for_each_check_dependency _ _ Hr). simpl.
  by rewrite pin_or_latest.
Qed.

(** The result of a check one of whose rendered versions cannot be
    rendered: the TypeError reaches the outer [catch]. *)
Lemma checkRepository_unrenderable (repository : Repository)
  (latestFlutter : jsstring) (githubToken : option jsstring)
  (content : jsstring) (pubspec : jsval) :
  getPubspecFromGitHub net (repo_url repository) githubToken = Return content →
  yaml_parse net content = Return pubspec →
  truthy pubspec = true →
  renderable pubspec = false →
  checkRepository net repository latestFlutter githubToken =
    Return (error_result repository latestFlutter conversion_failure).
Proof.
  intros Hf Hy Ht Hr. unfold checkRepository. rewrite Hf. simpl. rewrite Hy. simpl.
  rewrite Ht. simpl. by rewrite (for_each_check_dependency_throws _ _ Hr).
Qed.

(** C6, amended: after a successful fetch, a manifest that the parser
    rejects or that parses to an empty value ends the check of that
    repository with [error] set, the runtime shown as unknown and not
    divergent, and no packages; a manifest that parses to a value all
    of whose rendered versions can be rendered yields a result without
    [error], and when it carries no runtime pin the pin falls back to
    the latest runtime version, not divergent. *)
Theorem manifest_parse_outcome (repository : Repository)
  (latestFlutter : jsstring) (githubToken : option jsstring) (content : jsstring) :
  getPubspecFromGitHub net (repo_url repository) githubToken = Return content →
  match yaml_parse net content with
  | Throw message =>
      checkRepository net repository latestFlutter githubToken =
        Return (error_result repository latestFlutter message)
  | Return pubspec =>
      if truthy pubspec then
        renderable pubspec = true →
        ∃ r, checkRepository net repository latestFlutter githubToken = Return r
             ∧ cr_error r = None
             ∧ (getFlutterVersionFromPubspec content = None →
                cr_flutter r = {| fv_current := latestFlutter;
                                  fv_latest := latestFlutter;
                                  fv_updateAvailable := false |})
      else
        checkRepository net repository latestFlutter githubToken =
          Return (error_result repository latestFlutter parse_failure)
  end.
Proof.
  intros Hf. destruct (yaml_parse net content) as [pubspec|message] eqn:Hy.
  - destruct (truthy pubspec) eqn:Ht.
    + intros Hr. eexists.
      split; [by apply (checkRepository_parsed _ _ _ content pubspec)|].
      split; [done|]. simpl. intros ->. simpl. by rewrite streq_refl.
    + by apply (checkRepository_parse_null _ _ _ content pubspec).
  - by apply (checkRepository_parse_error _ _ _ content).
Qed.



End AggregatorFacts.

(** C6 as stated fails: the fetch succeeds, the manifest is empty, and
    the check ends with [error] set and the runtime shown as unknown
    instead of falling back to the latest version. *)
Lemma empty_manifest_is_fatal :
  getPubspecFromGitHub empty_manifest_net (repo_url demo_repository) None = Return []
  ∧ yaml_parse empty_manifest_net [] = Return JNull
  ∧ ∃ r, @checkRepository PlainSemver.lib empty_manifest_net demo_repository
           (lit "3.29.0") None = Return r
         ∧ cr_error r = Some parse_failure
         ∧ fv_current (cr_flutter r) = lit "unknown"
         ∧ fv_current (cr_flutter r) ≠ lit "3.29.0".
Proof.
  split; [done|]. split; [done|]. eexists. split; [reflexivity|].
  repeat split. by_evaluation.
Qed.

Lemma manifest_parse_outcome_witness :
  ∃ r, @checkRepository PlainSemver.lib demo_net demo_repository (lit "3.29.0") None
       = Return r
       ∧ cr_error r = None
       ∧ (getFlutterVersionFromPubspec manifest_without_environment = None →
          cr_flutter r = {| fv_current := lit "3.29.0";
                            fv_latest := lit "3.29.0";
                            fv_updateAvailable := false |}).
Proof.
  apply (@manifest_parse_outcome PlainSemver.lib demo_net demo_repository
           (lit "3.29.0") None manifest_without_environment); reflexivity.
Defined.



(** The packages of that check: the unknown package is recorded between
    the two that resolve. *)
Example demo_packages :
  ∃ r, @checkRepository PlainSemver.lib demo_net demo_repository (lit "3.29.0") None
       = Return r
       ∧ cr_packages r =
           [ {| pkg_name := lit "http"; pkg_current := JStr (lit "^1.0.0");
                pkg_latest := lit "1.2.0"; pkg_updateAvailable := false |};
             {| pkg_name := lit "retired_pkg"; pkg_current := JStr (lit "^0.3.0");
                pkg_latest := lit "N/A"; pkg_updateAvailable := false |};
             {| pkg_name := lit "provider"; pkg_current := JStr (lit "^6.0.0");
                pkg_latest := lit "7.0.0"; pkg_updateAvailable := true |} ].
Proof. eexists. split; vm_compute; reflexivity. Qed.



(** The newer pin is reported as an available update, and so is a pin
    that differs from the latest version only in how it is written. *)
Example newer_pin_is_flagged :
  ∃ r, @checkRepository PlainSemver.lib newer_pin_net demo_repository
         (lit "3.29.0") None = Return r
       ∧ cr_flutter r = {| fv_current := lit "3.30.0";
                           fv_latest := lit "3.29.0";
                           fv_updateAvailable := true |}.
Proof. eexists. split; vm_compute; reflexivity. Qed.

Example same_version_written_differently_is_flagged :
  ∃ r, @checkRepository PlainSemver.lib newer_pin_net demo_repository
         (lit "3.30.0+hotfix.1") None = Return r
       ∧ cr_flutter r = {| fv_current := lit "3.30.0";
                           fv_latest := lit "3.30.0+hotfix.1";
                           fv_updateAvailable := true |}.
Proof. eexists. split; vm_compute; reflexivity. Qed.

(** ** Notification and artifact upload *)

Section NotificationFacts.
Context {Blocks : Type}.
Variable slack : Messaging Blocks.

Lemma request_granted_test (r : UploadURLResponse) :
  request_granted r →
  negb (uu_ok r) || negb (truthy_str (uu_upload_url r))
  || negb (truthy_str (uu_file_id r)) = false.
Proof. intros (-> & -> & ->). done. Qed.

Lemma request_refused_test (r : UploadURLResponse) :
  uu_ok r = false ∨ truthy_str (uu_upload_url r) = false
  ∨ truthy_str (uu_file_id r) = false →
  negb (uu_ok r) || negb (truthy_str (uu_upload_url r))
  || negb (truthy_str (uu_file_id r)) = true.
Proof.
  intros [-> | [-> | ->]]; simpl; [done| |];
    rewrite ?orb_true_r; done.
Qed.

Ltac run_io :=
  unfold upload_report, io_try, perform, throw, mbind, io_bind, mret, io_ret;
  simpl.

(** A failing upload throws the failure's message after the calls up
    to the failing phase, and no other. *)
Lemma upload_report_fails (channel : jsstring) (results : list CheckResult)
  (response : MessageResponse) (message : jsstring) (issued trace : list Effect) :
  upload_failure slack channel results response message issued →
  upload_report slack channel results response trace
  = (Throw message, trace ++ issued).
Proof.
  intros Hfail.
  destruct Hfail as [message Hbook
                    | buffer message Hbook Hreq
                    | buffer r Hbook Hreq Hrefused
                    | buffer r message Hbook Hreq Hgranted Hput
                    | buffer r message Hbook Hreq Hgranted Hput Hdone
                    | buffer r c Hbook Hreq Hgranted Hput Hdone Hok];
    unfold through_completion, through_transfer, through_request.
  - run_io. rewrite Hbook. reflexivity.
  - run_io. rewrite Hbook, Hreq. by rewrite <- app_assoc.
  - run_io. rewrite Hbook, Hreq, (request_refused_test _ Hrefused).
    by rewrite <- app_assoc.
  - run_io. rewrite Hbook, Hreq, (request_granted_test _ Hgranted), Hput.
    by rewrite <- !app_assoc.
  - run_io. rewrite Hbook, Hreq, (request_granted_test _ Hgranted), Hput.
    fold (thread_anchor response). rewrite Hdone.
    by rewrite <- !app_assoc.
  - run_io. rewrite Hbook, Hreq, (request_granted_test _ Hgranted), Hput.
    fold (thread_anchor response). rewrite Hdone, Hok. simpl.
    by rewrite <- !app_assoc.
Qed.

(** None of the calls of the upload reaches the chat or reports a
    finished upload. *)
Lemma upload_failure_is_quiet (channel : jsstring) (results : list CheckResult)
  (response : MessageResponse) (message : jsstring) (issued : list Effect) :
  upload_failure slack channel results response message issued →
  Forall (λ e, touches_chat e = false ∧ reports_success e = false) issued.
Proof. intros Hfail. destruct Hfail; repeat constructor. Qed.

(** The relation names every way the upload can throw. *)
Lemma upload_report_throws_only_on_failure (channel : jsstring)
  (results : list CheckResult) (response : MessageResponse)
  (message : jsstring) (trace : list Effect) :
  fst (upload_report slack channel results response trace) = Throw message →
  ∃ issued, upload_failure slack channel results response message issued.
Proof.
  run_io.
  destruct (generateExcelFile slack results) as [buffer|m] eqn:Hbook; simpl;
    [|intros [= <-]; eexists; by apply workbook_failed].
  destruct (files_getUploadURLExternal slack _ _) as [r|m] eqn:Hreq; simpl;
    [|intros [= <-]; eexists; by eapply request_failed].
  destruct (negb (uu_ok r) || negb (truthy_str (uu_upload_url r))
            || negb (truthy_str (uu_file_id r))) eqn:Htest; simpl.
  { intros [= <-]. eexists. eapply request_refused; [done..|].
    destruct (uu_ok r), (truthy_str (uu_upload_url r)),
      (truthy_str (uu_file_id r)); simpl in Htest; auto; done. }
  assert (Hgranted : request_granted r).
  { unfold request_granted.
    destruct (uu_ok r), (truthy_str (uu_upload_url r)),
      (truthy_str (uu_file_id r)); simpl in Htest; done. }
  destruct (axios_put slack _ buffer) as [[]|m] eqn:Hput; simpl;
    [|intros [= <-]; eexists; by eapply transfer_failed].
  fold (thread_anchor response).
  destruct (files_completeUploadExternal slack _ channel _) as [c|m] eqn:Hdone;
    simpl; [|intros [= <-]; eexists; by eapply completion_failed].
  destruct (cu_ok c) eqn:Hok; simpl; [done|].
  intros [= <-]. eexists. by eapply completion_refused.
Qed.

(** With the message posted, the function returns normally whatever the
    upload does. *)
Lemma sendSlackNotification_returns (channel : jsstring)
  (results : list CheckResult) (latestFlutter : jsstring)
  (response : MessageResponse) (trace : list Effect) :
  chat_postMessage slack channel (notification_text results)
    (compose_blocks slack results latestFlutter) = Return response →
  fst (sendSlackNotification slack channel results latestFlutter trace) = Return ().
Proof.
  intros Hpost.
  unfold sendSlackNotification, io_try, perform, mbind, io_bind.
  fold (notification_text results). rewrite Hpost.
  destruct (upload_report slack channel results response _) as [[[]|m] trace'];
    done.
Qed.

(** C8: once the message is posted, every failure of the upload (the
    request phase answering without file id or URL, the transfer
    throwing, the completion answering without success, ...) aborts
    only the upload and is caught by the handler around it: the
    function returns normally, and what it has done is exactly the
    post, then the calls of the upload up to the phase that failed and
    none of a later phase, then the error log with the failure's
    message; the post is the only call to the chat, and no success is
    logged. *)
Theorem upload_failure_is_contained (channel : jsstring)
  (results : list CheckResult) (latestFlutter : jsstring)
  (response : MessageResponse) (message : jsstring)
  (issued trace : list Effect) :
  chat_postMessage slack channel (notification_text results)
    (compose_blocks slack results latestFlutter) = Return response →
  upload_failure slack channel results response message issued →
  sendSlackNotification slack channel results latestFlutter trace
  = (Return (),
     trace ++ [PostMessage channel (notification_text results)]
           ++ issued ++ [ConsoleError log_upload_failed message])
  ∧ Forall (λ e, touches_chat e = false ∧ reports_success e = false) issued.
Proof.
  intros Hpost Hfail.
  split; [|by apply (upload_failure_is_quiet channel results response message)].
  unfold sendSlackNotification, io_try, perform, mbind, io_bind.
  fold (notification_text results). rewrite Hpost.
  rewrite (upload_report_fails channel results response message issued _ Hfail).
  by rewrite <- !app_assoc.
Qed.

End NotificationFacts.

Example upload_filename_has_no_colon_or_period :
  upload_filename (toISOString slack_without_file_id)
  = lit "flutter-dependency-check-2026-11-03T06-58-00.xlsx".
Proof. reflexivity. Qed.

Lemma upload_failure_is_contained_witness :
  sendSlackNotification slack_without_file_id (lit "C0123456789A") []
    (lit "3.29.0") []
  = (Return (),
     [] ++ [PostMessage (lit "C0123456789A") (notification_text [])]
        ++ [ConsoleLog log_generating;
            GetUploadURLExternal
              (lit "flutter-dependency-check-2026-11-03T06-58-00.xlsx") 4]
        ++ [ConsoleError log_upload_failed (lit "Failed to get upload URL")])
  ∧ Forall (λ e, touches_chat e = false ∧ reports_success e = false)
      [ConsoleLog log_generating;
       GetUploadURLExternal
         (lit "flutter-dependency-check-2026-11-03T06-58-00.xlsx") 4].
Proof.
  apply (upload_failure_is_contained slack_without_file_id (lit "C0123456789A") []
           (lit "3.29.0") {| mr_ts := Some (lit "1730000000.000100") |}
           (lit "Failed to get upload URL")
           (through_request slack_without_file_id [80; 75; 3; 4]) []).
  - reflexivity.
  - apply (request_refused slack_without_file_id (lit "C0123456789A") []
             {| mr_ts := Some (lit "1730000000.000100") |} [80; 75; 3; 4]
             {| uu_ok := true;
                uu_upload_url := Some (lit "https://files.slack.com/upload/v1/abc");
                uu_file_id := None;
                uu_error := None |}).
    + reflexivity.
    + reflexivity.
    + right. right. reflexivity.
Defined.

(** What reaches the outside world in that run: the post, the workbook
    log line, the request, the error log; no transfer, no completion. *)
Example run_without_file_id :
  sendSlackNotification slack_without_file_id (lit "C0123456789A") []
    (lit "3.29.0") []
  = (Return (),
     [PostMessage (lit "C0123456789A") check_text;
      ConsoleLog log_generating;
      GetUploadURLExternal
        (lit "flutter-dependency-check-2026-11-03T06-58-00.xlsx") 4;
      ConsoleError log_upload_failed (lit "Failed to get upload URL")]).
Proof. reflexivity. Qed.

(** ** Summary sheet *)

(** The count the loop takes is the count of the flagged packages. *)
Lemma outdated_count_counts (r : CheckResult) :
  outdated_count r = outdatedPackageCount (cr_packages r).
Proof.
  unfold outdated_count. induction (cr_packages r) as [|p packages IH]; [done|].
  cbn [outdatedPackageCount]. destruct (pkg_updateAvailable p) eqn:Hp.
  - rewrite filter_cons_True by done. simpl. by rewrite IH.
  - rewrite filter_cons_False by by rewrite Hp. by rewrite IH.
Qed.

(** The test of the loop on [error] and the status of the result. *)
Lemma has_error_status (r : CheckResult) :
  has_error r = true ↔ overallStatus r = StatusError.
Proof.
  unfold has_error, truthy_str, overallStatus.
  destruct (cr_error r) as [[|c message]|]; try done;
    destruct (fv_updateAvailable (cr_flutter r)); try done;
    by destruct (0 <? outdatedPackageCount (cr_packages r))%nat.
Qed.

Lemma summary_step_status (worksheet : Worksheet) (rowNumber : nat)
  (result : CheckResult) :
  sr_status <$> ws_rows (fst (summary_step (worksheet, rowNumber) result))
  = (sr_status <$> ws_rows worksheet)
    ++ [Text (status_text (overallStatus result))].
Proof.
  unfold summary_step. rewrite outdated_count_counts.
  unfold overallStatus, has_error, truthy_str.
  destruct (cr_error result) as [[|c message]|]; simpl;
    try (by rewrite fmap_app);
    destruct (fv_updateAvailable (cr_flutter result)); simpl;
    try (by rewrite fmap_app);
    destruct (0 <? outdatedPackageCount (cr_packages result))%nat; simpl;
    by rewrite fmap_app.
Qed.

Lemma summary_step_row_number (state : Worksheet * nat) (result : CheckResult) :
  snd (summary_step state result) = S (snd state).
Proof.
  destruct state as [worksheet rowNumber]. unfold summary_step.
  by destruct (has_error result).
Qed.

Lemma summary_loop_status (results : list CheckResult) (state : Worksheet * nat) :
  sr_status <$> ws_rows (fst (fold_left summary_step results state))
  = (sr_status <$> ws_rows (fst state))
    ++ ((λ r, Text (status_text (overallStatus r))) <$> results).
Proof.
  revert state. induction results as [|result results IH]; intros state; simpl.
  - by rewrite app_nil_r.
  - rewrite IH. destruct state as [worksheet rowNumber].
    rewrite summary_step_status. by rewrite <- app_assoc.
Qed.





(** The rows of that sheet as the loop writes them: one flagged package
    out of three makes the first result need an update. *)
Example summary_of_checked_results :
  ws_rows (createSummarySheet checked_results)
  = [ {| sr_repository := Text (lit "example_app");
         sr_flutterCurrent := Text (lit "3.29.0");
         sr_flutterLatest := Text (lit "3.29.0");
         sr_flutterUpdate := Text text_up_to_date;
         sr_outdatedCount := Number 1;
         sr_totalCount := Number 3;
         sr_status := Text text_needs_update |};
      {| sr_repository := Text (lit "example_app");
         sr_flutterCurrent := Text text_error;
         sr_flutterLatest := Text [];
         sr_flutterUpdate := Text [];
         sr_outdatedCount := Text [];
         sr_totalCount := Text [];
         sr_status := Text text_error |};
      {| sr_repository := Text (lit "example_app");
         sr_flutterCurrent := Text (lit "3.29.0");
         sr_flutterLatest := Text (lit "3.29.0");
         sr_flutterUpdate := Text text_up_to_date;
         sr_outdatedCount := Number 0;
         sr_totalCount := Number 1;
         sr_status := Text text_up_to_date |} ].
Proof. reflexivity. Qed.

(** * Further properties *)

(** ** Divergence classifier *)

Lemma drop_while_all (p : N → bool) (x y : jsstring) :
  forallb p x = true → drop_while p (x ++ y) = drop_while p y.
Proof.
  induction x as [|c x IH]; simpl; [done|].
  intros Hx. apply andb_true_iff in Hx as [-> Hx]. auto.
Qed.

Lemma take_while_all (p : N → bool) (x y : jsstring) :
  forallb p x = true → take_while p (x ++ y) = x ++ take_while p y.
Proof.
  induction x as [|c x IH]; simpl; [done|].
  intros Hx. apply andb_true_iff in Hx as [-> Hx]. by rewrite IH.
Qed.

(** A constraint made of operator characters and blanks, then a version
    without blanks, then nothing or a blank and more: the base version
    is that version. *)
Theorem baseVersion_strips_operators (operators version rest : jsstring)
  (c : N) :
  forallb is_op_or_space operators = true →
  is_op_or_space c = false →
  forallb (λ x, negb (is_space x)) version = true →
  match rest with [] => True | r :: _ => is_space r = true end →
  baseVersion (operators ++ c :: version ++ rest) = c :: version.
Proof.
  intros Hops Hc Hv Hrest. rewrite baseVersion_base_token. unfold base_token.
  rewrite (drop_while_all _ _ _ Hops). simpl. rewrite Hc. simpl.
  assert (Hsp : is_space c = false).
  { unfold is_op_or_space in Hc. by repeat apply orb_false_iff in Hc as [Hc ?]. }
  rewrite Hsp. simpl. f_equal.
  rewrite (take_while_all _ _ _ Hv).
  destruct rest as [|r rest]; simpl; [by rewrite app_nil_r|].
  rewrite Hrest. simpl. by rewrite app_nil_r.
Qed.

Lemma baseVersion_strips_operators_witness :
  baseVersion (lit ">= " ++ 49 :: lit ".2.0" ++ lit " <2.0.0") = 49 :: lit ".2.0".
Proof.
  apply (baseVersion_strips_operators (lit ">= ") (lit ".2.0") (lit " <2.0.0") 49);
    reflexivity.
Defined.

Section ClassifierEdges.
Context `{SemverLib}.

(** A constraint that is not a string (a YAML number, say) is never
    flagged and never typed: the [TypeError] of [.replace] is caught. *)
Theorem non_string_constraint_is_unclassified (currentVersion : jsval)
  (latestVersion : jsstring) :
  (∀ s, currentVersion ≠ JStr s) →
  isUpdateAvailable currentVersion latestVersion = Return false
  ∧ getVersionUpdateType currentVersion latestVersion = Return None.
Proof.
  intros Hns. destruct currentVersion; try done.
  by destruct (Hns s).
Qed.

End ClassifierEdges.

Lemma non_string_constraint_is_unclassified_witness :
  @isUpdateAvailable PlainSemver.lib (JNum 2) (lit "2.1.0") = Return false
  ∧ @getVersionUpdateType PlainSemver.lib (JNum 2) (lit "2.1.0") = Return None.
Proof.
  apply (@non_string_constraint_is_unclassified PlainSemver.lib (JNum 2) (lit "2.1.0")).
  intros s. discriminate.
Defined.

(** ** Dependency extractor *)

Lemma push_entries_closed_form (deps : list Dependency) (map : jsval) :
  push_entries deps map =
    deps ++ (declaration <$>
               filter (λ entry, is_runtime_package entry.1 = false) (entries map)).
Proof.
  unfold push_entries. generalize (entries map). intros l. revert deps.
  induction l as [|[name spec] l IH]; intros deps; simpl.
  - by rewrite app_nil_r.
  - rewrite IH, filter_cons. simpl.
    destruct (is_runtime_package name) eqn:Hr.
    + by rewrite decide_False.
    + rewrite decide_True by done. by rewrite fmap_cons, <- app_assoc.
Qed.

Lemma extractDependencies_unfolded (pubspec : jsval) (includeDevDeps : bool) :
  extractDependencies pubspec includeDevDeps =
    declaration <$>
      filter (λ entry, is_runtime_package entry.1 = false)
        (entries (get_prop pubspec (lit "dependencies"))
         ++ (if includeDevDeps
             then entries (get_prop pubspec (lit "dev_dependencies"))
             else [])).
Proof.
  unfold extractDependencies.
  destruct (truthy pubspec) eqn:Hp; simpl.
  - set (deps := get_prop pubspec (lit "dependencies")).
    set (dev := get_prop pubspec (lit "dev_dependencies")).
    assert (Hdeps : (if truthy deps then push_entries [] deps else []) =
              declaration <$>
                filter (λ entry, is_runtime_package entry.1 = false) (entries deps)).
    { destruct (truthy deps) eqn:Ht; [by rewrite push_entries_closed_form|].
      by rewrite (falsy_has_no_entries _ Ht). }
    rewrite Hdeps. destruct includeDevDeps; simpl; [|by rewrite app_nil_r].
    rewrite filter_app, fmap_app.
    destruct (truthy dev) eqn:Ht; [by rewrite push_entries_closed_form|].
    by rewrite (falsy_has_no_entries _ Ht), app_nil_r.
  - assert (Hu : ∀ k, get_prop pubspec k = JUndefined) by (intros k; by destruct pubspec).
    rewrite !Hu. by destruct includeDevDeps.
Qed.

(** The two [forEach] loops with their [push] amount to this: the
    entries of the primary map, then under the flag those of the
    development map, the runtime's own packages dropped, each turned
    into its declaration, in the order of the maps. A manifest or a map
    that is missing contributes nothing, and the flag only appends: the
    declarations without it are the beginning of those with it. *)
Theorem extractDependencies_closed_form (pubspec : jsval) (includeDevDeps : bool) :
  extractDependencies pubspec includeDevDeps =
    declaration <$>
      filter (λ entry, is_runtime_package entry.1 = false)
        (entries (get_prop pubspec (lit "dependencies"))
         ++ (if includeDevDeps
             then entries (get_prop pubspec (lit "dev_dependencies"))
             else []))
  ∧ extractDependencies pubspec true =
      extractDependencies pubspec false
      ++ (declaration <$>
            filter (λ entry, is_runtime_package entry.1 = false)
              (entries (get_prop pubspec (lit "dev_dependencies")))).
Proof.
  split; [apply extractDependencies_unfolded|].
  rewrite !extractDependencies_unfolded.
  by rewrite app_nil_r, filter_app, fmap_app.
Qed.

Lemma js_or_truthy (a b : jsval) : truthy b = true → truthy (js_or a b) = true.
Proof. intros Hb. unfold js_or. by destruct (truthy a) eqn:Ha. Qed.

(** No declaration is for one of the runtime's own packages, and every
    declaration carries a version that is not empty: a missing or empty
    version has become ['any']. *)
Theorem extracted_declarations_are_usable (pubspec : jsval) (includeDevDeps : bool) :
  Forall (λ dep, is_runtime_package (dep_name dep) = false
                 ∧ truthy (dep_version dep) = true)
         (extractDependencies pubspec includeDevDeps).
Proof.
  rewrite extractDependencies_unfolded. apply Forall_fmap, Forall_forall.
  intros [name spec] Hin. apply list_elem_of_filter in Hin as [Hr _].
  split; [done|]. simpl. unfold declared_version. by apply js_or_truthy.
Qed.

(** ** Check aggregator *)

Section AggregatorEdges.
Context `{SemverLib}.
Variable net : Collaborators.

Lemma checkRepository_cases (repository : Repository) (latestFlutter : jsstring)
  (githubToken : option jsstring) :
  (∃ message,
     checkRepository net repository latestFlutter githubToken
       = Return (error_result repository latestFlutter message)
     ∧ ∀ m, getPubspecFromGitHub net (repo_url repository) githubToken = Throw m →
            m = message)
  ∨ (∃ content pubspec,
       getPubspecFromGitHub net (repo_url repository) githubToken = Return content
       ∧ yaml_parse net content = Return pubspec
       ∧ truthy pubspec = true
       ∧ renderable pubspec = true).
Proof.
  destruct (getPubspecFromGitHub net (repo_url repository) githubToken)
    as [content|m] eqn:Hf.
  - destruct (yaml_parse net content) as [pubspec|m] eqn:Hy.
    + destruct (truthy pubspec) eqn:Ht.
      * destruct (renderable pubspec) eqn:Hrender.
        -- right. by exists content, pubspec.
        -- left. exists conversion_failure. split; [|done].
           by apply (checkRepository_unrenderable _ _ _ _ content pubspec).
      * left. exists parse_failure. split; [|done].
        by apply (checkRepository_parse_null _ _ _ _ content pubspec).
    + left. exists m. split; [|done].
      by apply (checkRepository_parse_error _ _ _ _ content).
  - left. exists m. split; [by apply checkRepository_fetch_error|].
    by intros ? [= <-].
Qed.

Lemma checkRepository_names_repository (repository : Repository)
  (latestFlutter : jsstring) (githubToken : option jsstring) (r : CheckResult) :
  checkRepository net repository latestFlutter githubToken = Return r →
  cr_repository r = repository.
Proof.
  intros Hr.
  destruct (checkRepository_cases repository latestFlutter githubToken)
    as [(message & Hr' & _) | (content & pubspec & Hf & Hy & Ht & Hrender)].
  - rewrite Hr' in Hr. by injection Hr as <-.
  - rewrite (checkRepository_parsed _ _ _ _ content pubspec Hf Hy Ht Hrender) in Hr.
    by injection Hr as <-.
Qed.

(** [checkRepository] never throws. Its result names the repository it
    was given and the latest runtime version it was given; when [error]
    is set, the runtime is the placeholder (unknown, not divergent) and
    there are no packages; and a fetch that throws sets [error] to the
    message thrown. *)
Theorem checkRepository_never_throws (repository : Repository)
  (latestFlutter : jsstring) (githubToken : option jsstring) :
  ∃ r, checkRepository net repository latestFlutter githubToken = Return r
       ∧ cr_repository r = repository
       ∧ fv_latest (cr_flutter r) = latestFlutter
       ∧ match cr_error r with
         | None => True
         | Some message => r = error_result repository latestFlutter message
         end
       ∧ ∀ message,
           getPubspecFromGitHub net (repo_url repository) githubToken = Throw message →
           cr_error r = Some message.
Proof.
  destruct (checkRepository_cases repository latestFlutter githubToken)
    as [(message & Hr & Hm) | (content & pubspec & Hf & Hy & Ht & Hrender)].
  - eexists. split; [exact Hr|]. repeat split; try done.
    intros m Hthrow. simpl. by rewrite (Hm m Hthrow).
  - eexists. split; [by apply (checkRepository_parsed _ _ _ _ content pubspec)|].
    repeat split; try done. intros m Hthrow. congruence.
Qed.

Lemma unskipped_version (dep : Dependency) :
  skipped dep = false →
  dep_version dep ≠ any
  ∧ truthy (dep_version dep) = true
  ∧ ∀ s, dep_version dep = JStr s →
         includes s (lit "git:") = false ∧ includes s (lit "path:") = false.
Proof.
  unfold skipped. intros Hs.
  apply orb_false_iff in Hs as [Hs Hsrc]. apply orb_false_iff in Hs as [Ht Hany].
  apply negb_false_iff in Ht. split; [|split; [done|]].
  - intros Heq. rewrite Heq in Hany. by vm_compute in Hany.
  - intros s Heq. rewrite Heq in Hsrc. by apply orb_false_iff in Hsrc.
Qed.

Lemma package_entry_identity (dep : Dependency) :
  pkg_name (package_entry net dep) = dep_name dep
  ∧ pkg_current (package_entry net dep) = dep_version dep.
Proof.
  unfold package_entry. by destruct (getLatestPackageVersion net (dep_name dep)).
Qed.

(** No package of a result stands for a skipped dependency: its current
    version is never ['any'], never empty, and never a string that holds
    the [git:] or [path:] marker; and no package is one of the
    runtime's own. *)
Theorem skipped_dependencies_are_not_reported (repository : Repository)
  (latestFlutter : jsstring) (githubToken : option jsstring) (r : CheckResult) :
  checkRepository net repository latestFlutter githubToken = Return r →
  Forall (λ p, is_runtime_package (pkg_name p) = false
               ∧ pkg_current p ≠ any
               ∧ truthy (pkg_current p) = true
               ∧ ∀ s, pkg_current p = JStr s →
                      includes s (lit "git:") = false
                      ∧ includes s (lit "path:") = false)
         (cr_packages r).
Proof.
  intros Hr.
  destruct (checkRepository_cases repository latestFlutter githubToken)
    as [(message & Hr' & _) | (content & pubspec & Hf & Hy & Ht & Hrender)].
  - rewrite Hr' in Hr. injection Hr as <-. constructor.
  - rewrite (checkRepository_parsed _ _ _ _ content pubspec Hf Hy Ht Hrender) in Hr.
    injection Hr as <-. simpl. apply Forall_fmap, Forall_forall.
    intros dep Hin. apply list_elem_of_filter in Hin as [Hs Hin]. simpl.
    destruct (package_entry_identity dep) as [-> ->].
    split; [|by apply unskipped_version].
    rewrite extractDependencies_unfolded in Hin.
    apply list_elem_of_fmap in Hin as (entry & -> & Hin).
    by apply list_elem_of_filter in Hin as [Hrun _].
Qed.

Lemma check_repositories_from (repositories : list Repository)
  (latestFlutter : jsstring) (githubToken : option jsstring)
  (done_so_far : list CheckResult) :
  ∃ results,
    for_each
      (λ results repo,
         result ← checkRepository net repo latestFlutter githubToken;
         mret (results ++ [result]))
      repositories done_so_far
    = Return (done_so_far ++ results)
    ∧ Forall2 (λ repo r,
                 checkRepository net repo latestFlutter githubToken = Return r)
              repositories results.
Proof.
  revert done_so_far.
  induction repositories as [|repo repositories IH]; intros done_so_far; simpl.
  - exists []. by rewrite app_nil_r.
  - destruct (checkRepository_cases repo latestFlutter githubToken)
      as [(message & Hr & _) | (content & pubspec & Hf & Hy & Ht & Hrender)].
    + rewrite Hr. simpl.
      destruct (IH (done_so_far ++ [error_result repo latestFlutter message]))
        as (results & -> & Hall).
      eexists (_ :: results). split; [by rewrite <- app_assoc|].
      by constructor.
    + pose proof (checkRepository_parsed net _ latestFlutter githubToken
                    content pubspec Hf Hy Ht Hrender) as Hr.
      rewrite Hr. simpl.
      match goal with
      | |- context [done_so_far ++ [?r]] =>
          destruct (IH (done_so_far ++ [r])) as (results & -> & Hall);
          exists (r :: results)
      end.
      split; [by rewrite <- app_assoc|]. by constructor.
Qed.

(** The loop of [main] yields one result per repository, in the order
    of the configuration, each the result of checking that repository:
    no failure of one check ends the loop or costs another repository
    its result. *)
Theorem check_repositories_covers_every_repository
  (repositories : list Repository) (latestFlutter : jsstring)
  (githubToken : option jsstring) :
  ∃ results,
    check_repositories net repositories latestFlutter githubToken = Return results
    ∧ Forall2 (λ repo r,
                 checkRepository net repo latestFlutter githubToken = Return r)
              repositories results
    ∧ cr_repository <$> results = repositories.
Proof.
  destruct (check_repositories_from repositories latestFlutter githubToken [])
    as (results & Hrun & Hall).
  exists results. split; [exact Hrun|]. split; [exact Hall|].
  clear Hrun. induction Hall as [|repo r repositories results Hr _ IH]; [done|].
  rewrite fmap_cons, IH. f_equal.
  by apply (checkRepository_names_repository repo latestFlutter githubToken).
Qed.

End AggregatorEdges.

Lemma skipped_dependencies_are_not_reported_witness :
  Forall (λ p, is_runtime_package (pkg_name p) = false
               ∧ pkg_current p ≠ any
               ∧ truthy (pkg_current p) = true
               ∧ ∀ s, pkg_current p = JStr s →
                      includes s (lit "git:") = false
                      ∧ includes s (lit "path:") = false)
         (cr_packages demo_result).
Proof.
  apply (@skipped_dependencies_are_not_reported PlainSemver.lib demo_net
           demo_repository (lit "3.29.0") None demo_result).
  vm_compute. reflexivity.
Defined.

(** ** Notification and artifact upload *)

Section NotificationEdges.
Context {Blocks : Type}.
Variable slack : Messaging Blocks.

(** When the post and the three phases succeed, the effects are, in
    order: the post, the workbook log line, the request for an upload
    URL with the file name and the byte length, the PUT of that many
    bytes to the URL granted, the completion for the file id granted in
    the channel, under the thread of the posted message when the post
    returned a timestamp, and the success log line. *)
Theorem successful_upload_effects (channel : jsstring)
  (results : list CheckResult) (latestFlutter : jsstring)
  (response : MessageResponse) (buffer : list N) (r : UploadURLResponse)
  (c : CompleteUploadResponse) (trace : list Effect) :
  chat_postMessage slack channel (notification_text results)
    (compose_blocks slack results latestFlutter) = Return response →
  generateExcelFile slack results = Return buffer →
  files_getUploadURLExternal slack (upload_filename (toISOString slack))
    (length buffer) = Return r →
  request_granted r →
  axios_put slack (default [] (uu_upload_url r)) buffer = Return () →
  files_completeUploadExternal slack (default [] (uu_file_id r)) channel
    (thread_anchor response) = Return c →
  cu_ok c = true →
  sendSlackNotification slack channel results latestFlutter trace
  = (Return (),
     trace ++ [PostMessage channel (notification_text results);
               ConsoleLog log_generating;
               GetUploadURLExternal (upload_filename (toISOString slack))
                 (length buffer);
               PutFile (default [] (uu_upload_url r)) (length buffer);
               CompleteUploadExternal (default [] (uu_file_id r)) channel
                 (thread_anchor response);
               ConsoleLog log_uploaded]).
Proof.
  intros Hpost Hbook Hreq Hgranted Hput Hdone Hok.
  unfold sendSlackNotification, io_try, upload_report, perform, throw,
    mbind, io_bind, mret, io_ret.
  fold (notification_text results). rewrite Hpost. simpl.
  rewrite Hbook, Hreq, (request_granted_test _ Hgranted), Hput.
  fold (thread_anchor response). rewrite Hdone, Hok. simpl.
  by rewrite <- !app_assoc.
Qed.

End NotificationEdges.

Lemma successful_upload_effects_witness :
  sendSlackNotification slack_accepting (lit "C0123456789A") [demo_result]
    (lit "3.29.0") []
  = (Return (),
     [] ++ [PostMessage (lit "C0123456789A") (notification_text [demo_result]);
            ConsoleLog log_generating;
            GetUploadURLExternal (upload_filename (toISOString slack_accepting)) 4;
            PutFile (lit "https://files.slack.com/upload/v1/abc") 4;
            CompleteUploadExternal (lit "F0123ABCD") (lit "C0123456789A")
              (Some (lit "1730000000.000100"));
            ConsoleLog log_uploaded]).
Proof.
  apply (successful_upload_effects slack_accepting (lit "C0123456789A")
           [demo_result] (lit "3.29.0")
           {| mr_ts := Some (lit "1730000000.000100") |} [80; 75; 3; 4]
           {| uu_ok := true;
              uu_upload_url := Some (lit "https://files.slack.com/upload/v1/abc");
              uu_file_id := Some (lit "F0123ABCD");
              uu_error := None |}
           {| cu_ok := true; cu_error := None |} []);
    try reflexivity.
  repeat split.
Defined.

(** ** Version extractor *)

Lemma take_while_forallb (p : N → bool) (s : jsstring) :
  forallb p (take_while p s) = true.
Proof.
  induction s as [|c s IH]; simpl; [done|].
  destruct (p c) eqn:Hc; simpl; [by rewrite Hc|done].
Qed.

(** A list that does not begin with a period. *)
Ltac not_a_period x Hx Hm :=
  destruct x as [|x]; [done|];
  do 6 (destruct x as [x|x|]; try done); by destruct Hx.

Lemma match_triple_here_shape (s m : jsstring) :
  match_triple_here s = Some m → version_triple m.
Proof.
  unfold match_triple_here. intros Hm.
  destruct (take_while is_digit s) as [|c1 d1] eqn:H1; [done|].
  destruct (drop_while is_digit s) as [|x s1]; [done|].
  destruct (decide (x = 46)) as [->|Hx]; [|not_a_period x Hx Hm].
  destruct (take_while is_digit s1) as [|c2 d2] eqn:H2; [done|].
  destruct (drop_while is_digit s1) as [|y s2]; [done|].
  destruct (decide (y = 46)) as [->|Hy]; [|not_a_period y Hy Hm].
  destruct (take_while is_digit s2) as [|c3 d3] eqn:H3; [done|].
  injection Hm as <-.
  exists (c1 :: d1), (c2 :: d2), (c3 :: d3). split; [done|].
  rewrite <- H1, <- H2, <- H3.
  repeat split; try apply take_while_forallb; congruence.
Qed.

Lemma match_triple_shape (s m : jsstring) :
  match_triple s = Some m → version_triple m.
Proof.
  induction s as [|c s IH]; cbn [match_triple].
  - destruct (match_triple_here []) eqn:Hh; [|done].
    intros [= <-]. by apply match_triple_here_shape in Hh.
  - destruct (match_triple_here (c :: s)) eqn:Hh; [|done].
    intros [= <-]. by apply match_triple_here_shape in Hh.
Qed.

Lemma scan_lines_shape (inEnvironment : bool) (lines : list jsstring) (v : jsstring) :
  scan_lines inEnvironment lines = Some v → version_triple v.
Proof.
  revert inEnvironment. induction lines as [|line rest IH]; intros b; [done|].
  cbn [scan_lines].
  destruct (streq (trim line) (lit "environment:")); [apply IH|].
  destruct (b && startsWith (trim line) (lit "flutter:")).
  - destruct (match_triple _) eqn:Hm.
    + intros [= <-]. by apply match_triple_shape in Hm.
    + destruct (_ && _); [done|apply IH].
  - destruct (_ && _); [done|apply IH].
Qed.

(** Whatever [getFlutterVersionFromPubspec] returns is three runs of
    decimal digits separated by periods: no operator, quote, blank or
    pre-release tag of the manifest survives. *)
Theorem pubspec_pin_is_a_version_triple (pubspecContent v : jsstring) :
  getFlutterVersionFromPubspec pubspecContent = Some v → version_triple v.
Proof. apply scan_lines_shape. Qed.

Lemma pubspec_pin_is_a_version_triple_witness :
  version_triple (lit "3.10.0").
Proof.
  apply (pubspec_pin_is_a_version_triple pubspec_flutter_first (lit "3.10.0")).
  vm_compute. reflexivity.
Defined.

Lemma startsWith_self_app (p x : jsstring) : startsWith (p ++ x) p = true.
Proof. induction p as [|c p IH]; simpl; [done|]. by rewrite N.eqb_refl. Qed.

Lemma includes_infix (pre p post : jsstring) : includes (pre ++ p ++ post) p = true.
Proof. apply includes_app. rewrite <- (app_nil_r p) at 1. apply startsWith_self_app. Qed.

Lemma split_char_infix (sep : N) (cur s line : jsstring) :
  line ∈ split_char sep cur s → ∃ pre post, cur ++ s = pre ++ line ++ post.
Proof.
  revert cur. induction s as [|c s IH]; intros cur; simpl.
  - intros ->%list_elem_of_singleton. exists [], []. by rewrite !app_nil_r.
  - destruct (c =? sep).
    + intros [->|Hin]%elem_of_cons.
      * by exists [], (c :: s).
      * destruct (IH [] Hin) as (pre & post & Hs). simpl in Hs.
        exists (cur ++ c :: pre), post. rewrite Hs. by rewrite <- app_assoc.
    + intros Hin. destruct (IH _ Hin) as (pre & post & Hs).
      exists pre, post. rewrite <- Hs. by rewrite <- app_assoc.
Qed.

(** A manifest in which the text [environment:] does not occur has no
    pin: without the block header the scan never enters the scope,
    whatever [flutter:] lines the manifest holds. *)
Theorem pubspec_without_environment_has_no_pin (pubspecContent : jsstring) :
  includes pubspecContent (lit "environment:") = false →
  getFlutterVersionFromPubspec pubspecContent = None.
Proof.
  intros Hinc. apply scan_lines_needs_header, Forall_forall.
  intros line Hin Hhead.
  destruct (split_char_infix _ _ _ _ Hin) as (pre & post & Hs). simpl in Hs.
  destruct (trim_infix line) as (a & b & Hline).
  rewrite Hhead in Hline.
  assert (Hc : pubspecContent
               = (pre ++ a) ++ lit "environment:" ++ (b ++ post)).
  { rewrite Hs, Hline. by rewrite <- !app_assoc. }
  rewrite Hc, includes_infix in Hinc. done.
Qed.

Lemma pubspec_without_environment_has_no_pin_witness :
  getFlutterVersionFromPubspec
    (unlines [lit "name: app"; lit "flutter: 3.10.0"; lit "dependencies:"]) = None.
Proof.
  apply (pubspec_without_environment_has_no_pin
           (unlines [lit "name: app"; lit "flutter: 3.10.0"; lit "dependencies:"])).
  vm_compute. reflexivity.
Defined.

(** *** Reading back a pin *)

(** Two ways of bracketing one concatenation. *)
Ltac by_assoc := repeat (simpl; rewrite <- ?app_assoc); done.

Lemma drop_while_stops (p : N → bool) (x y : jsstring) (c : N) :
  p c = false →
  ∃ x1 x2, x = x1 ++ x2 ∧ drop_while p (x ++ c :: y) = x2 ++ c :: y.
Proof.
  intros Hc. induction x as [|d x IH]; simpl.
  - exists [], []. by rewrite Hc.
  - destruct (p d).
    + destruct IH as (x1 & x2 & -> & ->). by exists (d :: x1), x2.
    + by exists [], (d :: x).
Qed.

(** Trimming a text around a word that neither begins nor ends with
    white space keeps the word, and keeps an ending of what stands
    before it and a beginning of what stands after it. *)
Lemma trim_around (a b middle : jsstring) (first last : N) :
  is_space first = false → is_space last = false →
  ∃ a1 a2 b1 b2,
    a = a1 ++ a2 ∧ b = b1 ++ b2
    ∧ trim (a ++ (first :: middle ++ [last]) ++ b)
      = a2 ++ (first :: middle ++ [last]) ++ b1.
Proof.
  intros Hfirst Hlast. unfold trim.
  destruct (drop_while_stops is_space a ((middle ++ [last]) ++ b) first Hfirst)
    as (a1 & a2 & Ha & Hdrop).
  simpl. rewrite Hdrop.
  replace (a2 ++ first :: (middle ++ [last]) ++ b)
    with ((a2 ++ first :: middle) ++ last :: b)
    by by_assoc.
  rewrite rev_app_distr. simpl. rewrite <- app_assoc. simpl.
  destruct (drop_while_stops is_space (rev b) (rev (a2 ++ first :: middle)) last Hlast)
    as (r1 & r2 & Hb & Hdrop').
  rewrite Hdrop'. exists a1, a2, (rev r2), (rev r1).
  split; [done|]. split.
  - rewrite <- rev_app_distr, <- Hb. by rewrite rev_involutive.
  - rewrite rev_app_distr. simpl. rewrite rev_involutive.
    by_assoc.
Qed.

Lemma digit_is_not_space (c : N) : is_digit c = true → is_space c = false.
Proof.
  unfold is_digit. intros Hd.
  apply andb_true_iff in Hd as [Hlo Hhi].
  apply N.leb_le in Hlo. apply N.leb_le in Hhi.
  assert (Hc : c = 48 ∨ c = 49 ∨ c = 50 ∨ c = 51 ∨ c = 52
               ∨ c = 53 ∨ c = 54 ∨ c = 55 ∨ c = 56 ∨ c = 57) by lia.
  by repeat destruct Hc as [->|Hc]; try rewrite Hc.
Qed.

Lemma digits_ends (d : jsstring) :
  digits d →
  (∃ c d', d = c :: d' ∧ is_digit c = true)
  ∧ (∃ d' c, d = d' ++ [c] ∧ is_digit c = true).
Proof.
  intros [Hne Hall]. split.
  - destruct d as [|c d']; [done|]. simpl in Hall.
    apply andb_true_iff in Hall as [Hc _]. by exists c, d'.
  - destruct (exists_last Hne) as (d' & c & ->). exists d', c. split; [done|].
    rewrite forallb_app in Hall. apply andb_true_iff in Hall as [_ Hc].
    simpl in Hc. by apply andb_true_iff in Hc as [Hc _].
Qed.

(** A triple begins and ends with a digit. *)
Lemma version_triple_ends (t : jsstring) :
  version_triple t →
  ∃ first middle last,
    t = first :: middle ++ [last]
    ∧ is_digit first = true ∧ is_digit last = true.
Proof.
  intros (d1 & d2 & d3 & -> & H1 & H2 & H3).
  destruct (digits_ends d1 H1) as [(c & d1' & -> & Hc) _].
  destruct (digits_ends d3 H3) as [_ (d3' & l & -> & Hl)].
  exists c, (d1' ++ [46] ++ d2 ++ [46] ++ d3'), l. split; [|done].
  by_assoc.
Qed.

Lemma take_while_digits (d rest : jsstring) :
  forallb is_digit d = true → not_digit_first rest →
  take_while is_digit (d ++ rest) = d ∧ drop_while is_digit (d ++ rest) = rest.
Proof.
  intros Hd Hrest. rewrite (take_while_all _ _ _ Hd), (drop_while_all _ _ _ Hd).
  destruct rest as [|c rest]; simpl; [by rewrite app_nil_r|].
  simpl in Hrest. rewrite Hrest. by rewrite app_nil_r.
Qed.

Lemma match_triple_here_reads (t rest : jsstring) :
  version_triple t → not_digit_first rest →
  match_triple_here (t ++ rest) = Some t.
Proof.
  intros (d1 & d2 & d3 & -> & [Hn1 H1] & [Hn2 H2] & [Hn3 H3]) Hrest.
  unfold match_triple_here.
  replace ((d1 ++ [46] ++ d2 ++ [46] ++ d3) ++ rest)
    with (d1 ++ 46 :: d2 ++ 46 :: d3 ++ rest)
    by by_assoc.
  destruct (take_while_digits d1 (46 :: d2 ++ 46 :: d3 ++ rest) H1 eq_refl)
    as [-> ->].
  destruct d1 as [|c1 d1]; [done|].
  destruct (take_while_digits d2 (46 :: d3 ++ rest) H2 eq_refl) as [-> ->].
  destruct d2 as [|c2 d2]; [done|].
  destruct (take_while_digits d3 rest H3 Hrest) as [-> _].
  by destruct d3.
Qed.

Lemma match_triple_reads (a t b : jsstring) :
  no_digit a → version_triple t → not_digit_first b →
  match_triple (a ++ t ++ b) = Some t.
Proof.
  intros Ha Ht Hb. induction a as [|c a IH]; simpl app.
  - destruct (t ++ b) eqn:Htb; cbn [match_triple]; rewrite <- Htb;
      by rewrite (match_triple_here_reads t b Ht Hb).
  - unfold no_digit in Ha. simpl in Ha. apply andb_true_iff in Ha as [Hc Ha].
    apply negb_true_iff in Hc. cbn [match_triple].
    assert (Hhere : match_triple_here (c :: a ++ t ++ b) = None).
    { unfold match_triple_here. simpl. by rewrite Hc. }
    rewrite Hhere. by apply IH.
Qed.

Lemma no_digit_suffix (a1 a2 : jsstring) : no_digit (a1 ++ a2) → no_digit a2.
Proof.
  unfold no_digit. rewrite forallb_app. intros H. by apply andb_true_iff in H as [_ H].
Qed.

Lemma not_digit_first_prefix (b1 b2 : jsstring) :
  not_digit_first (b1 ++ b2) → not_digit_first b1.
Proof. by destruct b1. Qed.

(** The leftmost triple of a value survives trimming. *)
Lemma match_triple_of_trimmed (a t b : jsstring) :
  no_digit a → version_triple t → not_digit_first b →
  match_triple (trim (a ++ t ++ b)) = Some t.
Proof.
  intros Ha Ht Hb.
  destruct (version_triple_ends t Ht) as (first & middle & last & Heq & Hf & Hl).
  destruct (trim_around a b middle first last
              (digit_is_not_space _ Hf) (digit_is_not_space _ Hl))
    as (a1 & a2 & b1 & b2 & Ha' & Hb' & Htrim).
  rewrite <- Heq in Htrim. rewrite Htrim.
  apply match_triple_reads; [|done|].
  - rewrite Ha' in Ha. by apply no_digit_suffix in Ha.
  - rewrite Hb' in Hb. by apply not_digit_first_prefix in Hb.
Qed.

Lemma split_char_no_separator (cur line : jsstring) :
  no_newline line → split_char 10 cur line = [cur ++ line].
Proof.
  revert cur. induction line as [|c line IH]; intros cur Hline; simpl.
  - by rewrite app_nil_r.
  - unfold no_newline in Hline. simpl in Hline.
    apply andb_true_iff in Hline as [Hc Hline]. apply negb_true_iff in Hc.
    rewrite Hc, (IH _ Hline). by rewrite <- app_assoc.
Qed.

Lemma split_char_first_line (cur line rest : jsstring) :
  no_newline line →
  split_char 10 cur (line ++ 10 :: rest) = (cur ++ line) :: split_char 10 [] rest.
Proof.
  revert cur. induction line as [|c line IH]; intros cur Hline; simpl.
  - by rewrite app_nil_r.
  - unfold no_newline in Hline. simpl in Hline.
    apply andb_true_iff in Hline as [Hc Hline]. apply negb_true_iff in Hc.
    rewrite Hc, (IH _ Hline). by rewrite <- app_assoc.
Qed.

Lemma unlines_fold (lines : list jsstring) (x y : jsstring) :
  fold_left (λ text line, text ++ [10] ++ line) lines (x ++ y)
  = x ++ fold_left (λ text line, text ++ [10] ++ line) lines y.
Proof.
  revert y. induction lines as [|line lines IH]; intros y; simpl; [done|].
  by rewrite <- IH, <- app_assoc.
Qed.

Lemma unlines_cons (line next : jsstring) (lines : list jsstring) :
  unlines (line :: next :: lines) = line ++ 10 :: unlines (next :: lines).
Proof.
  unfold unlines at 1. simpl.
  replace (line ++ 10 :: next) with (line ++ [10] ++ next) by done.
  rewrite unlines_fold. f_equal. simpl. 
  replace (10 :: next) with ([10] ++ next) by done.
  by rewrite unlines_fold.
Qed.

(** Splitting at the line feeds what was joined with line feeds gives
    the lines back. *)
Lemma split_unlines (line : jsstring) (lines : list jsstring) :
  Forall no_newline (line :: lines) →
  split_char 10 [] (unlines (line :: lines)) = line :: lines.
Proof.
  revert line. induction lines as [|next lines IH]; intros line Hall.
  - apply Forall_cons in Hall as [Hline _]. simpl.
    by rewrite (split_char_no_separator [] line Hline).
  - apply Forall_cons in Hall as [Hline Hall].
    rewrite unlines_cons, (split_char_first_line [] line _ Hline).
    by rewrite (IH _ Hall).
Qed.

Lemma scan_lines_skips (before rest : list jsstring) :
  Forall (λ line, trim line ≠ lit "environment:") before →
  scan_lines false (before ++ rest) = scan_lines false rest.
Proof.
  induction 1 as [|line before Hhead _ IH]; [done|].
  simpl app. cbn [scan_lines]. apply streq_neq in Hhead. by rewrite Hhead.
Qed.

Lemma remove_first_prefix (p x : jsstring) : remove_first (p ++ x) p = x.
Proof.
  destruct (p ++ x) as [|c s] eqn:Hpx; simpl; rewrite <- Hpx;
    by rewrite startsWith_self_app, drop_app_length.
Qed.

Lemma trim_indented (indent s : jsstring) :
  forallb is_space indent = true → trim (indent ++ s) = trim s.
Proof. intros Hindent. unfold trim. by rewrite (drop_while_all _ _ _ Hindent). Qed.

(** Trimming the line of a key keeps the key, the value up to its
    triple, and a beginning of what follows the triple. *)
Lemma trim_key_line (indent key a t b : jsstring) (k : N) :
  forallb is_space indent = true →
  is_space k = false →
  version_triple t →
  ∃ b1 b2, b = b1 ++ b2
           ∧ trim (indent ++ (k :: key) ++ a ++ t ++ b) = (k :: key) ++ a ++ t ++ b1.
Proof.
  intros Hindent Hk Ht. rewrite (trim_indented _ _ Hindent).
  destruct (version_triple_ends t Ht) as (first & middle & last & -> & Hf & Hl).
  destruct (trim_around [] b (key ++ a ++ first :: middle) k last
              Hk (digit_is_not_space _ Hl))
    as (x1 & x2 & b1 & b2 & Hx & Hb & Htrim).
  destruct x1; [|done]. destruct x2; [|done].
  exists b1, b2. split; [done|].
  replace ((k :: key) ++ a ++ (first :: middle ++ [last]) ++ b)
    with ([] ++ (k :: (key ++ a ++ first :: middle) ++ [last]) ++ b)
    by by_assoc.
  rewrite Htrim. by_assoc.
Qed.

(** The line of the runtime key, read inside the scope. *)
Lemma scan_lines_reads_runtime_line (indent a t b : jsstring)
  (rest : list jsstring) :
  forallb is_space indent = true →
  no_digit a → version_triple t → not_digit_first b →
  scan_lines true ((indent ++ lit "flutter:" ++ a ++ t ++ b) :: rest) = Some t.
Proof.
  intros Hindent Ha Ht Hb.
  change (lit "flutter:") with (102 :: lit "lutter:").
  destruct (trim_key_line indent (lit "lutter:") a t b 102 Hindent eq_refl Ht)
    as (b1 & b2 & Hb' & Hline).
  apply scan_lines_takes_runtime_line.
  - rewrite Hline. by vm_compute.
  - rewrite Hline. apply (startsWith_self_app (102 :: lit "lutter:")).
  - rewrite Hline.
    rewrite (remove_first_prefix (102 :: lit "lutter:")).
    apply match_triple_of_trimmed; [done..|].
    rewrite Hb' in Hb. by apply not_digit_first_prefix in Hb.
Qed.

(** A manifest whose environment header is directly followed by the
    line of the runtime key yields the triple written there: the
    indentation of the line, what decorates the value before the triple
    (an operator, a quote, blanks: anything without a digit) and what
    follows the triple (anything that does not begin with a digit) do
    not matter, nor do the lines before the header and after the key. *)
Theorem pubspec_pin_reads_back (before after : list jsstring)
  (header indent decoration pin tail : jsstring) :
  Forall no_newline
    (before ++ header :: (indent ++ lit "flutter:" ++ decoration ++ pin ++ tail)
            :: after) →
  Forall (λ line, trim line ≠ lit "environment:") before →
  trim header = lit "environment:" →
  forallb is_space indent = true →
  no_digit decoration →
  version_triple pin →
  not_digit_first tail →
  getFlutterVersionFromPubspec
    (unlines
       (before ++ header :: (indent ++ lit "flutter:" ++ decoration ++ pin ++ tail)
               :: after))
  = Some pin.
Proof.
  intros Hlines Hbefore Hheader Hindent Hdeco Hpin Htail.
  unfold getFlutterVersionFromPubspec.
  assert (Hsplit : ∀ lines, lines ≠ [] → Forall no_newline lines →
                     split_char 10 [] (unlines lines) = lines).
  { intros [|line lines] Hne Hall; [done|]. by apply split_unlines. }
  rewrite Hsplit; [|by destruct before|done].
  rewrite (scan_lines_skips _ _ Hbefore). cbn [scan_lines].
  rewrite Hheader, streq_refl.
  by apply scan_lines_reads_runtime_line.
Qed.

Lemma pubspec_pin_reads_back_witness :
  getFlutterVersionFromPubspec
    (unlines
       ([lit "name: app"]
        ++ lit "environment: " :: (lit "  " ++ lit "flutter:" ++ lit " '>="
                                   ++ lit "3.10.0" ++ lit "'")
        :: [lit "  sdk: '>=3.0.0 <4.0.0'"; lit "dependencies:"]))
  = Some (lit "3.10.0").
Proof.
  apply (pubspec_pin_reads_back [lit "name: app"]
           [lit "  sdk: '>=3.0.0 <4.0.0'"; lit "dependencies:"]
           (lit "environment: ") (lit "  ") (lit " '>=") (lit "3.10.0") (lit "'")).
  - repeat constructor.
  - repeat constructor. by vm_compute.
  - reflexivity.
  - reflexivity.
  - reflexivity.
  - exists (lit "3"), (lit "10"), (lit "0"). repeat split; done.
  - reflexivity.
Defined.

(** ** Summary sheet *)

Lemma row_cells_elsewhere (n k column : nat) (font : Font)
  (fonts : gmap (nat * nat) Font) (l : list nat) :
  k ≠ n →
  foldr (λ column fonts, <[(n, column) := font]> fonts) fonts l !! (k, column)
  = fonts !! (k, column).
Proof.
  intros Hk. induction l as [|c l IH]; [done|]. simpl.
  rewrite lookup_insert_ne; [done|]. congruence.
Qed.

Lemma row_cells_here (n column : nat) (font : Font)
  (fonts : gmap (nat * nat) Font) (l : list nat) :
  foldr (λ column fonts, <[(n, column) := font]> fonts) fonts l !! (n, column)
  = if bool_decide (column ∈ l) then Some font else fonts !! (n, column).
Proof.
  induction l as [|c l IH]; [done|]. simpl.
  destruct (decide (c = column)) as [->|Hc].
  - rewrite lookup_insert_eq. rewrite bool_decide_eq_true_2; [done|]. by left.
  - rewrite lookup_insert_ne by congruence. rewrite IH.
    destruct (bool_decide (column ∈ l)) eqn:Hin.
    + apply bool_decide_eq_true in Hin.
      rewrite bool_decide_eq_true_2; [done|]. by right.
    + apply bool_decide_eq_false in Hin.
      rewrite bool_decide_eq_false_2; [done|].
      intros Hin'. apply elem_of_cons in Hin' as [->|Hin']; done.
Qed.

Lemma in_columns (column : nat) :
  bool_decide (column ∈ columns) = (1 <=? column)%nat && (column <=? 7)%nat.
Proof.
  unfold columns.
  destruct ((1 <=? column)%nat && (column <=? 7)%nat) eqn:Hrange.
  - apply andb_true_iff in Hrange as [Hlo Hhi].
    apply Nat.leb_le in Hlo, Hhi.
    apply bool_decide_eq_true_2, elem_of_seq. lia.
  - apply bool_decide_eq_false_2. rewrite elem_of_seq. intros [Hlo Hhi].
    apply andb_false_iff in Hrange as [Hrange|Hrange];
      apply Nat.leb_gt in Hrange; lia.
Qed.

Ltac sheet_simpl :=
  cbn [fst snd ws_rows ws_row_font ws_cell_fill ws_cell_font
       set_row_font addRow set_cell_style orb andb].

Lemma summary_step_elsewhere (ws : Worksheet) (n k : nat) (r : CheckResult) :
  k ≠ n →
  ws_row_font (fst (summary_step (ws, n) r)) !! k = ws_row_font ws !! k
  ∧ ∀ column,
      ws_cell_fill (fst (summary_step (ws, n) r)) !! (k, column)
      = ws_cell_fill ws !! (k, column)
      ∧ ws_cell_font (fst (summary_step (ws, n) r)) !! (k, column)
        = ws_cell_font ws !! (k, column).
Proof.
  intros Hk. unfold summary_step.
  destruct (has_error r); sheet_simpl.
  - split; [by rewrite lookup_insert_ne|]. intros column.
    split; [done|]. by apply row_cells_elsewhere.
  - destruct (fv_updateAvailable (cr_flutter r)); sheet_simpl;
      [|destruct (0 <? outdated_count r)%nat; sheet_simpl];
      (split; [done|]); intros column;
      rewrite ?lookup_insert_ne; try done; congruence.
Qed.

Lemma summary_loop_elsewhere (results : list CheckResult) (ws : Worksheet)
  (n k : nat) :
  (k < n)%nat →
  ws_row_font (fst (fold_left summary_step results (ws, n))) !! k
  = ws_row_font ws !! k
  ∧ ∀ column,
      ws_cell_fill (fst (fold_left summary_step results (ws, n))) !! (k, column)
      = ws_cell_fill ws !! (k, column)
      ∧ ws_cell_font (fst (fold_left summary_step results (ws, n))) !! (k, column)
        = ws_cell_font ws !! (k, column).
Proof.
  revert ws n. induction results as [|r results IH]; intros ws n Hk; [done|].
  cbn [fold_left].
  destruct (summary_step_elsewhere ws n k r ltac:(lia)) as [Hfont Hcell].
  pose proof (summary_step_row_number (ws, n) r) as Hn.
  destruct (summary_step (ws, n) r) as [ws' n']. cbn [fst snd] in *. subst n'.
  destruct (IH ws' (S n) ltac:(lia)) as [Hfont' Hcell'].
  split; [by rewrite Hfont'|]. intros column.
  destruct (Hcell column) as [<- <-]. apply Hcell'.
Qed.

(** A row that carries no style yet gets the styles of its result. *)
Lemma summary_step_here (ws : Worksheet) (n : nat) (r : CheckResult) :
  ws_row_font ws !! n = None →
  (∀ column, ws_cell_fill ws !! (n, column) = None
             ∧ ws_cell_font ws !! (n, column) = None) →
  ws_row_font (fst (summary_step (ws, n) r)) !! n = summary_row_font r
  ∧ ∀ column,
      ws_cell_fill (fst (summary_step (ws, n) r)) !! (n, column)
      = summary_cell_fill r column
      ∧ ws_cell_font (fst (summary_step (ws, n) r)) !! (n, column)
        = summary_cell_font r column.
Proof.
  intros Hrow Hcells.
  unfold summary_step, summary_row_font, summary_cell_fill, summary_cell_font,
    summary_cell_style.
  rewrite outdated_count_counts.
  unfold overallStatus, has_error, truthy_str.
  assert (Hplain : ∀ (status : CellStyle) column,
            (<[(n, 7%nat) := cs_fill status]> (ws_cell_fill ws) !! (n, column)
             = cs_fill <$> (if (column =? 7)%nat then Some status else None))
            ∧ (<[(n, 7%nat) := font_of status]> (ws_cell_font ws) !! (n, column)
               = font_of <$> (if (column =? 7)%nat then Some status else None))).
  { intros status column. destruct (Hcells column) as [Hfill Hfont].
    destruct (Nat.eqb_spec column 7) as [->|Hc].
    - by rewrite !lookup_insert_eq.
    - rewrite !lookup_insert_ne by congruence. by rewrite Hfill, Hfont. }
  assert (Hboth : ∀ column,
            (<[(n, 4%nat) := cs_fill highlight]>
               (<[(n, 7%nat) := cs_fill highlight]> (ws_cell_fill ws)) !! (n, column)
             = cs_fill <$> (if (column =? 7)%nat then Some highlight
                            else if (column =? 4)%nat && true then Some highlight
                                 else None))
            ∧ (<[(n, 4%nat) := font_of highlight]>
                 (<[(n, 7%nat) := font_of highlight]> (ws_cell_font ws))
                 !! (n, column)
               = font_of <$> (if (column =? 7)%nat then Some highlight
                              else if (column =? 4)%nat && true then Some highlight
                                   else None))).
  { intros column. destruct (Hplain highlight column) as [Hfill Hfont].
    destruct (Nat.eqb_spec column 4) as [->|Hc].
    - by rewrite !lookup_insert_eq.
    - rewrite !(lookup_insert_ne _ (n, 4%nat)) by congruence.
      rewrite Hfill, Hfont. rewrite andb_false_l. done. }
  destruct (cr_error r) as [[|c message]|]; sheet_simpl.
  2: { split; [by rewrite lookup_insert_eq|]. intros column.
       destruct (Hcells column) as [Hfill Hfont]. split; [done|].
       rewrite row_cells_here, in_columns, Hfont. done. }
  all: destruct (fv_updateAvailable (cr_flutter r)); sheet_simpl;
    [split; [done|apply Hboth]|];
    destruct (0 <? outdatedPackageCount (cr_packages r))%nat; sheet_simpl;
    (split; [done|]); intros column;
    [destruct (Hplain highlight column) as [Hfill Hfont]
    |destruct (Hplain calm column) as [Hfill Hfont]];
    unfold font_of in *; rewrite Hfill, Hfont; rewrite ?andb_false_r; done.
Qed.

Lemma summary_loop_styles (results : list CheckResult) (ws : Worksheet)
  (n i : nat) (r : CheckResult) :
  results !! i = Some r →
  (∀ k, (n ≤ k)%nat →
        ws_row_font ws !! k = None
        ∧ ∀ column, ws_cell_fill ws !! (k, column) = None
                    ∧ ws_cell_font ws !! (k, column) = None) →
  ws_row_font (fst (fold_left summary_step results (ws, n))) !! (n + i)%nat
  = summary_row_font r
  ∧ ∀ column,
      ws_cell_fill (fst (fold_left summary_step results (ws, n)))
        !! ((n + i)%nat, column) = summary_cell_fill r column
      ∧ ws_cell_font (fst (fold_left summary_step results (ws, n)))
          !! ((n + i)%nat, column) = summary_cell_font r column.
Proof.
  revert ws n i. induction results as [|r0 results IH]; intros ws n i Hi Hfree;
    [done|].
  cbn [fold_left].
  pose proof (summary_step_row_number (ws, n) r0) as Hn. cbn [snd] in Hn.
  destruct i as [|i].
  - injection Hi as ->. rewrite Nat.add_0_r.
    destruct (Hfree n (le_n n)) as [Hf Hs].
    destruct (summary_step_here ws n r Hf Hs) as [Hfont Hcell].
    destruct (summary_step (ws, n) r) as [ws1 n1]. cbn [fst snd] in *. subst n1.
    destruct (summary_loop_elsewhere results ws1 (S n) n (Nat.lt_succ_diag_r n))
      as [Hfont' Hcell'].
    split; [by rewrite Hfont'|]. intros column.
    destruct (Hcell' column) as [-> ->]. apply Hcell.
  - replace (n + S i)%nat with (S n + i)%nat by lia.
    assert (Hfree' : ∀ k, (S n ≤ k)%nat →
              ws_row_font (fst (summary_step (ws, n) r0)) !! k = None
              ∧ ∀ column,
                  ws_cell_fill (fst (summary_step (ws, n) r0)) !! (k, column) = None
                  ∧ ws_cell_font (fst (summary_step (ws, n) r0)) !! (k, column)
                    = None).
    { intros k Hk.
      destruct (summary_step_elsewhere ws n k r0 ltac:(lia)) as [Hf Hs].
      destruct (Hfree k ltac:(lia)) as [Hf0 Hs0].
      split; [by rewrite Hf|]. intros column.
      destruct (Hs column) as [-> ->]. apply Hs0. }
    destruct (summary_step (ws, n) r0) as [ws1 n1]. cbn [fst snd] in *. subst n1.
    by apply IH.
Qed.

(** The styles of the summary sheet land on the rows they belong to:
    the result at position i (from 0) is styled on sheet row i + 2. The
    row of a result with an error has a red font, which each of its
    seven cells carries, and no fill; the row of any other result has
    no font of its own, its status cell (column 7) carries the
    highlight when the result needs an update and the calm style when
    it is up to date, its runtime cell (column 4) carries the highlight
    exactly when the runtime is divergent, and its other cells carry
    nothing. *)
Theorem summary_styles_follow_rows (results : list CheckResult) (i : nat)
  (r : CheckResult) :
  results !! i = Some r →
  ws_row_font (createSummarySheet results) !! (i + 2)%nat = summary_row_font r
  ∧ ∀ column,
      ws_cell_fill (createSummarySheet results) !! ((i + 2)%nat, column)
      = summary_cell_fill r column
      ∧ ws_cell_font (createSummarySheet results) !! ((i + 2)%nat, column)
        = summary_cell_font r column.
Proof.
  intros Hi. rewrite (Nat.add_comm i 2). unfold createSummarySheet.
  apply (summary_loop_styles results empty_sheet 2 i r Hi).
  intros k _. split; [apply lookup_empty|]. intros column.
  split; apply lookup_empty.
Qed.

Lemma summary_styles_follow_rows_witness :
  ws_row_font (createSummarySheet checked_results) !! 3%nat = Some red_font
  ∧ ∀ column,
      ws_cell_fill (createSummarySheet checked_results) !! (3%nat, column) = None
      ∧ ws_cell_font (createSummarySheet checked_results) !! (3%nat, column)
        = if (1 <=? column)%nat && (column <=? 7)%nat then Some red_font else None.
Proof.
  apply (summary_styles_follow_rows checked_results 1
           (error_result demo_repository (lit "3.29.0")
              (lit "Request failed with status code 404"))).
  reflexivity.
Defined.

(** The styles of the three rows of that sheet at the status cell and
    at the runtime cell. *)
Example styles_of_checked_results :
  (λ row, (ws_cell_fill (createSummarySheet checked_results) !! (row, 7%nat),
           ws_cell_font (createSummarySheet checked_results) !! (row, 7%nat),
           ws_cell_font (createSummarySheet checked_results) !! (row, 4%nat)))
    <$> [2; 3; 4]%nat
  = [(Some (lit "FFFFEB9C"),
      Some {| font_color := lit "FF9C5700"; font_bold := true |}, None);
     (None, Some red_font, Some red_font);
     (Some (lit "FFC6EFCE"),
      Some {| font_color := lit "FF006100"; font_bold := true |}, None)].
Proof. by vm_compute. Qed.

(** ** Version extractor for [.fvmrc] *)

Section FvmrcFacts.
Variable json_parse : jsstring → result jsval.

Lemma fvmrc_json_shape (trimmed v : jsstring) :
  fvmrc_json json_parse trimmed = Some v → version_triple v.
Proof.
  unfold fvmrc_json. destruct (startsWith trimmed (lit "{")); [|done].
  destruct (json_parse trimmed) as [json|e]; simpl; [|done].
  destruct (read_prop json (lit "flutter")) as [flutter|e]; simpl; [|done].
  destruct (truthy flutter); [|done].
  destruct flutter; try done. apply match_triple_shape.
Qed.

Lemma fvmrc_lines_shape (lines : list jsstring) (v : jsstring) :
  fvmrc_lines lines = Some v → version_triple v.
Proof.
  induction lines as [|line rest IH]; [done|]. cbn [fvmrc_lines].
  destruct (startsWith (trim line) (lit "flutter:")); [|done].
  destruct (match_triple _) as [m|] eqn:Hm; [|done].
  intros [= <-]. by apply match_triple_shape in Hm.
Qed.

(** What [getFlutterVersionFromFvmrc] returns, through the JSON form or
    through the YAML form and whatever [JSON.parse] does, is three
    non-empty runs of decimal digits separated by periods. *)
Theorem fvmrc_version_is_a_triple (fvmrcContent v : jsstring) :
  getFlutterVersionFromFvmrc json_parse fvmrcContent = Some v → version_triple v.
Proof.
  unfold getFlutterVersionFromFvmrc.
  destruct (fvmrc_json json_parse (trim fvmrcContent)) as [m|] eqn:Hjson.
  - intros [= <-]. by apply fvmrc_json_shape in Hjson.
  - apply fvmrc_lines_shape.
Qed.

Lemma strip_quotes_app (x y : jsstring) :
  strip_quotes (x ++ y) = strip_quotes x ++ strip_quotes y.
Proof. apply List.filter_app. Qed.

Lemma strip_quotes_no_digit (a : jsstring) : no_digit a → no_digit (strip_quotes a).
Proof.
  unfold no_digit. induction a as [|c a IH]; simpl; [done|].
  intros Ha. apply andb_true_iff in Ha as [Hc Ha].
  destruct (negb ((c =? 39) || (c =? 34))); simpl; [rewrite Hc|]; auto.
Qed.

Lemma strip_quotes_digits (d : jsstring) :
  forallb is_digit d = true → strip_quotes d = d.
Proof.
  induction d as [|c d IH]; simpl; [done|].
  intros Hd. apply andb_true_iff in Hd as [Hc Hd]. rewrite (IH Hd).
  unfold is_digit in Hc. apply andb_true_iff in Hc as [Hlo Hhi].
  apply N.leb_le in Hlo, Hhi.
  destruct (N.eqb_spec c 39); [lia|]. destruct (N.eqb_spec c 34); [lia|]. done.
Qed.

Lemma strip_quotes_triple (t : jsstring) : version_triple t → strip_quotes t = t.
Proof.
  intros (d1 & d2 & d3 & -> & [_ H1] & [_ H2] & [_ H3]).
  rewrite !strip_quotes_app.
  by rewrite (strip_quotes_digits d1), (strip_quotes_digits d2),
    (strip_quotes_digits d3).
Qed.

Lemma digits_no_newline (d : jsstring) : forallb is_digit d = true → no_newline d.
Proof.
  unfold no_newline. induction d as [|c d IH]; simpl; [done|].
  intros Hd. apply andb_true_iff in Hd as [Hc Hd]. rewrite (IH Hd).
  unfold is_digit in Hc. apply andb_true_iff in Hc as [Hlo _].
  apply N.leb_le in Hlo. destruct (N.eqb_spec c 10); [lia|done].
Qed.

Lemma no_newline_app (x y : jsstring) :
  no_newline (x ++ y) ↔ no_newline x ∧ no_newline y.
Proof. unfold no_newline. rewrite forallb_app. apply andb_true_iff. Qed.

Lemma version_triple_no_newline (t : jsstring) : version_triple t → no_newline t.
Proof.
  intros (d1 & d2 & d3 & -> & [_ H1] & [_ H2] & [_ H3]).
  rewrite !no_newline_app.
  repeat split; try done; by apply digits_no_newline.
Qed.

(** The value of the key once its line is trimmed, the key removed, the
    rest trimmed and the quotes deleted. *)
Lemma fvmrc_value_reads (a t b : jsstring) :
  no_digit a → version_triple t → not_digit_first (strip_quotes b) →
  match_triple (strip_quotes (trim (a ++ t ++ b))) = Some t.
Proof.
  intros Ha Ht Hb.
  destruct (version_triple_ends t Ht) as (first & middle & last & Heq & Hf & Hl).
  destruct (trim_around a b middle first last
              (digit_is_not_space _ Hf) (digit_is_not_space _ Hl))
    as (a1 & a2 & b1 & b2 & Ha' & Hb' & Htrim).
  rewrite Heq, Htrim, <- Heq, !strip_quotes_app, (strip_quotes_triple t Ht).
  apply match_triple_reads; [|done|].
  - apply strip_quotes_no_digit. rewrite Ha' in Ha. by apply no_digit_suffix in Ha.
  - rewrite Hb', strip_quotes_app in Hb. by apply not_digit_first_prefix in Hb.
Qed.

(** Round trip of the YAML form: a file that is one line, the key
    [flutter:] after any white space, then text without digits (blanks,
    an opening quote), a version triple and a tail (a closing quote, a
    comment) that does not begin with a digit once its quotes are
    deleted, yields exactly that triple, whatever [JSON.parse] does. *)
Theorem fvmrc_yaml_pin_reads_back (padding decoration pin tail : jsstring) :
  forallb is_space padding = true →
  no_digit decoration → no_newline decoration →
  version_triple pin →
  not_digit_first (strip_quotes tail) → no_newline tail →
  getFlutterVersionFromFvmrc json_parse
    (padding ++ lit "flutter:" ++ decoration ++ pin ++ tail)
  = Some pin.
Proof.
  intros Hpad Ha Hna Ht Hb Hnb.
  change (lit "flutter:") with (102 :: lit "lutter:").
  destruct (trim_key_line padding (lit "lutter:") decoration pin tail 102
              Hpad eq_refl Ht) as (b1 & b2 & Hb' & Htrimmed).
  destruct (trim_key_line [] (lit "lutter:") decoration pin b1 102
              eq_refl eq_refl Ht) as (b3 & b4 & Hb1 & Hline).
  unfold getFlutterVersionFromFvmrc. rewrite Htrimmed.
  replace (fvmrc_json json_parse _) with (@None jsstring) by done.
  rewrite split_char_no_separator.
  - cbn [fvmrc_lines]. rewrite !Hline.
    change (lit "flutter:") with (102 :: lit "lutter:").
    rewrite (startsWith_self_app (102 :: lit "lutter:")).
    rewrite (remove_first_prefix (102 :: lit "lutter:")).
    rewrite fvmrc_value_reads; [done..|].
    rewrite Hb', Hb1, !strip_quotes_app in Hb.
    by do 2 apply not_digit_first_prefix in Hb.
  - rewrite Hb' in Hnb. apply no_newline_app in Hnb as [Hnb _].
    rewrite !no_newline_app. repeat split; try done.
    by apply version_triple_no_newline.
Qed.

End FvmrcFacts.

Lemma fvmrc_version_is_a_triple_witness :
  version_triple (lit "3.24.0").
Proof.
  apply (fvmrc_version_is_a_triple json_parse_rejecting
           (lit "flutter: " ++ [34] ++ lit "3.24.0" ++ [34] ++ [10])).
  by vm_compute.
Defined.

Lemma fvmrc_yaml_pin_reads_back_witness :
  getFlutterVersionFromFvmrc json_parse_rejecting
    (lit "  " ++ lit "flutter:" ++ (32 :: [34]) ++ lit "3.24.0" ++ (34 :: lit " # pinned"))
  = Some (lit "3.24.0").
Proof.
  apply (fvmrc_yaml_pin_reads_back json_parse_rejecting (lit "  ") (32 :: [34])
           (lit "3.24.0") (34 :: lit " # pinned")); try by vm_compute.
  exists (lit "3"), (lit "24"), (lit "0"). by vm_compute.
Defined.

(** ** Manifest fetch *)

Lemma match_repo_needs_host (s : jsstring) :
  includes s (lit "github.com/") = false → match_repo s = None.
Proof.
  induction s as [|c s IH]; intros Hs.
  - done.
  - cbn [includes] in Hs. apply orb_false_iff in Hs as [Hhere Hs].
    cbn [match_repo]. unfold match_repo_here. rewrite Hhere. auto.
Qed.

(** The pattern cannot begin inside the text before an occurrence of
    itself without occurring there in full. *)
Lemma host_does_not_overlap (c : N) (p tail : jsstring) :
  startsWith (c :: p) (lit "github.com/") = false →
  startsWith ((c :: p) ++ lit "github.com/" ++ tail) (lit "github.com/") = false.
Proof.
  intros Hp.
  let pattern := eval vm_compute in (lit "github.com/") in
  change (lit "github.com/") with pattern in Hp |- *.
  repeat
    (cbn [startsWith app] in Hp |- *;
     match goal with
     | |- (?a =? ?b) && _ = false =>
         destruct (N.eqb_spec a b) as [<-|_]; [|done]
     end;
     cbn [andb] in Hp |- *;
     destruct p as [|? p]; [by vm_compute|]).
  by cbn [startsWith] in Hp.
Qed.

Lemma match_repo_skips (prefix s : jsstring) :
  includes prefix (lit "github.com/") = false →
  match_repo (prefix ++ lit "github.com/" ++ s)
  = match_repo (lit "github.com/" ++ s).
Proof.
  induction prefix as [|c prefix IH]; intros Hp; [done|].
  cbn [includes] in Hp. apply orb_false_iff in Hp as [Hhere Hp].
  change ((c :: prefix) ++ lit "github.com/" ++ s)
    with (c :: (prefix ++ lit "github.com/" ++ s)).
  cbn [match_repo]. unfold match_repo_here at 1.
  change (c :: (prefix ++ lit "github.com/" ++ s))
    with ((c :: prefix) ++ lit "github.com/" ++ s).
  rewrite (host_does_not_overlap c prefix s Hhere). auto.
Qed.

Lemma take_while_run (p : N → bool) (run : jsstring) (rest : jsstring) :
  forallb p run = true →
  match rest with [] => True | c :: _ => p c = false end →
  take_while p (run ++ rest) = run ∧ drop_while p (run ++ rest) = rest.
Proof.
  intros Hrun Hrest.
  rewrite (take_while_all _ _ _ Hrun), (drop_while_all _ _ _ Hrun).
  destruct rest as [|c rest]; simpl; [by rewrite app_nil_r|].
  by rewrite Hrest, app_nil_r.
Qed.

Lemma match_repo_of_here (s : jsstring) (m : jsstring * jsstring) :
  match_repo_here s = Some m → match_repo s = Some m.
Proof. intros Hm. destruct s; cbn [match_repo]; by rewrite Hm. Qed.

Lemma match_repo_reads (prefix owner repo rest : jsstring) :
  includes prefix (lit "github.com/") = false →
  owner ≠ [] → forallb not_slash owner = true →
  repo ≠ [] → forallb not_slash repo = true →
  match rest with [] => True | c :: _ => c = 47 end →
  match_repo (prefix ++ lit "github.com/" ++ owner ++ lit "/" ++ repo ++ rest)
  = Some (owner, repo).
Proof.
  intros Hprefix Howner Ho Hrepo Hr Hrest.
  rewrite (match_repo_skips _ _ Hprefix).
  assert (Hhere : match_repo_here
                    (lit "github.com/" ++ owner ++ lit "/" ++ repo ++ rest)
                  = Some (owner, repo)).
  { unfold match_repo_here. rewrite startsWith_self_app, drop_app_length.
    destruct (take_while_run not_slash owner (lit "/" ++ repo ++ rest) Ho eq_refl)
      as [-> ->].
    destruct owner as [|c owner]; [done|].
    change (lit "/" ++ repo ++ rest) with (47 :: (repo ++ rest)). cbv iota.
    destruct (take_while_run not_slash repo rest Hr) as [-> _].
    { destruct rest as [|c' rest]; [done|]. by subst c'. }
    by destruct repo. }
  by apply match_repo_of_here.
Qed.

Section FetchFacts.
Context `{SemverLib}.
Variable axios_get : jsstring → list (jsstring * jsstring) → result jsval.
Variable base64_to_utf8 : jsval → result jsstring.

(** An address that does not contain [github.com/] (an SSH address, a
    host name alone, another forge) is refused before any request is
    made, with a message that quotes it; the check of a repository with
    such an address returns the placeholder result with that message as
    its error. *)
Theorem address_without_host_is_refused (net : Collaborators)
  (repository : Repository) (latestFlutter : jsstring)
  (githubToken : option jsstring) :
  getPubspecFromGitHub net = GitHub.getPubspecFromGitHub axios_get base64_to_utf8 →
  includes (repo_url repository) (lit "github.com/") = false →
  GitHub.getPubspecFromGitHub axios_get base64_to_utf8 (repo_url repository)
    githubToken
  = Throw (lit "Invalid GitHub URL: " ++ repo_url repository)
  ∧ checkRepository net repository latestFlutter githubToken
    = Return (error_result repository latestFlutter
                (lit "Invalid GitHub URL: " ++ repo_url repository)).
Proof.
  intros Hnet Hurl.
  assert (Hthrow : GitHub.getPubspecFromGitHub axios_get base64_to_utf8
                     (repo_url repository) githubToken
                   = Throw (lit "Invalid GitHub URL: " ++ repo_url repository)).
  { unfold GitHub.getPubspecFromGitHub. by rewrite (match_repo_needs_host _ Hurl). }
  split; [done|].
  apply checkRepository_fetch_error. by rewrite Hnet.
Qed.

(** The request goes to the contents API of the owner and repository
    named right after the first [github.com/] of the address: the owner
    is the text up to the next slash, the repository the text up to the
    slash after that or to the end of the address, so that a trailing
    [.git], query or fragment is part of the repository name. *)
Theorem manifest_request_names_owner_and_repository
  (prefix owner repo rest : jsstring) (githubToken : option jsstring) :
  includes prefix (lit "github.com/") = false →
  owner ≠ [] → forallb not_slash owner = true →
  repo ≠ [] → forallb not_slash repo = true →
  match rest with [] => True | c :: _ => c = 47 end →
  GitHub.getPubspecFromGitHub axios_get base64_to_utf8
    (prefix ++ lit "github.com/" ++ owner ++ lit "/" ++ repo ++ rest) githubToken
  = (data ← axios_get (contents_url owner repo) (request_headers githubToken);
     content ← read_prop data (lit "content");
     base64_to_utf8 content).
Proof.
  intros Hprefix Howner Ho Hrepo Hr Hrest.
  unfold GitHub.getPubspecFromGitHub.
  by rewrite (match_repo_reads prefix owner repo rest).
Qed.

End FetchFacts.

Lemma address_without_host_is_refused_witness :
  GitHub.getPubspecFromGitHub (github_serving []) plain_decoder
    (lit "git@github.com:acme/app.git") None
  = Throw (lit "Invalid GitHub URL: " ++ lit "git@github.com:acme/app.git").
Proof.
  apply (@address_without_host_is_refused PlainSemver.lib
           (github_serving []) plain_decoder
           {| getPubspecFromGitHub :=
                GitHub.getPubspecFromGitHub (github_serving []) plain_decoder;
              yaml_parse := λ _, Return JNull;
              getLatestPackageVersion := λ _, Throw [] |}
           {| repo_name := lit "app"; repo_description := None;
              repo_url := lit "git@github.com:acme/app.git" |}
           (lit "3.29.0") None); [reflexivity|by vm_compute].
Defined.

Lemma manifest_request_names_owner_and_repository_witness :
  GitHub.getPubspecFromGitHub (github_serving (lit "name: app")) plain_decoder
    (lit "https://" ++ lit "github.com/" ++ lit "acme" ++ lit "/" ++ lit "app.git"
     ++ lit "/tree/main") None
  = (data ← github_serving (lit "name: app")
              (contents_url (lit "acme") (lit "app.git")) (request_headers None);
     content ← read_prop data (lit "content");
     plain_decoder content).
Proof.
  apply (manifest_request_names_owner_and_repository
           (github_serving (lit "name: app")) plain_decoder
           (lit "https://") (lit "acme") (lit "app.git") (lit "/tree/main") None);
    by vm_compute.
Defined.

(** ** Registry lookup *)

(** A lookup in the registry either returns a truthy value, the
    [version] of the [latest] of the response, or throws an error whose
    message begins with [Failed to get latest version for], the package
    name and a colon, whether the request failed or the response lacks
    the data. *)
Theorem registry_lookup_outcome (axios_get : jsstring → AxiosError + jsval)
  (json_stringify : jsval → jsstring) (packageName : jsstring) :
  match PubDev.getLatestPackageVersion axios_get json_stringify packageName with
  | Return version =>
      truthy version = true
      ∧ ∃ data,
          axios_get (lit "https://pub.dev/api/packages/" ++ packageName) = inr data
          ∧ version = get_prop (get_prop data (lit "latest")) (lit "version")
  | Throw message => ∃ reason, message = PubDev.failed packageName reason
  end.
Proof.
  unfold PubDev.getLatestPackageVersion.
  destruct (axios_get _) as [[status statusText| |message]|data]; try by eexists.
  destruct (truthy data); simpl; [|by eexists].
  destruct (truthy (get_prop data (lit "latest"))); simpl; [|by eexists].
  destruct (truthy (get_prop (get_prop data (lit "latest")) (lit "version")))
    eqn:Hversion; simpl; [|by eexists].
  split; [done|]. by exists data.
Qed.

(** ** The detail sheet *)

Section WorkbookFacts.
Import Workbook.
Context `{SemverLib}.

Lemma laid_out_put (state : Sheet * nat) (done : list (Row * option jsstring))
  (line : Row * option jsstring) :
  laid_out state done → laid_out (put line state) (done ++ [line]).
Proof.
  destruct state as [ws n], line as [row font].
  intros (Hrows & Hn & Hfont). cbn [fst snd] in *. subst n.
  assert (Hnew : ∀ k, (done ++ [(row, font)]) !! k ≫= snd
                      = if decide (k = length done) then font
                        else done !! k ≫= snd).
  { intros k. destruct (decide (k = length done)) as [->|Hk].
    - by rewrite list_lookup_middle.
    - destruct (decide (k < length done)%nat).
      + by rewrite lookup_app_l.
      + rewrite !lookup_ge_None_2; [done|lia|rewrite length_app; simpl; lia]. }
  unfold put, laid_out. cbn [fst snd].
  split; [|split].
  - destruct font; simpl; by rewrite fmap_app, Hrows.
  - rewrite length_app. simpl. lia.
  - intros k. rewrite Hnew.
    destruct (k <? 2)%nat eqn:Hk2.
    + apply Nat.ltb_lt in Hk2. specialize (Hfont k).
      replace (k <? 2)%nat with true in Hfont by (symmetry; by apply Nat.ltb_lt).
      destruct font; simpl; [rewrite lookup_insert_ne by lia|]; done.
    + apply Nat.ltb_ge in Hk2. specialize (Hfont k).
      replace (k <? 2)%nat with false in Hfont by (symmetry; by apply Nat.ltb_ge).
      destruct (decide (k - 2 = length done)%nat) as [Heq|Hne].
      * replace k with (length done + 2)%nat in * by lia.
        destruct font; simpl; [by rewrite lookup_insert_eq|].
        rewrite Hfont, lookup_ge_None_2; [done|lia].
      * destruct font; simpl; [rewrite lookup_insert_ne by lia|]; done.
Qed.

Lemma package_step_puts (r : CheckResult) (state : Sheet * nat) (pkg : PackageInfo) :
  package_step r state pkg = Return (put (package_line r pkg) state).
Proof.
  destruct state as [ws n]. unfold package_step, package_line, put.
  cbn [fst snd].
  destruct (pkg_updateAvailable pkg); [|done].
  destruct (getVersionUpdateType_returns (pkg_current pkg) (pkg_latest pkg))
    as [updateType ->].
  by destruct updateType as [[]|].
Qed.

Lemma package_loop_lays_out (r : CheckResult) (packages : list PackageInfo)
  (state : Sheet * nat) (done : list (Row * option jsstring)) :
  laid_out state done →
  ∃ state', for_each (package_step r) packages state = Return state'
            ∧ laid_out state' (done ++ (package_line r <$> packages)).
Proof.
  revert state done. induction packages as [|pkg packages IH]; intros state done Hs.
  - exists state. by rewrite app_nil_r.
  - cbn [for_each]. rewrite package_step_puts.
    destruct (IH _ _ (laid_out_put _ _ (package_line r pkg) Hs)) as (s' & -> & Hs').
    exists s'. split; [done|]. by rewrite <- app_assoc in Hs'.
Qed.

Lemma result_step_lays_out (r : CheckResult) (state : Sheet * nat)
  (done : list (Row * option jsstring)) :
  laid_out state done →
  ∃ state', result_step state r = Return state'
            ∧ laid_out state' (done ++ lines r).
Proof.
  intros Hs. destruct state as [ws n]. unfold result_step, lines.
  destruct (has_error r).
  - eexists. split; [done|]. by apply (laid_out_put (ws, n) done (_, Some _)).
  - match goal with
    | |- context [for_each _ _ (?w, S n)] =>
        destruct (package_loop_lays_out r (cr_packages r) (w, S n)
                    (done ++ [(({| repository := repo_name (cr_repository r);
                                   package := lit "Flutter SDK";
                                   current := JStr (fv_current (cr_flutter r));
                                   latest := fv_latest (cr_flutter r);
                                   flutter :=
                                     if fv_updateAvailable (cr_flutter r)
                                     then fv_current (cr_flutter r) ++ arrow
                                          ++ fv_latest (cr_flutter r)
                                     else fv_current (cr_flutter r) |},
                                 if fv_updateAvailable (cr_flutter r)
                                 then Some (lit "FFFF6600") else None))]))
          as (s' & Hloop & Hs')
    end.
    + destruct (fv_updateAvailable (cr_flutter r)).
      * by apply (laid_out_put (ws, n) done (_, Some _)).
      * by apply (laid_out_put (ws, n) done (_, None)).
    + exists s'. split; [done|]. by rewrite <- app_assoc in Hs'.
Qed.

Lemma result_loop_lays_out (results : list CheckResult) (state : Sheet * nat)
  (done : list (Row * option jsstring)) :
  laid_out state done →
  ∃ state', for_each result_step results state = Return state'
            ∧ laid_out state' (done ++ (results ≫= lines)).
Proof.
  revert state done. induction results as [|r results IH]; intros state done Hs.
  - exists state. by rewrite app_nil_r.
  - cbn [for_each].
    destruct (result_step_lays_out r state done Hs) as (s1 & -> & Hs1).
    destruct (IH _ _ Hs1) as (s' & -> & Hs').
    exists s'. split; [done|]. by rewrite <- app_assoc in Hs'.
Qed.

(** Filling the detail sheet never throws, so that [generateExcelFile]
    fails only when writing the buffer does, and the row counter stays
    in step with the rows added: the sheet holds the lines of the
    results one result after the other (one line for a result with an
    error, otherwise the runtime line and one line per package), and
    the font set on sheet row k + 2 is the font of the k-th line,
    across results of any sizes; rows 0 and 1 and the rows past the
    last line get no font. *)
Theorem detail_sheet_is_laid_out_by_result
  (writeBuffer : Sheet → result (list N)) (results : list CheckResult) :
  ∃ sheet,
    fill_sheet results = Return sheet
    ∧ generateExcelFile writeBuffer results = writeBuffer sheet
    ∧ rows sheet = (results ≫= lines).*1
    ∧ ∀ n, row_font sheet !! n
           = if (n <? 2)%nat then None
             else (results ≫= lines) !! (n - 2)%nat ≫= snd.
Proof.
  destruct (result_loop_lays_out results (empty_sheet, 2%nat) [])
    as ([sheet n] & Hloop & Hrows & _ & Hfont).
  { split; [done|]. split; [done|]. intros n.
    unfold empty_sheet. cbn [fst row_font]. rewrite lookup_empty.
    by destruct (n <? 2)%nat. }
  exists sheet. unfold generateExcelFile, fill_sheet. rewrite Hloop. done.
Qed.

End WorkbookFacts.

(** ** Latest runtime version *)

Section LatestFacts.
Variable axios_get : jsstring → result jsval.

Lemma is_stable_present (r : jsval) :
  is_present r →
  Flutter.is_stable r
  = Return (is_string (get_prop r (lit "channel")) (lit "stable")).
Proof. intros [? ?]. by destruct r. Qed.

Lemma filter_m_present (items : list jsval) :
  Forall is_present items →
  filter_m Flutter.is_stable items
  = Return (List.filter
              (λ r, is_string (get_prop r (lit "channel")) (lit "stable")) items).
Proof.
  induction 1 as [|r items Hr _ IH]; [done|].
  cbn [filter_m List.filter]. rewrite (is_stable_present r Hr), IH. simpl.
  by destruct (is_string _ _).
Qed.

Lemma find_of_filter {A} (p : A → bool) (l : list A) :
  List.find p l = head (List.filter p l).
Proof. induction l as [|x l IH]; simpl; [done|]. by destruct (p x). Qed.

(** When the bucket answers with a list of releases none of which is
    null, only the first release of the stable channel matters: its
    [version] is returned as it is, whatever it is, and GitHub is not
    asked; without such a release the answer is GitHub's. *)
Theorem first_stable_release_wins (data : jsval) (items : list jsval) :
  axios_get releases_url = Return data →
  get_prop data (lit "releases") = JArr items →
  Forall is_present items →
  Flutter.getLatestFlutterVersion axios_get
  = match List.find
            (λ r, is_string (get_prop r (lit "channel")) (lit "stable")) items with
    | Some r => Return (get_prop r (lit "version"))
    | None => Flutter.fallback axios_get
    end.
Proof.
  intros Hdata Hreleases Hitems.
  unfold Flutter.getLatestFlutterVersion, Flutter.primary. rewrite Hdata. simpl.
  assert (Hread : read_prop data (lit "releases") = Return (JArr items)).
  { destruct data; try done. by rewrite <- Hreleases. }
  rewrite Hread. simpl. rewrite (filter_m_present items Hitems). simpl.
  rewrite find_of_filter.
  destruct (List.filter _ items) as [|first rest] eqn:Hfilter; [done|]. simpl.
  assert (Hfirst : List.In first (first :: rest)) by by left.
  rewrite <- Hfilter in Hfirst. apply List.filter_In in Hfirst as [Hfirst _].
  apply list_elem_of_In in Hfirst.
  destruct (proj1 (Forall_forall _ _) Hitems first Hfirst) as [? ?].
  by destruct first.
Qed.





End LatestFacts.

Lemma first_stable_release_wins_witness :
  Flutter.getLatestFlutterVersion bucket_up = Return (JStr (lit "3.29.0")).
Proof.
  apply (first_stable_release_wins bucket_up bucket_releases
           [JObj [(lit "channel", JStr (lit "beta"));
                  (lit "version", JStr (lit "3.30.0-0.1.pre"))];
            JObj [(lit "channel", JStr (lit "stable"));
                  (lit "version", JStr (lit "3.29.0"))];
            JObj [(lit "channel", JStr (lit "stable"));
                  (lit "version", JStr (lit "3.27.4"))]]);
    [reflexivity|reflexivity|].
  repeat constructor; discriminate.
Defined.


(** ** The blocks of the notification *)

Lemma fold_left_push {A B} (f : A → option B) (l : list A) (acc : list B) :
  fold_left (λ acc x, match f x with Some b => acc ++ [b] | None => acc end) l acc
  = acc ++ omap f l.
Proof.
  revert acc. induction l as [|x l IH]; intros acc; simpl.
  - by rewrite app_nil_r.
  - rewrite IH. destruct (f x); [by rewrite <- app_assoc|done].
Qed.

Lemma flutterVersions_length (results : list CheckResult) :
  length (flutterVersions results) = successfulChecks results.
Proof.
  unfold flutterVersions, successfulChecks.
  assert (Hgen : ∀ acc,
            length (fold_left
              (λ flutterVersions r,
                 if negb (has_error r) then
                   flutterVersions
                   ++ [{| fl_repo := repo_name (cr_repository r);
                          fl_current := fv_current (cr_flutter r);
                          fl_latest := fv_latest (cr_flutter r);
                          fl_updateAvailable := fv_updateAvailable (cr_flutter r) |}]
                 else flutterVersions) results acc)
            = (length acc + length (filter (λ r, has_error r = false) results))%nat).
  { induction results as [|r results IH]; intros acc; simpl; [lia|].
    rewrite IH. destruct (has_error r) eqn:Hr; simpl.
    - rewrite filter_cons_False; [done|]. by rewrite Hr.
    - rewrite filter_cons_True by done. rewrite length_app. simpl. lia. }
  by rewrite Hgen.
Qed.

Lemma checks_partition (results : list CheckResult) :
  (successfulChecks results + failedChecks results)%nat = length results.
Proof.
  unfold successfulChecks, failedChecks.
  induction results as [|r results IH]; [done|].
  destruct (has_error r) eqn:Hr.
  - rewrite (filter_cons_False (λ r, has_error r = false)) by by rewrite Hr.
    rewrite (filter_cons_True (λ r, has_error r = true)) by done. simpl. lia.
  - rewrite (filter_cons_True (λ r, has_error r = false)) by done.
    rewrite (filter_cons_False (λ r, has_error r = true)) by by rewrite Hr.
    simpl. lia.
Qed.

Section ComposeFacts.
Variable to_text : jsval → jsstring.
Variable toLocaleString : jsstring.

Lemma detail_block_in_message (results : list CheckResult)
  (latestFlutter : jsstring) (r : CheckResult) (block : Block) :
  r ∈ results →
  Notice.detail_block to_text r = Some block →
  block ∈ Notice.compose_blocks to_text toLocaleString results latestFlutter.
Proof.
  intros Hr Hblock. unfold Notice.compose_blocks.
  apply elem_of_app. left.
  unfold Notice.detail_step. rewrite fold_left_push.
  apply elem_of_app. right.
  apply list_elem_of_omap. by exists r.
Qed.

Lemma flutterVersions_lines (results : list CheckResult) :
  flutter_bullet <$> flutterVersions results
  = runtime_line <$> filter (λ r, has_error r = false) results.
Proof.
  unfold flutterVersions.
  assert (Hgen : ∀ acc,
            flutter_bullet <$>
              fold_left
                (λ flutterVersions r,
                   if negb (has_error r) then
                     flutterVersions
                     ++ [{| fl_repo := repo_name (cr_repository r);
                            fl_current := fv_current (cr_flutter r);
                            fl_latest := fv_latest (cr_flutter r);
                            fl_updateAvailable :=
                              fv_updateAvailable (cr_flutter r) |}]
                   else flutterVersions) results acc
            = (flutter_bullet <$> acc)
              ++ (runtime_line <$> filter (λ r, has_error r = false) results)).
  { induction results as [|r results IH]; intros acc; simpl.
    - by rewrite app_nil_r.
    - rewrite IH. destruct (has_error r) eqn:Hr; simpl.
      + rewrite filter_cons_False; [done|]. by rewrite Hr.
      + rewrite filter_cons_True by done.
        by rewrite fmap_app, fmap_cons, <- app_assoc. }
  apply (Hgen []).
Qed.

Lemma message_blocks (results : list CheckResult) (latestFlutter : jsstring) :
  Notice.compose_blocks to_text toLocaleString results latestFlutter
  = [HeaderBlock (if hasUpdates results
                  then [55357; 56580; 32] ++ update_text
                  else [9989; 32] ++ check_text);
     FieldsBlock (count_fields results latestFlutter)]
    ++ (if (0 <? successfulChecks results)%nat
        then [TextBlock
                (runtime_title
                 ++ join [10] (runtime_line <$>
                                 filter (λ r, has_error r = false) results))]
        else [])
    ++ omap (Notice.detail_block to_text) results
    ++ [ContextBlock [[26368; 32066; 12481; 12455; 12483; 12463; 58; 32]
                      ++ toLocaleString]].
Proof.
  unfold Notice.compose_blocks, Notice.detail_step.
  rewrite fold_left_push, flutterVersions_length, flutterVersions_lines.
  destruct (0 <? successfulChecks results)%nat; by rewrite <- !app_assoc.
Qed.

(** Every result is accounted for in the message. The second block of
    the message holds the fields that count the results, the successful
    checks and the failed ones, and these two counts add up to the
    first; every failed check has a block of its own that names the
    repository and quotes the error; and every successful check has its
    line in the third block, the list of runtime versions, which has
    one line per successful check. *)
Theorem every_result_is_accounted_for (results : list CheckResult)
  (latestFlutter : jsstring) :
  (successfulChecks results + failedChecks results)%nat = length results
  ∧ Notice.compose_blocks to_text toLocaleString results latestFlutter !! 1%nat
    = Some (FieldsBlock (count_fields results latestFlutter))
  ∧ (∀ r, r ∈ results → has_error r = true →
          TextBlock (error_text r)
          ∈ Notice.compose_blocks to_text toLocaleString results latestFlutter)
  ∧ (∀ r, r ∈ results → has_error r = false →
          ∃ lines,
            Notice.compose_blocks to_text toLocaleString results latestFlutter
              !! 2%nat
            = Some (TextBlock (runtime_title ++ join [10] lines))
            ∧ runtime_line r ∈ lines
            ∧ length lines = successfulChecks results).
Proof.
  split; [apply checks_partition|].
  split; [by rewrite message_blocks|].
  split.
  - intros r Hr Herror. apply (detail_block_in_message _ _ r); [done|].
    unfold Notice.detail_block. by rewrite Herror.
  - intros r Hr Hgood.
    exists (runtime_line <$> filter (λ r, has_error r = false) results).
    assert (Hin : r ∈ filter (λ r, has_error r = false) results)
      by by apply list_elem_of_filter.
    split; [|split].
    + rewrite message_blocks.
      replace (0 <? successfulChecks results)%nat with true; [done|].
      symmetry. apply Nat.ltb_lt. unfold successfulChecks.
      destruct (filter _ results); [by apply elem_of_nil in Hin|simpl; lia].
    + by apply list_elem_of_fmap_2.
    + by rewrite length_fmap.
Qed.

Lemma hasUpdates_of_result (results : list CheckResult) (r : CheckResult) :
  r ∈ results → has_error r = false →
  fv_updateAvailable (cr_flutter r) = true →
  hasUpdates results = true.
Proof.
  intros Hr Herror Hflag. unfold hasUpdates.
  apply existsb_exists. exists r.
  split; [by apply list_elem_of_In|]. by rewrite Herror, Hflag.
Qed.

(** A repository whose only update is the runtime is announced by the
    update header, and its block of details holds nothing but its name
    in bold and a line break: the runtime versions are listed in the
    block of runtime versions only. *)
Theorem runtime_only_update_has_bare_details (results : list CheckResult)
  (latestFlutter : jsstring) (r : CheckResult) :
  r ∈ results →
  has_error r = false →
  fv_updateAvailable (cr_flutter r) = true →
  outdated_count r = 0%nat →
  head (Notice.compose_blocks to_text toLocaleString results latestFlutter)
  = Some (HeaderBlock ([55357; 56580; 32] ++ update_text))
  ∧ TextBlock (lit "*" ++ repo_name (cr_repository r) ++ lit "*" ++ [10])
    ∈ Notice.compose_blocks to_text toLocaleString results latestFlutter.
Proof.
  intros Hr Herror Hflag Hnone. split.
  - unfold Notice.compose_blocks.
    rewrite (hasUpdates_of_result results r Hr Herror Hflag).
    unfold Notice.detail_step. rewrite fold_left_push.
    by destruct (0 <? length (flutterVersions results))%nat.
  - apply (detail_block_in_message _ _ r); [done|].
    unfold Notice.detail_block, Notice.update_details.
    unfold outdated_count in Hnone.
    by rewrite Herror, Hflag, Hnone.
Qed.

Lemma some_package_outdated (packages : list PackageInfo) :
  existsb pkg_updateAvailable packages = (0 <? outdatedPackageCount packages)%nat.
Proof.
  induction packages as [|p packages IH]; [done|].
  cbn [existsb outdatedPackageCount]. by destruct (pkg_updateAvailable p).
Qed.

Lemma needs_update_test (r : CheckResult) :
  negb (has_error r)
  && (fv_updateAvailable (cr_flutter r)
      || existsb pkg_updateAvailable (cr_packages r)) = true
  ↔ overallStatus r = NeedsUpdate.
Proof.
  rewrite some_package_outdated.
  unfold has_error, truthy_str, overallStatus.
  destruct (cr_error r) as [[|c message]|]; simpl; try done;
    destruct (fv_updateAvailable (cr_flutter r)); simpl; try done;
    by destruct (0 <? outdatedPackageCount (cr_packages r))%nat.
Qed.

Lemma no_details_test (r : CheckResult) :
  Notice.detail_block to_text r = None ↔ overallStatus r = UpToDate.
Proof.
  unfold Notice.detail_block. fold (outdated_count r).
  rewrite outdated_count_counts.
  unfold has_error, truthy_str, overallStatus.
  destruct (cr_error r) as [[|c message]|]; simpl; try done;
    destruct (fv_updateAvailable (cr_flutter r)); simpl; try done;
    by destruct (0 <? outdatedPackageCount (cr_packages r))%nat.
Qed.

Lemma status_text_inj (a b : OverallStatus) :
  status_text a = status_text b → a = b.
Proof. destruct a, b; try done; by vm_compute. Qed.

Lemma summary_statuses (results : list CheckResult) :
  sr_status <$> ws_rows (createSummarySheet results)
  = (λ r, Text (status_text (overallStatus r))) <$> results.
Proof. unfold createSummarySheet. by rewrite summary_loop_status. Qed.

Lemma details_count (results : list CheckResult) :
  length (omap (Notice.detail_block to_text) results)
  = length (filter (λ status, status ≠ Text text_up_to_date)
              ((λ r, Text (status_text (overallStatus r))) <$> results)).
Proof.
  induction results as [|r results IH]; [done|].
  rewrite fmap_cons. cbn [omap list_omap].
  destruct (Notice.detail_block to_text r) as [block|] eqn:Hblock.
  - rewrite filter_cons_True; [simpl; by rewrite IH|].
    intros [= Hstatus]. apply (status_text_inj _ UpToDate) in Hstatus.
    apply no_details_test in Hstatus. congruence.
  - apply no_details_test in Hblock. rewrite Hblock.
    rewrite filter_cons_False; [done|]. by intros Hne.
Qed.

(** The message and the summary sheet agree: the message opens with the
    update header exactly when the status column of the summary sheet
    holds a cell that asks for an update, and the message has, besides
    its header, its fields, its list of runtime versions (when some
    check succeeded) and its context line, as many blocks as the status
    column has cells that are not up to date. *)
Theorem notification_agrees_with_summary (results : list CheckResult)
  (latestFlutter : jsstring) :
  (head (Notice.compose_blocks to_text toLocaleString results latestFlutter)
   = Some (HeaderBlock ([55357; 56580; 32] ++ update_text))
   ↔ Text text_needs_update ∈ sr_status <$> ws_rows (createSummarySheet results))
  ∧ length (Notice.compose_blocks to_text toLocaleString results latestFlutter)
    = ((if (0 <? successfulChecks results)%nat then 4 else 3)
       + length (filter (λ status, status ≠ Text text_up_to_date)
                   (sr_status <$> ws_rows (createSummarySheet results))))%nat.
Proof.
  rewrite summary_statuses, message_blocks. split.
  - assert (Hsome : hasUpdates results = true
                    ↔ Text text_needs_update
                      ∈ (λ r, Text (status_text (overallStatus r))) <$> results).
    { unfold hasUpdates. rewrite existsb_exists, list_elem_of_fmap. split.
      - intros (r & Hr & Hneeds). exists r.
        apply needs_update_test in Hneeds. rewrite Hneeds.
        split; [done|]. by apply list_elem_of_In.
      - intros (r & Hstatus & Hr). exists r.
        split; [by apply list_elem_of_In|]. apply needs_update_test.
        injection Hstatus as Hstatus.
        by apply (status_text_inj NeedsUpdate) in Hstatus. }
    rewrite <- Hsome. cbn [app head].
    destruct (hasUpdates results); [done|].
    split; [|done]. by intros [=].
  - rewrite !length_app, details_count.
    destruct (0 <? successfulChecks results)%nat; simpl; lia.
Qed.

End ComposeFacts.

Lemma runtime_only_update_has_bare_details_witness :
  TextBlock (lit "*" ++ repo_name demo_repository ++ lit "*" ++ [10])
  ∈ Notice.compose_blocks text_of_string (lit "2026/11/3 15:58:00")
      [demo_result; runtime_only_result] (lit "3.29.0").
Proof.
  apply (runtime_only_update_has_bare_details text_of_string
           (lit "2026/11/3 15:58:00") [demo_result; runtime_only_result]
           (lit "3.29.0") runtime_only_result); try reflexivity.
  apply list_elem_of_In. right. by left.
Defined.

(** ** The program *)

Section ProgramFacts.
Context `{SemverLib}.
Context {Blocks : Type}.
Variable getLatestFlutterVersion : result jsstring.
Variable net : Collaborators.
Variable slack : jsstring → Messaging Blocks.

Lemma checkRepository_returns (repository : Repository) (latestFlutter : jsstring)
  (githubToken : option jsstring) :
  ∃ r, checkRepository net repository latestFlutter githubToken = Return r
       ∧ cr_repository r = repository.
Proof.
  destruct (checkRepository_cases net repository latestFlutter githubToken)
    as [(message & Hr & _) | (content & pubspec & Hf & Hy & Ht & Hrender)].
  - by eexists.
  - eexists. by split; [apply (checkRepository_parsed net _ _ _ content pubspec)|].
Qed.

Lemma check_loop_runs (repositories : list Repository) (latestFlutter : jsstring)
  (githubToken : option jsstring) (results : list CheckResult) :
  ∃ more,
    check_loop net repositories latestFlutter githubToken results
    = (checks repositories, Return (results ++ more))
    ∧ cr_repository <$> more = repositories.
Proof.
  revert results.
  induction repositories as [|repo rest IH]; intros results.
  - exists []. by rewrite app_nil_r.
  - cbn [check_loop].
    destruct (checkRepository_returns repo latestFlutter githubToken)
      as (r & -> & Hr).
    destruct (IH (results ++ [r])) as (more & -> & Hmore).
    exists (r :: more). split; [by rewrite <- app_assoc|].
    by rewrite fmap_cons, Hr, Hmore.
Qed.

Lemma checks_never_exit (repositories : list Repository) :
  existsb is_exit (checks repositories) = false.
Proof. induction repositories as [|repo rest IH]; [done|]. exact IH. Qed.

(** A run whose surroundings are in order (the configuration exists and
    can be read, both Slack variables are set, the latest runtime
    version is obtained and the message is posted) completes: it checks
    every repository of the configuration in order, notifies once and
    ends with its last line, without calling [process.exit], whatever
    happens to the single checks and to the upload of the workbook. *)
Theorem repository_failures_do_not_fail_the_run (env : Environment)
  (repositories : list Repository) (token channel latestFlutter : jsstring) :
  existsSync env (str_or (REPOSITORIES_CONFIG env) (default_config_path env)) = true →
  read_config env (str_or (REPOSITORIES_CONFIG env) (default_config_path env))
  = Return repositories →
  SLACK_BOT_TOKEN env = Some token → token ≠ [] →
  SLACK_CHANNEL env = Some channel → channel ≠ [] →
  getLatestFlutterVersion = Return latestFlutter →
  (∀ results, returns (chat_postMessage (slack token) channel
                         (notification_text results)
                         (compose_blocks (slack token) results latestFlutter))) →
  ∃ results effects,
    main getLatestFlutterVersion net slack env
    = [Print log_start; AskLatest; Print (log_latest latestFlutter)]
      ++ checks repositories
      ++ [Print log_sending; Notify effects; Print log_done]
    ∧ cr_repository <$> results = repositories
    ∧ effects = (sendSlackNotification (slack token) channel results latestFlutter []).2.
Proof.
  intros Hexists Hread Htoken Htoken' Hchannel Hchannel' Hlatest Hpost.
  destruct (check_loop_runs repositories latestFlutter (GH_TOKEN env) [])
    as (results & Hloop & Hresults).
  destruct (Hpost results) as [response Hresponse].
  pose proof (sendSlackNotification_returns (slack token) channel results
                latestFlutter response [] Hresponse) as Hsent.
  exists results, (sendSlackNotification (slack token) channel results latestFlutter []).2.
  split; [|done].
  unfold main. rewrite Hexists, Hread, Htoken, Hchannel, Hlatest, Hloop.
  destruct token as [|t token]; [done|]. destruct channel as [|c channel]; [done|].
  simpl negb. cbv iota. cbn [default].
  destruct (sendSlackNotification _ _ _ _ _) as [sent effects].
  cbn [fst snd] in *. by rewrite Hsent.
Qed.

(** The channel is looked at last: without [SLACK_CHANNEL], a run whose
    surroundings are otherwise in order still asks for the latest
    runtime version and checks every repository of the configuration,
    and only then reports the missing variable and exits with status 1,
    without any call to Slack. *)
Theorem channel_is_checked_last (env : Environment)
  (repositories : list Repository) (token latestFlutter : jsstring) :
  existsSync env (str_or (REPOSITORIES_CONFIG env) (default_config_path env)) = true →
  read_config env (str_or (REPOSITORIES_CONFIG env) (default_config_path env))
  = Return repositories →
  SLACK_BOT_TOKEN env = Some token → token ≠ [] →
  truthy_str (SLACK_CHANNEL env) = false →
  getLatestFlutterVersion = Return latestFlutter →
  main getLatestFlutterVersion net slack env
  = [Print log_start; AskLatest; Print (log_latest latestFlutter)]
    ++ checks repositories
    ++ [Print log_sending;
        PrintError (lit "Error: SLACK_CHANNEL environment variable is required");
        Exit 1].
Proof.
  intros Hexists Hread Htoken Htoken' Hchannel Hlatest.
  destruct (check_loop_runs repositories latestFlutter (GH_TOKEN env) [])
    as (results & Hloop & _).
  unfold main. rewrite Hexists, Hread, Htoken, Hchannel, Hlatest, Hloop.
  by destruct token.
Qed.

(** A run ends in one of two ways: with its last line, or with
    [process.exit(1)]; it calls [process.exit] at most once, as its
    last act, and with no other status. *)
Theorem run_ends_done_or_exits_with_one (env : Environment) :
  ∃ events,
    existsb is_exit events = false
    ∧ (main getLatestFlutterVersion net slack env = events ++ [Print log_done]
       ∨ main getLatestFlutterVersion net slack env = events ++ [Exit 1]).
Proof.
  unfold main.
  destruct (existsSync env _); simpl negb; cbv iota;
    [|eexists [_; _]; split; [|right; reflexivity]; reflexivity].
  destruct (read_config env _) as [repositories|e];
    [|eexists [_]; split; [|right; reflexivity]; reflexivity].
  destruct (truthy_str (SLACK_BOT_TOKEN env)); simpl negb; cbv iota;
    [|eexists [_]; split; [|right; reflexivity]; reflexivity].
  destruct getLatestFlutterVersion as [latestFlutter|e];
    [|eexists [_; _; _]; split; [|right; reflexivity]; reflexivity].
  destruct (check_loop_runs repositories latestFlutter (GH_TOKEN env) [])
    as (results & -> & _).
  destruct (truthy_str (SLACK_CHANNEL env)); simpl negb; cbv iota.
  - destruct (sendSlackNotification _ _ _ _ _) as [[[]|e] effects].
    + exists ([Print log_start; AskLatest; Print (log_latest latestFlutter)]
              ++ checks repositories ++ [Print log_sending; Notify effects]).
      split.
      * simpl. rewrite existsb_app, checks_never_exit. done.
      * left. simpl. by rewrite <- !app_assoc.
    + exists ([Print log_start; AskLatest; Print (log_latest latestFlutter)]
              ++ checks repositories
              ++ [Print log_sending; Notify effects; PrintCaught e]).
      split.
      * simpl. rewrite existsb_app, checks_never_exit. done.
      * right. simpl. by rewrite <- !app_assoc.
  - exists ([Print log_start; AskLatest; Print (log_latest latestFlutter)]
            ++ checks repositories
            ++ [Print log_sending;
                PrintError
                  (lit "Error: SLACK_CHANNEL environment variable is required")]).
    split.
    + simpl. rewrite existsb_app, checks_never_exit. done.
    + right. simpl. by rewrite <- !app_assoc.
Qed.

End ProgramFacts.

Lemma repository_failures_do_not_fail_the_run_witness :
  ∃ results effects,
    @main PlainSemver.lib unit (Return (lit "3.29.0")) demo_net
      (λ _, slack_accepting) (demo_environment (Some (lit "C0123456789A")))
    = [Print log_start; AskLatest; Print (log_latest (lit "3.29.0"))]
      ++ checks [demo_repository]
      ++ [Print log_sending; Notify effects; Print log_done]
    ∧ cr_repository <$> results = [demo_repository]
    ∧ effects = (sendSlackNotification slack_accepting (lit "C0123456789A")
                   results (lit "3.29.0") []).2.
Proof.
  apply (@repository_failures_do_not_fail_the_run PlainSemver.lib unit
           (Return (lit "3.29.0")) demo_net (λ _, slack_accepting)
           (demo_environment (Some (lit "C0123456789A")))
           [demo_repository] (lit "xoxb-demo") (lit "C0123456789A") (lit "3.29.0"));
    try reflexivity; try discriminate.
  intros results. by eexists.
Defined.

Lemma channel_is_checked_last_witness :
  @main PlainSemver.lib unit (Return (lit "3.29.0")) demo_net
    (λ _, slack_accepting) (demo_environment None)
  = [Print log_start; AskLatest; Print (log_latest (lit "3.29.0"))]
    ++ checks [demo_repository]
    ++ [Print log_sending;
        PrintError (lit "Error: SLACK_CHANNEL environment variable is required");
        Exit 1].
Proof.
  apply (@channel_is_checked_last PlainSemver.lib unit
           (Return (lit "3.29.0")) demo_net (λ _, slack_accepting)
           (demo_environment None) [demo_repository] (lit "xoxb-demo") (lit "3.29.0"));
    try reflexivity; discriminate.
Defined.

(** ** The name of a repository sheet *)

(** The name of the sheet of a repository is never longer than 31 code
    units; it is the beginning of the name of the repository, and the
    whole name when that has at most 31 units, so that two repositories
    whose long names begin with the same 31 units are given the same
    sheet name. *)
Theorem sheet_name_fits_the_limit (r : CheckResult) :
  (length (sheetName r) ≤ 31)%nat
  ∧ sheetName r = take 31 (repo_name (cr_repository r))
  ∧ ((length (repo_name (cr_repository r)) ≤ 31)%nat →
     sheetName r = repo_name (cr_repository r))
  ∧ ∀ r', take 31 (repo_name (cr_repository r')) = take 31 (repo_name (cr_repository r)) →
          sheetName r' = sheetName r.
Proof.
  assert (Htake : ∀ x, sheetName x = take 31 (repo_name (cr_repository x))).
  { intros x. unfold sheetName.
    destruct (31 <? length (repo_name (cr_repository x)))%nat eqn:Hlong; [done|].
    apply Nat.ltb_ge in Hlong. by rewrite take_ge. }
  split; [rewrite Htake, length_take; lia|].
  split; [apply Htake|].
  split; [intros Hshort; by rewrite Htake, take_ge|].
  intros r' Hsame. by rewrite !Htake.
Qed.
